(** * RCS ZC6R HVAC controller bridge: a shallow embedding and its properties

    The development follows the three Python modules of the bridge:
    - [zones.py]: the [Zone] objects and the two module-level dictionaries;
    - [rcs_controller.py]: the serial protocol codec ([set_setpoint],
      [set_mode], the two status decoders, the poll step and the control loop);
    - [mqtt_client.py]: [publish_all_zone_status] and the message handler
      [on_message], the latter in the two versions that the repository holds.

    Python's builtins that the code relies on ([bytes.split], [int], [float],
    [format(x, ".0f")], ordered dictionaries) are modelled first. *)

From Stdlib Require Import ZArith Lia Ascii String List Bool DecimalString DecimalZ DecimalPos.
From Stdlib Require Import QArith Qabs.
From Stdlib Require Import Floats.SpecFloat.
From stdpp Require Import base tactics option list.

Local Close Scope Q_scope.
Local Open Scope string_scope.
Local Open Scope Z_scope.

(** ** Python builtins *)

(** [bytes] objects are sequences of 8-bit characters, as Rocq's [string];
    a Python [str] is represented by its UTF-8 encoding, which for ASCII text
    is the text itself.  Two [str] are equal exactly when their encodings
    are, and the byte of an ASCII character occurs in an encoding only where
    that character stands. *)
Definition bytes := string.
Definition str := string.

Module Py.

(** Exceptions that the modelled code can raise. *)
Inductive exn :=
| ValueError
| UnicodeDecodeError
| KeyError
| PortNotOpenError
| AttributeError.

(** *** Characters *)

Definition code (c : ascii) : Z := Z.of_N (N_of_ascii c).

(** ASCII whitespace, as used by [bytes.split()] and by the number parsers:
    space, tab, newline, carriage return, vertical tab and form feed. *)
Definition isspace (c : ascii) : bool :=
  ((9 <=? code c) && (code c <=? 13)) || (code c =? 32).

Definition isdigit (c : ascii) : bool :=
  (48 <=? code c) && (code c <=? 57).

Definition digit_value (c : ascii) : Z := code c - 48.

Definition tolower (c : ascii) : ascii :=
  if (65 <=? code c) && (code c <=? 90)
  then ascii_of_N (Z.to_N (code c + 32)) else c.

(** *** Slices and prefixes *)

(** [s[n:]] for a non-negative [n]. *)
Fixpoint slice_from (n : nat) (s : bytes) : bytes :=
  match n, s with
  | O, _ => s
  | S n', String _ s' => slice_from n' s'
  | S _, EmptyString => EmptyString
  end.

(** [s[:n]] for a non-negative [n]. *)
Fixpoint slice_to (n : nat) (s : bytes) : bytes :=
  match n, s with
  | O, _ => EmptyString
  | S n', String c s' => String c (slice_to n' s')
  | S _, EmptyString => EmptyString
  end.

(** [s[i:j]] for non-negative [i <= j]. *)
Definition slice (i j : nat) (s : bytes) : bytes :=
  slice_to (j - i) (slice_from i s).

(** [s.startswith(p)]. *)
Definition startswith (s p : bytes) : bool := String.prefix p s.

(** *** [bytes.split()] *)

(** Splitting on runs of ASCII whitespace; empty pieces are dropped.  [cur] is
    the token being accumulated. *)
Fixpoint split_from (cur : bytes) (s : bytes) : list bytes :=
  match s with
  | EmptyString => if String.eqb cur "" then [] else [cur]
  | String c s' =>
      if isspace c then
        if String.eqb cur "" then split_from "" s' else cur :: split_from "" s'
      else split_from (cur ++ String c "") s'
  end.

Definition split (s : bytes) : list bytes := split_from "" s.

(** Stripping leading and trailing whitespace, as the number parsers do. *)
Fixpoint lstrip (s : bytes) : bytes :=
  match s with
  | String c s' => if isspace c then lstrip s' else s
  | EmptyString => EmptyString
  end.

Fixpoint rstrip (s : bytes) : bytes :=
  match s with
  | String c s' =>
      match rstrip s' with
      | EmptyString => if isspace c then EmptyString else String c EmptyString
      | r => String c r
      end
  | EmptyString => EmptyString
  end.

Definition strip (s : bytes) : bytes := rstrip (lstrip s).

(** *** [bytes.decode("ascii")] *)

Fixpoint is_ascii (s : bytes) : bool :=
  match s with
  | EmptyString => true
  | String c s' => (code c <? 128) && is_ascii s'
  end.

Definition decode_ascii (s : bytes) : exn + str :=
  if is_ascii s then inr s else inl UnicodeDecodeError.

(** *** [bytes.decode("utf-8")] *)

(** A continuation byte, [0x80] to [0xBF]. *)
Definition is_continuation (c : ascii) : bool := (128 <=? code c) && (code c <=? 191).

(** The range of the second byte of a sequence, by its first byte: it keeps
    out encodings longer than needed, the surrogates and what lies beyond
    [U+10FFFF]. *)
Definition second_byte_ok (lead : Z) (c : ascii) : bool :=
  if lead =? 224 then (160 <=? code c) && (code c <=? 191)
  else if lead =? 237 then (128 <=? code c) && (code c <=? 159)
  else if lead =? 240 then (144 <=? code c) && (code c <=? 191)
  else if lead =? 244 then (128 <=? code c) && (code c <=? 143)
  else is_continuation c.

(** Well-formed UTF-8: what the strict decoder accepts. *)
Fixpoint is_utf8 (s : bytes) : bool :=
  match s with
  | EmptyString => true
  | String a s1 =>
      if code a <? 128 then is_utf8 s1
      else if (194 <=? code a) && (code a <=? 223) then
        match s1 with
        | String b s2 => is_continuation b && is_utf8 s2
        | _ => false
        end
      else if (224 <=? code a) && (code a <=? 239) then
        match s1 with
        | String b (String c s3) =>
            second_byte_ok (code a) b && is_continuation c && is_utf8 s3
        | _ => false
        end
      else if (240 <=? code a) && (code a <=? 244) then
        match s1 with
        | String b (String c (String d s4)) =>
            second_byte_ok (code a) b && is_continuation c && is_continuation d && is_utf8 s4
        | _ => false
        end
      else false
  end.

Definition decode_utf8 (s : bytes) : exn + str :=
  if is_utf8 s then inr s else inl UnicodeDecodeError.

(** *** [int(b)] for a [bytes] argument, base 10 *)

(** The interpreter's default limit on the number of digits of a decimal
    literal converted by [int]. *)
Definition int_max_str_digits : Z := 4300.

(** Scans digits and underscores: no two underscores in a row, none at the
    end, nothing but digits and underscores.  Returns the value and the
    number of digits. *)
Fixpoint scan_digits (s : bytes) (prev : ascii) (acc : Z) (digits : Z)
  : option (Z * Z) :=
  match s with
  | EmptyString =>
      if Ascii.eqb prev "_" then None else Some (acc, digits)
  | String c s' =>
      if Ascii.eqb c "_" then
        if Ascii.eqb prev "_" then None else scan_digits s' c acc digits
      else if isdigit c then
        scan_digits s' c (10 * acc + digit_value c) (digits + 1)
      else None
  end.

Definition split_sign (s : bytes) : bool * bytes :=
  match s with
  | String "-" s' => (true, s')
  | String "+" s' => (false, s')
  | _ => (false, s)
  end.

(** [int(b)]: [None] stands for the [ValueError] that Python raises. *)
Definition int (b : bytes) : option Z :=
  let '(neg, body) := split_sign (strip b) in
  match body with
  | EmptyString => None
  | String "_" _ => None
  | _ =>
      match scan_digits body "000" 0 0 with
      | Some (v, digits) =>
          if int_max_str_digits <? digits then None
          else Some (if neg then - v else v)
      | None => None
      end
  end.

(** Decimal text of an integer, as [str(n)] and [f"{n}"] give it. *)
Definition str_of_int (n : Z) : str := NilZero.string_of_int (Z.to_int n).

(** *** Floating-point numbers *)

(** A Python [float] is an IEEE 754 binary64 number: the standard library's
    specification floats at precision 53 and maximal exponent 1024. *)
Definition float := spec_float.
Definition prec : Z := 53.
Definition emax : Z := 1024.

(** The float nearest to an integer ([float(n)]; exact for small [n]). *)
Definition float_of_int (n : Z) : float := binary_normalize prec emax n 0 false.

(** Comparisons [x < y], [x > y], [x == y] and [x != y]; every comparison with
    a NaN is false, except [!=] which is true. *)
Definition float_lt (x y : float) : bool := SFltb x y.
Definition float_gt (x y : float) : bool := SFltb y x.
Definition float_eq (x y : float) : bool := SFeqb x y.
Definition float_ne (x y : float) : bool := negb (SFeqb x y).

(** [x <= y] *)
Definition float_le (x y : float) : bool := SFleb x y.

(** The correctly rounded binary64 value of [m * 10^e10], with sign [neg]. *)
Definition float_of_decimal (neg : bool) (m : Z) (e10 : Z) : float :=
  match m with
  | Zpos p =>
      if 0 <=? e10 then binary_normalize prec emax (if neg then - (m * 10 ^ e10) else m * 10 ^ e10) 0 neg
      else
        let '(q, e2, l) := SFdiv_core_binary prec emax m 0 (10 ^ (- e10)) 0 in
        binary_round_aux prec emax neg q e2 l
  | _ => S754_zero neg
  end.

(** Underscores may only sit between two digits; they are removed before
    the number is read. *)
Fixpoint strip_underscores (s : bytes) (prev : ascii) : option bytes :=
  match s with
  | EmptyString => if Ascii.eqb prev "_" then None else Some EmptyString
  | String c s' =>
      if Ascii.eqb c "_" then
        if isdigit prev then strip_underscores s' c else None
      else if Ascii.eqb prev "_" && negb (isdigit c) then None
      else
        match strip_underscores s' c with
        | Some r => Some (String c r)
        | None => None
        end
  end.

(** Reads a run of digits, accumulating into [acc]; returns the value, the
    number of digits read and the rest of the text. *)
Fixpoint take_digits (s : bytes) (acc : Z) (n : Z) : Z * Z * bytes :=
  match s with
  | String c s' =>
      if isdigit c then take_digits s' (10 * acc + digit_value c) (n + 1)
      else (acc, n, s)
  | EmptyString => (acc, n, s)
  end.

(** What follows the mantissa: nothing, or [e] or [E], an optional sign and
    at least one digit. *)
Definition parse_exponent (s : bytes) : option Z :=
  match s with
  | EmptyString => Some 0
  | String c s' =>
      if Ascii.eqb c "e" || Ascii.eqb c "E" then
        let '(neg, body) := split_sign s' in
        let '(x, n, rest) := take_digits body 0 0 in
        if (n =? 0) || negb (String.eqb rest "") then None
        else Some (if neg then - x else x)
      else None
  end.

(** A decimal literal [digits [. digits] [exponent]] with at least one digit
    in the mantissa, as a pair [(m, e10)] standing for [m * 10^e10]. *)
Definition parse_decimal (s : bytes) : option (Z * Z) :=
  let '(i, ni, r1) := take_digits s 0 0 in
  let '(m, nf, r2) :=
    match r1 with
    | String "." r => take_digits r i 0
    | _ => (i, 0, r1)
    end in
  if ni + nf =? 0 then None
  else
    match parse_exponent r2 with
    | Some x => Some (m, x - nf)
    | None => None
    end.

Fixpoint lower (s : bytes) : bytes :=
  match s with
  | String c s' => String (tolower c) (lower s')
  | EmptyString => EmptyString
  end.

(** [inf], [infinity] and [nan], in any letter case. *)
Definition parse_inf_or_nan (neg : bool) (s : bytes) : option float :=
  let l := lower s in
  if String.eqb l "inf" || String.eqb l "infinity" then Some (S754_infinity neg)
  else if String.eqb l "nan" then Some S754_nan
  else None.

(** [float(b)] for a [bytes] argument: [None] stands for [ValueError]. *)
Definition to_float (b : bytes) : option float :=
  match strip_underscores b "000" with
  | None => None
  | Some s =>
      let '(neg, body) := split_sign (strip s) in
      match parse_inf_or_nan neg body with
      | Some f => Some f
      | None =>
          match parse_decimal body with
          | Some (m, e10) => Some (float_of_decimal neg m e10)
          | None => None
          end
      end
  end.

(** [m / 2^k] rounded to the nearest integer, ties to the even one. *)
Definition round_half_even (m k : Z) : Z :=
  let q := m / 2 ^ k in
  let r := m mod 2 ^ k in
  match 2 * r ?= 2 ^ k with
  | Lt => q
  | Gt => q + 1
  | Eq => if Z.even q then q else q + 1
  end.

(** The integer nearest to the magnitude of a finite float. *)
Definition nearest_int (m : positive) (e : Z) : Z :=
  if 0 <=? e then Zpos m * 2 ^ e else round_half_even (Zpos m) (- e).

(** [f"{x:.0f}"]: no digit after the point, a minus sign for negative
    numbers (zero included). *)
Definition format_0f (x : float) : str :=
  match x with
  | S754_nan => "nan"
  | S754_infinity s => ((if s then "-" else "") ++ "inf")%string
  | S754_zero s => ((if s then "-" else "") ++ "0")%string
  | S754_finite s m e => ((if s then "-" else "") ++ str_of_int (nearest_int m e))%string
  end.

(** Whether a float is a whole number. *)
Definition is_integer (x : float) : bool :=
  match x with
  | S754_zero _ => true
  | S754_finite _ m e => if 0 <=? e then true else Zpos m mod 2 ^ (- e) =? 0
  | _ => false
  end.

(** The number that a finite float stands for, [(-1)^s * m * 2^e], as a
    rational (zero for an infinity or a NaN). *)
Definition to_Q (x : float) : Q :=
  match x with
  | S754_finite s m e =>
      let magnitude :=
        if 0 <=? e then inject_Z (Zpos m * 2 ^ e)
        else Qmake (Zpos m) (Z.to_pos (2 ^ (- e))) in
      if s then Qopp magnitude else magnitude
  | _ => 0%Q
  end.

(** What it means for an integer to be a float rounded to no decimals: it is
    a nearest integer and, where two integers are equally near, the even one.
    This is stated over the rationals and owes nothing to the way
    [format_0f] finds its digits. *)
Definition rounded_to_integer (x : float) (n : Z) : Prop :=
  (Qabs (to_Q x - inject_Z n) <= 1 # 2)%Q /\
  (Qabs (to_Q x - inject_Z n) == 1 # 2 -> Z.even n = true)%Q.

End Py.

(** ** Ordered dictionaries *)

(** A Python [dict] keeps its keys in insertion order, and assigning to a key
    that is already present keeps the key's position. *)
Module Dict.
Section Dict.
Context {K V : Type} (eqb : K -> K -> bool).

Definition t := list (K * V).

(** [d.get(k)] *)
Fixpoint get (d : t) (k : K) : option V :=
  match d with
  | [] => None
  | (k', v) :: d' => if eqb k k' then Some v else get d' k
  end.

(** [d[k] = v] *)
Fixpoint set (d : t) (k : K) (v : V) : t :=
  match d with
  | [] => [(k, v)]
  | (k', v') :: d' => if eqb k k' then (k', v) :: d' else (k', v') :: set d' k v
  end.

(** [k in d] *)
Definition contains (d : t) (k : K) : bool :=
  match get d k with Some _ => true | None => false end.

(** [d.values()] *)
Definition values (d : t) : list V := map snd d.
End Dict.
End Dict.

(** ** zones.py *)

Module zones.

Record Zone := {
  name : str;
  zone_index : Z;
  entity_name : str;
  current_temperature : option Py.float;
  current_setpoint : option Py.float;
  current_mode : option str;
  current_action : option str;
  is_heating : bool;
  is_damper_open : bool;
  modified_since_last_sync : bool;
}.

(** [Zone.__init__] *)
Definition Zone_init (name : str) (zone_index : Z) : Zone := {|
  name := name;
  zone_index := zone_index;
  entity_name := ("zone_" ++ Py.str_of_int zone_index)%string;
  current_temperature := None;
  current_setpoint := None;
  current_mode := None;
  current_action := None;
  is_heating := false;
  is_damper_open := false;
  modified_since_last_sync := false;
|}.

#[export] Instance Zone_inhabited : Inhabited Zone := populate (Zone_init "" 0).

(** Attribute assignments [zone.<field> = v]. *)
Definition with_current_temperature (v : option Py.float) (z : Zone) : Zone :=
  {| name := name z; zone_index := zone_index z; entity_name := entity_name z;
     current_temperature := v; current_setpoint := current_setpoint z;
     current_mode := current_mode z; current_action := current_action z;
     is_heating := is_heating z; is_damper_open := is_damper_open z;
     modified_since_last_sync := modified_since_last_sync z |}.

Definition with_current_setpoint (v : option Py.float) (z : Zone) : Zone :=
  {| name := name z; zone_index := zone_index z; entity_name := entity_name z;
     current_temperature := current_temperature z; current_setpoint := v;
     current_mode := current_mode z; current_action := current_action z;
     is_heating := is_heating z; is_damper_open := is_damper_open z;
     modified_since_last_sync := modified_since_last_sync z |}.

Definition with_current_mode (v : option str) (z : Zone) : Zone :=
  {| name := name z; zone_index := zone_index z; entity_name := entity_name z;
     current_temperature := current_temperature z; current_setpoint := current_setpoint z;
     current_mode := v; current_action := current_action z;
     is_heating := is_heating z; is_damper_open := is_damper_open z;
     modified_since_last_sync := modified_since_last_sync z |}.

Definition with_current_action (v : option str) (z : Zone) : Zone :=
  {| name := name z; zone_index := zone_index z; entity_name := entity_name z;
     current_temperature := current_temperature z; current_setpoint := current_setpoint z;
     current_mode := current_mode z; current_action := v;
     is_heating := is_heating z; is_damper_open := is_damper_open z;
     modified_since_last_sync := modified_since_last_sync z |}.

Definition with_is_heating (v : bool) (z : Zone) : Zone :=
  {| name := name z; zone_index := zone_index z; entity_name := entity_name z;
     current_temperature := current_temperature z; current_setpoint := current_setpoint z;
     current_mode := current_mode z; current_action := current_action z;
     is_heating := v; is_damper_open := is_damper_open z;
     modified_since_last_sync := modified_since_last_sync z |}.

Definition with_is_damper_open (v : bool) (z : Zone) : Zone :=
  {| name := name z; zone_index := zone_index z; entity_name := entity_name z;
     current_temperature := current_temperature z; current_setpoint := current_setpoint z;
     current_mode := current_mode z; current_action := current_action z;
     is_heating := is_heating z; is_damper_open := v;
     modified_since_last_sync := modified_since_last_sync z |}.

Definition with_modified_since_last_sync (v : bool) (z : Zone) : Zone :=
  {| name := name z; zone_index := zone_index z; entity_name := entity_name z;
     current_temperature := current_temperature z; current_setpoint := current_setpoint z;
     current_mode := current_mode z; current_action := current_action z;
     is_heating := is_heating z; is_damper_open := is_damper_open z;
     modified_since_last_sync := v |}.

(** Zone objects live in a store and are handled by reference: both
    dictionaries of the module hold references to the same objects. *)
Definition ref := nat.

Record Registry := {
  store : list Zone;
  zones_by_index : Dict.t (K := Z) (V := ref);
  zones_by_entity : Dict.t (K := str) (V := ref);
}.

(** The module as it is when loaded: both dictionaries empty. *)
Definition empty : Registry :=
  {| store := []; zones_by_index := []; zones_by_entity := [] |}.

(** The object behind a reference. *)
Definition deref (r : Registry) (l : ref) : Zone := store r !!! l.

(** In-place mutation of the object behind a reference. *)
Definition mutate (l : ref) (f : Zone -> Zone) (r : Registry) : Registry :=
  {| store := alter f l (store r);
     zones_by_index := zones_by_index r;
     zones_by_entity := zones_by_entity r |}.

(** One entry of the configuration's zone list: [zone.get("name")] and
    [zone.get("index")], each possibly missing. *)
Record zone_entry := { cfg_name : option str; cfg_index : option Z }.

(** The body of the loop of [create_zones_from_config]. *)
Fixpoint create_zones_loop (zs : list zone_entry) (r : Registry) : bool * Registry :=
  match zs with
  | [] => (true, r)
  | zone :: rest =>
      match cfg_name zone, cfg_index zone with
      | Some n, Some i =>
          let new_zone := Zone_init n i in
          let l := length (store r) in
          create_zones_loop rest
            {| store := store r ++ [new_zone];
               zones_by_index := Dict.set Z.eqb (zones_by_index r) (zone_index new_zone) l;
               zones_by_entity := Dict.set String.eqb (zones_by_entity r) (entity_name new_zone) l |}
      | _, _ => (false, r)
      end
  end.

(** [create_zones_from_config]; the argument is [zone_config.get("zones")],
    [None] when it is missing or not a list. *)
Definition create_zones_from_config (zs : option (list zone_entry)) (r : Registry)
  : bool * Registry :=
  match zs with
  | None => (false, r)
  | Some zs => if (1 <=? length zs)%nat then create_zones_loop zs r else (false, r)
  end.

Definition get_zone_by_index (r : Registry) (index : Z) : option ref :=
  Dict.get Z.eqb (zones_by_index r) index.

Definition get_zone_by_entity_name (r : Registry) (entity_name : str) : option ref :=
  Dict.get String.eqb (zones_by_entity r) entity_name.

End zones.

(** ** Logging *)

(** The records that the modules send to [logger.error] (and the one
    [logger.info] of the control loop); debug records are left out.  Each
    constructor stands for one message text and carries what the message
    interpolates. *)
Inductive log_record :=
| Bad_zone (param : bytes)
| Bad_temperature (param : bytes)
| Bad_setpoint (param : bytes)
| Bad_mode (param : bytes)
| Bad_heat_call (param : bytes)
| Missing_heat_status_data_before_damper_status
| Bad_zone_in_Type_2_damper_message (param : bytes)
| Bad_damper_status_in_Type_2_damper_message (param : bytes)
| Zone_heating_when_off (entity_name : str)
| Bad_call_to_set_mode
| Unable_to_find_zone_for_entity (entity : str)
| RCSController_not_connected
| RCSController_received_exception (e : Py.exn).

(** ** mqtt_client.py *)

Module mqtt_client.
Import zones.

(** The dictionary handed to [json.dumps] for one zone. *)
Record status_entry := {
  setpoint : option Py.float;
  mode : option str;
  temperature : option Py.float;
  action : option str;
}.

(** The client, as far as publishing goes: its topic prefix and the messages
    handed to [client.publish], oldest first, each a topic and a payload. *)
Record MQTTClient := {
  device_topic_prefix : str;
  published : list (str * status_entry);
}.

Definition publish (topic : str) (payload : status_entry) (m : MQTTClient) : MQTTClient :=
  {| device_topic_prefix := device_topic_prefix m;
     published := published m ++ [(topic, payload)] |}.

Definition status_entry_of (zone : Zone) : status_entry :=
  {| setpoint := current_setpoint zone;
     mode := current_mode zone;
     temperature := current_temperature zone;
     action := current_action zone |}.

(** The message that goes out for a zone: the status topic and the entry. *)
Definition status_message (m : MQTTClient) (zone : Zone) : str * status_entry :=
  ((device_topic_prefix m ++ "/status")%string, status_entry_of zone).

(** Whether the loop publishes a zone: [zone.modified_since_last_sync or force]. *)
Definition selected (force : bool) (r : Registry) (zone : ref) : bool :=
  modified_since_last_sync (deref r zone) || force.

(** The loop of [publish_all_zone_status] over [zones_by_index.values()]. *)
Fixpoint publish_loop (vals : list ref) (force : bool) (m : MQTTClient) (r : Registry)
  : MQTTClient * Registry :=
  match vals with
  | [] => (m, r)
  | zone :: rest =>
      if negb (modified_since_last_sync (deref r zone)) && negb force then
        publish_loop rest force m r
      else
        let status_entry := status_entry_of (deref r zone) in
        let status_topic := (device_topic_prefix m ++ "/status")%string in
        let m := publish status_topic status_entry m in
        let r := mutate zone (with_modified_since_last_sync false) r in
        publish_loop rest force m r
  end.

Definition publish_all_zone_status (force : bool) (m : MQTTClient) (r : Registry)
  : MQTTClient * Registry :=
  publish_loop (Dict.values (zones_by_index r)) force m r.

End mqtt_client.

(** ** rcs_controller.py *)

Module rcs_controller.
Import zones.

(** The serial port object: whether it is open, and the byte strings handed
    to [write], oldest first. *)
Record Serial := { is_open : bool; written : list bytes }.

(** [conn.write(data)] on a port whose writes complete: a closed port
    raises, an open one takes the bytes.  The time-out and the input/output
    errors of a real port have no counterpart here. *)
Definition Serial_write (data : bytes) (c : Serial) : Py.exn + Serial :=
  if is_open c then inr {| is_open := true; written := written c ++ [data] |}
  else inl Py.PortNotOpenError.

(** Everything the controller reads and writes: the zones module's globals,
    its own attributes [conn] and [first_pass], the MQTT client and the log.
    The lock and the sleeps between transactions have no counterpart here. *)
Record State := {
  zs : Registry;
  conn : option Serial;
  first_pass : bool;
  mqtt : mqtt_client.MQTTClient;
  log : list log_record;
}.

Definition with_zs (r : Registry) (st : State) : State :=
  {| zs := r; conn := conn st; first_pass := first_pass st; mqtt := mqtt st; log := log st |}.
Definition with_conn (c : option Serial) (st : State) : State :=
  {| zs := zs st; conn := c; first_pass := first_pass st; mqtt := mqtt st; log := log st |}.
Definition with_first_pass (b : bool) (st : State) : State :=
  {| zs := zs st; conn := conn st; first_pass := b; mqtt := mqtt st; log := log st |}.
Definition with_mqtt (m : mqtt_client.MQTTClient) (st : State) : State :=
  {| zs := zs st; conn := conn st; first_pass := first_pass st; mqtt := m; log := log st |}.

(** [logger.error(...)] *)
Definition error (rec : log_record) (st : State) : State :=
  {| zs := zs st; conn := conn st; first_pass := first_pass st; mqtt := mqtt st;
     log := log st ++ [rec] |}.

(** The zone behind a reference, and its in-place mutation. *)
Definition zone_of (st : State) (zone : ref) : Zone := deref (zs st) zone.
Definition on_zone (zone : ref) (f : Zone -> Zone) (st : State) : State :=
  with_zs (mutate zone f (zs st)) st.

(** How a function call ends. *)
Inductive result (A : Type) :=
| Returned (a : A)
| Raised (e : Py.exn).
Arguments Returned {A} a.
Arguments Raised {A} e.

(** How one pass through a loop body ends. *)
Inductive completion :=
| Continue
| Break
| Return (v : option bool)
| Raise (e : Py.exn).

Definition MODE_MAP_MQTT2RCS : Dict.t (K := str) (V := str) :=
  [("off", "O"); ("heat", "H"); ("cool", "C"); ("auto", "A")].

Definition MODE_MAP_RCS2MQTT : Dict.t (K := str) (V := option str) :=
  [("O", Some "off"); ("H", Some "heat"); ("C", Some "cool"); ("A", Some "Auto"); ("I", None)].

Definition ZONE_ID_PREFIX : bytes := "Z=".
Definition TEMP_PREFIX : bytes := "T=".
Definition SETPOINT_PREFIX : bytes := "SP=".
Definition MODE_PREFIX : bytes := "M=".
Definition FAN_MODE_PREFIX : bytes := "FM=".
Definition HEAT_CALL_PREFIX : bytes := "H1A=".
Definition DAMPER_STATUS_PREFIX : bytes := "D".

Definition len (s : bytes) : nat := String.length s.

(** *** Comparisons with a stored attribute *)

(** [stored != v], where the attribute may still be [None]. *)
Definition float_attr_ne (stored : option Py.float) (v : Py.float) : bool :=
  match stored with
  | Some x => Py.float_ne x v
  | None => true
  end.

Definition str_attr_ne (stored : option str) (v : str) : bool :=
  match stored with
  | Some x => negb (String.eqb x v)
  | None => true
  end.

Definition str_attr_eq (stored : option str) (v : str) : bool :=
  negb (str_attr_ne stored v).

Definition bool_ne (stored v : bool) : bool := negb (Bool.eqb stored v).

(** *** The change-aware assignments

    Every attribute is written through the same three lines:
    [if zone.f != v: zone.f = v; zone.modified_since_last_sync = True]. *)

Definition update_current_temperature (temperature : Py.float) (zone : Zone) : Zone :=
  if float_attr_ne (current_temperature zone) temperature then
    with_modified_since_last_sync true (with_current_temperature (Some temperature) zone)
  else zone.

Definition update_current_setpoint (setpoint : Py.float) (zone : Zone) : Zone :=
  if float_attr_ne (current_setpoint zone) setpoint then
    with_modified_since_last_sync true (with_current_setpoint (Some setpoint) zone)
  else zone.

Definition update_current_mode (mode : str) (zone : Zone) : Zone :=
  if str_attr_ne (current_mode zone) mode then
    with_modified_since_last_sync true (with_current_mode (Some mode) zone)
  else zone.

Definition update_current_action (current_action' : str) (zone : Zone) : Zone :=
  if str_attr_ne (current_action zone) current_action' then
    with_modified_since_last_sync true (with_current_action (Some current_action') zone)
  else zone.

Definition update_is_heating (is_zone_heating : bool) (zone : Zone) : Zone :=
  if bool_ne (is_heating zone) is_zone_heating then
    with_modified_since_last_sync true (with_is_heating is_zone_heating zone)
  else zone.

Definition update_is_damper_open (is_damper_open' : bool) (zone : Zone) : Zone :=
  if bool_ne (is_damper_open zone) is_damper_open' then
    with_modified_since_last_sync true (with_is_damper_open is_damper_open' zone)
  else zone.

(** *** Commands *)

(** [not self.conn or not self.conn.is_open] *)
Definition conn_unusable (st : State) : bool :=
  match conn st with
  | None => true
  | Some c => negb (is_open c)
  end.

(** [with self.conn_lock: sleep(...); self.conn.write(cmd_string.encode("utf-8"))] *)
Definition send (cmd_string : str) (st : State) : result unit * State :=
  match conn st with
  | None => (Raised Py.PortNotOpenError, st)
  | Some c =>
      match Serial_write cmd_string c with
      | inr c' => (Returned tt, with_conn (Some c') st)
      | inl e => (Raised e, st)
      end
  end.

Definition set_setpoint (entity : str) (setpoint : Py.float) (st : State)
  : result unit * State :=
  if conn_unusable st then (Returned tt, st)
  else if Py.float_lt setpoint (Py.float_of_int 40) || Py.float_gt setpoint (Py.float_of_int 99)
  then (Returned tt, st)
  else
    match get_zone_by_entity_name (zs st) entity with
    | None => (Returned tt, error (Unable_to_find_zone_for_entity entity) st)
    | Some zone =>
        let cmd_string :=
          ("A=1 Z=" ++ Py.str_of_int (zone_index (zone_of st zone))
             ++ " SP=" ++ Py.format_0f setpoint)%string in
        match send cmd_string st with
        | (Raised e, st) => (Raised e, st)
        | (Returned _, st) =>
            (Returned tt, on_zone zone (update_current_setpoint setpoint) st)
        end
    end.

Definition set_mode (entity : str) (mode : str) (st : State) : result unit * State :=
  if conn_unusable st || negb (Dict.contains String.eqb MODE_MAP_MQTT2RCS mode) then
    (Returned tt, error Bad_call_to_set_mode st)
  else
    match get_zone_by_entity_name (zs st) entity with
    | None => (Returned tt, error (Unable_to_find_zone_for_entity entity) st)
    | Some zone =>
        match Dict.get String.eqb MODE_MAP_MQTT2RCS mode with
        | None => (Raised Py.KeyError, st)
        | Some rcs_mode =>
            (* [rcs_mode is not None] holds for every value of the map *)
            let cmd_string :=
              ("A=1 Z=" ++ Py.str_of_int (zone_index (zone_of st zone))
                 ++ " M=" ++ mode)%string in
            match send cmd_string st with
            | (Raised e, st) => (Raised e, st)
            | (Returned _, st) =>
                (Returned tt, on_zone zone (update_current_mode mode) st)
            end
        end
    end.

(** *** Decoding a Type 1 status record *)

(** One pass through the [for] loop's [match]: the token, the loop's [zone]
    variable and the state; gives how the pass ends and the new [zone]. *)
Definition type_1_case (param : bytes) (zone : option ref) (st : State)
  : completion * option ref * State :=
  if Py.startswith param ZONE_ID_PREFIX then
    match Py.int (Py.slice_from (len ZONE_ID_PREFIX) param) with
    | None => (Raise Py.ValueError, zone, st)
    | Some zone_index =>
        match get_zone_by_index (zs st) zone_index with
        | None => (Continue, None, error (Bad_zone param) st)
        | Some z => (Continue, Some z, st)
        end
    end
  else if Py.startswith param "self.TEMP_PREFIX" then
    match zone with
    | None => (Break, zone, st)
    | Some z =>
        match Py.to_float (Py.slice_from (len "self.TEMP_PREFIX") param) with
        | None => (Return (Some false), zone, error (Bad_temperature param) st)
        | Some temperature =>
            (Continue, zone, on_zone z (update_current_temperature temperature) st)
        end
    end
  else if Py.startswith param SETPOINT_PREFIX then
    match zone with
    | None => (Break, zone, st)
    | Some z =>
        match Py.to_float (Py.slice_from (len SETPOINT_PREFIX) param) with
        | None => (Return (Some false), zone, error (Bad_setpoint param) st)
        | Some setpoint =>
            (Continue, zone, on_zone z (update_current_setpoint setpoint) st)
        end
    end
  else if Py.startswith param MODE_PREFIX then
    match zone with
    | None => (Break, zone, st)
    | Some z =>
        match Py.decode_ascii (Py.slice_from (len MODE_PREFIX) param) with
        | inl e => (Raise e, zone, st)
        | inr mode =>
            if negb (Dict.contains String.eqb MODE_MAP_RCS2MQTT mode) then
              (Break, zone, error (Bad_mode param) st)
            else (Continue, zone, on_zone z (update_current_mode mode) st)
        end
    end
  else if Py.startswith param FAN_MODE_PREFIX then
    match zone with
    | None => (Break, zone, st)
    | Some z =>
        match Py.decode_ascii (Py.slice_from (len "FM=") param) with
        | inl e => (Raise e, zone, st)
        | inr fan_mode => (Continue, zone, st)
        end
    end
  else (Continue, zone, st).

Fixpoint type_1_loop (param_list_1 : list bytes) (zone : option ref) (st : State)
  : result (option bool) * State :=
  match param_list_1 with
  | [] => (Returned None, st)
  | param :: rest =>
      match type_1_case param zone st with
      | (Continue, zone, st) => type_1_loop rest zone st
      | (Break, _, st) => (Returned None, st)
      | (Return v, _, st) => (Returned v, st)
      | (Raise e, _, st) => (Raised e, st)
      end
  end.

Definition _process_status_type_1 (status_type_1 : bytes) (st : State)
  : result (option bool) * State :=
  type_1_loop (Py.split status_type_1) None st.

(** *** Decoding a Type 2 status record *)

(** [x in [0, 1]] *)
Definition in_0_1 (x : Z) : bool := (x =? 0) || (x =? 1).

(** One pass through the [for] loop's [match]: the token, the loop's
    [is_hvac_heating] variable and the state. *)
Definition type_2_case (param : bytes) (is_hvac_heating : option bool) (st : State)
  : completion * option bool * State :=
  if Py.startswith param HEAT_CALL_PREFIX then
    match Py.int (Py.slice_from (len HEAT_CALL_PREFIX) param) with
    | None => (Raise Py.ValueError, is_hvac_heating, st)
    | Some heat_call =>
        if negb (in_0_1 heat_call) then
          (Break, is_hvac_heating, error (Bad_heat_call param) st)
        else (Continue, Some (heat_call =? 1), st)
    end
  else if Py.startswith param DAMPER_STATUS_PREFIX then
    match is_hvac_heating with
    | None =>
        (Break, is_hvac_heating, error Missing_heat_status_data_before_damper_status st)
    | Some hvac_heating =>
        match Py.int (Py.slice 1 2 param) with
        | None => (Raise Py.ValueError, is_hvac_heating, st)
        | Some zone_index =>
            match get_zone_by_index (zs st) zone_index with
            | None =>
                (Break, is_hvac_heating, error (Bad_zone_in_Type_2_damper_message param) st)
            | Some zone =>
                match Py.int (Py.slice_from 3 param) with
                | None => (Raise Py.ValueError, is_hvac_heating, st)
                | Some damper_status =>
                    if negb (in_0_1 damper_status) then
                      (Break, is_hvac_heating,
                       error (Bad_damper_status_in_Type_2_damper_message param) st)
                    else
                      let is_damper_open := damper_status =? 0 in
                      let is_zone_heating := is_damper_open && hvac_heating in
                      let st := on_zone zone (update_is_heating is_zone_heating) st in
                      let st := on_zone zone (update_is_damper_open is_damper_open) st in
                      if str_attr_eq (current_mode (zone_of st zone)) "off" then
                        if is_zone_heating then
                          (Break, is_hvac_heating,
                           error (Zone_heating_when_off (entity_name (zone_of st zone))) st)
                        else
                          (Continue, is_hvac_heating,
                           on_zone zone (update_current_action "off") st)
                      else
                        let current_action := if is_zone_heating then "heating" else "idle" in
                        (Continue, is_hvac_heating,
                         on_zone zone (update_current_action current_action) st)
                end
            end
        end
    end
  else (Continue, is_hvac_heating, st).

Fixpoint type_2_loop (param_list_2 : list bytes) (is_hvac_heating : option bool) (st : State)
  : result (option bool) * State :=
  match param_list_2 with
  | [] => (Returned (Some true), st)
  | param :: rest =>
      match type_2_case param is_hvac_heating st with
      | (Continue, is_hvac_heating, st) => type_2_loop rest is_hvac_heating st
      | (Break, _, st) => (Returned (Some true), st)
      | (Return v, _, st) => (Returned v, st)
      | (Raise e, _, st) => (Raised e, st)
      end
  end.

Definition _process_status_type_2 (status_type_2 : bytes) (st : State)
  : result (option bool) * State :=
  type_2_loop (Py.split status_type_2) None st.

(** *** The poll step and the control loop *)

Definition CR : bytes := String "013" "".

(** [_get_all_zone_status]: the two answers of the device, as
    [read_until] returns them, are arguments. *)
Definition _get_all_zone_status (status_type_1 status_type_2 : bytes) (st : State)
  : result bool * State :=
  match conn st with
  | None => (Returned false, error RCSController_not_connected st)
  | Some _ =>
      match send ("A=1 R=1" ++ CR)%string st with
      | (Raised e, st) => (Raised e, st)
      | (Returned _, st) =>
          match send ("A=1 R=2" ++ CR)%string st with
          | (Raised e, st) => (Raised e, st)
          | (Returned _, st) =>
              match _process_status_type_1 status_type_1 st with
              | (Raised e, st) => (Raised e, st)
              | (Returned _, st) =>
                  match _process_status_type_2 status_type_2 st with
                  | (Raised e, st) => (Raised e, st)
                  | (Returned _, st) => (Returned true, st)
                  end
              end
          end
      end
  end.

(** The [finally] clause of [control_loop], [self.conn.close()] and then
    [self.conn = None]: the port is closed and dropped; with no port, the
    call of [close] on [None] raises [AttributeError]. *)
Definition close_conn (st : State) : result unit * State :=
  match conn st with
  | None => (Raised Py.AttributeError, st)
  | Some _ => (Returned tt, with_conn None st)
  end.

(** The end of [control_loop] once [rc] is set: the [finally] clause, then
    [return rc] unless the clause raised. *)
Definition leave_loop (rc : Z) (st : State) : result Z * State :=
  match close_conn st with
  | (Raised e, st) => (Raised e, st)
  | (Returned _, st) => (Returned rc, st)
  end.

(** [control_loop], run against the device answers of its successive polls.
    The loop only ends through [break] (the [else] clause sets the return code
    0) or an exception (the [except] clause logs it and sets 1); the result is
    how the call ends, or [None] when the loop is still running after the
    last answer listed. *)
Fixpoint control_loop (polls : list (bytes * bytes)) (st : State)
  : option (result Z) * State :=
  match polls with
  | [] => (None, st)
  | (status_type_1, status_type_2) :: rest =>
      match _get_all_zone_status status_type_1 status_type_2 st with
      | (Raised e, st) =>
          let '(res, st) := leave_loop 1 (error (RCSController_received_exception e) st) in
          (Some res, st)
      | (Returned false, st) =>
          let '(res, st) := leave_loop 0 st in (Some res, st)
      | (Returned true, st) =>
          let '(m, r) := mqtt_client.publish_all_zone_status (first_pass st) (mqtt st) (zs st) in
          control_loop rest (with_first_pass false (with_zs r (with_mqtt m st)))
      end
  end.

Definition force_sync (st : State) : State := with_first_pass true st.

End rcs_controller.

(** ** The observable fields, uniformly *)

Module fields.
Import zones rcs_controller.

Inductive field :=
| F_current_temperature
| F_current_setpoint
| F_current_mode
| F_current_action
| F_is_heating
| F_is_damper_open.

(** The type of the values assigned to a field. *)
Definition value (f : field) : Type :=
  match f with
  | F_current_temperature | F_current_setpoint => Py.float
  | F_current_mode | F_current_action => str
  | F_is_heating | F_is_damper_open => bool
  end.

(** What the attribute holds: [None] for Python's [None]. *)
Definition stored (f : field) : Zone -> option (value f) :=
  match f with
  | F_current_temperature => current_temperature
  | F_current_setpoint => current_setpoint
  | F_current_mode => current_mode
  | F_current_action => current_action
  | F_is_heating => fun z => Some (is_heating z)
  | F_is_damper_open => fun z => Some (is_damper_open z)
  end.

(** Python's [zone.f != v]. *)
Definition differs (f : field) : Zone -> value f -> bool :=
  match f with
  | F_current_temperature => fun z v => float_attr_ne (current_temperature z) v
  | F_current_setpoint => fun z v => float_attr_ne (current_setpoint z) v
  | F_current_mode => fun z v => str_attr_ne (current_mode z) v
  | F_current_action => fun z v => str_attr_ne (current_action z) v
  | F_is_heating => fun z v => bool_ne (is_heating z) v
  | F_is_damper_open => fun z v => bool_ne (is_damper_open z) v
  end.

(** The change-aware assignment of each field, as the controller writes it. *)
Definition apply (f : field) : value f -> Zone -> Zone :=
  match f with
  | F_current_temperature => update_current_temperature
  | F_current_setpoint => update_current_setpoint
  | F_current_mode => update_current_mode
  | F_current_action => update_current_action
  | F_is_heating => update_is_heating
  | F_is_damper_open => update_is_damper_open
  end.

End fields.

(** ** Well-formed registries *)

Module invariants.
Import zones.

(** Every reference held by a dictionary points into the store, and no zone
    object is listed twice in [zones_by_index]. *)
Record wf (r : Registry) : Prop := {
  wf_nodup : NoDup (Dict.values (zones_by_index r));
  wf_by_index : Forall (fun l => (l < length (store r))%nat) (Dict.values (zones_by_index r));
  wf_by_entity : Forall (fun l => (l < length (store r))%nat) (Dict.values (zones_by_entity r));
}.

End invariants.

(** ** A sample installation *)

Module sample.
Import zones rcs_controller.

Definition config : option (list zone_entry) :=
  Some [ {| cfg_name := Some "Downstairs"; cfg_index := Some 1 |};
         {| cfg_name := Some "Upstairs"; cfg_index := Some 2 |};
         {| cfg_name := Some "Basement"; cfg_index := Some 3 |} ].

(** The registry right after start-up. *)
Definition registry : Registry := snd (create_zones_from_config config empty).

Definition client : mqtt_client.MQTTClient :=
  {| mqtt_client.device_topic_prefix := "homeassistant/climate/rcs";
     mqtt_client.published := [] |}.

(** The controller right after start-up, with the port open. *)
Definition state : State :=
  {| zs := registry;
     conn := Some {| is_open := true; written := [] |};
     first_pass := true;
     mqtt := client;
     log := [] |}.

(** The zone registered under an index, if any. *)
Definition zone_at (st : State) (index : Z) : option Zone :=
  option_map (zone_of st) (get_zone_by_index (zs st) index).

(** What has been written to the serial port so far. *)
Definition wire (st : State) : list bytes :=
  match conn st with
  | Some c => written c
  | None => []
  end.

(** Whether a record ends with a carriage return. *)
Fixpoint ends_with_CR (s : bytes) : bool :=
  match s with
  | EmptyString => false
  | String c EmptyString => Ascii.eqb c "013"
  | String _ s' => ends_with_CR s'
  end.

End sample.

(** ** Tokens that a Type 2 record should not hold *)

Module type_2_tokens.
Import zones rcs_controller.

(** The three kinds of unacceptable token, seen with the loop variable
    [is_hvac_heating] in state [st], each with the record it is logged as:
    a damper token before any heat-call token, a heat-call number other than
    0 and 1, and a damper number other than 0 and 1 for a known zone. *)
Inductive bad_token (st : State) (is_hvac_heating : option bool) (param : bytes)
  : log_record -> Prop :=
| damper_before_heat_call :
    Py.startswith param HEAT_CALL_PREFIX = false ->
    Py.startswith param DAMPER_STATUS_PREFIX = true ->
    is_hvac_heating = None ->
    bad_token st is_hvac_heating param Missing_heat_status_data_before_damper_status
| heat_call_out_of_range (heat_call : Z) :
    Py.startswith param HEAT_CALL_PREFIX = true ->
    Py.int (Py.slice_from (len HEAT_CALL_PREFIX) param) = Some heat_call ->
    heat_call <> 0 -> heat_call <> 1 ->
    bad_token st is_hvac_heating param (Bad_heat_call param)
| damper_status_out_of_range (hvac_heating : bool) (zone_index : Z) (zone : ref)
    (damper_status : Z) :
    Py.startswith param HEAT_CALL_PREFIX = false ->
    Py.startswith param DAMPER_STATUS_PREFIX = true ->
    is_hvac_heating = Some hvac_heating ->
    Py.int (Py.slice 1 2 param) = Some zone_index ->
    get_zone_by_index (zs st) zone_index = Some zone ->
    Py.int (Py.slice_from 3 param) = Some damper_status ->
    damper_status <> 0 -> damper_status <> 1 ->
    bad_token st is_hvac_heating param (Bad_damper_status_in_Type_2_damper_message param).

(** The state after the two boolean assignments of a damper token. *)
Definition after_flags (zone : ref) (is_damper_open is_zone_heating : bool) (st : State)
  : State :=
  on_zone zone (update_is_damper_open is_damper_open)
    (on_zone zone (update_is_heating is_zone_heating) st).

End type_2_tokens.

(** ** mqtt_client.py: the message handler

    The repository holds two versions of [mqtt_client.py], one at its top
    level and one under [src/].  [mqtt_dispatch] follows the handler of the
    first, [mqtt_dispatch_src] the handler of the second. *)

Module mqtt_dispatch.
Import zones rcs_controller.

(** The two text types side by side: [==] between a [bytes] and a [str] is
    always [False]. *)
Inductive text :=
| Bytes (b : bytes)
| Str (s : str).

Definition text_eq (x y : text) : bool :=
  match x, y with
  | Bytes a, Bytes b => String.eqb a b
  | Str a, Str b => String.eqb a b
  | _, _ => false
  end.

(** [s.split(sep)] for a one-character separator: every occurrence splits,
    empty pieces are kept.  [cur] is the piece being accumulated. *)
Fixpoint split_on (sep : ascii) (cur : str) (s : str) : list str :=
  match s with
  | EmptyString => [cur]
  | String c s' =>
      if Ascii.eqb c sep then cur :: split_on sep "" s'
      else split_on sep (cur ++ String c "") s'
  end.

(** A message as the broker client delivers it: the topic is a [str], the
    payload a [bytes]. *)
Record MQTTMessage := { topic : str; payload : bytes }.

(** The attributes of the client that the handler reads. *)
Record Subscriber := {
  connected : bool;
  topic_root : str;
  device_node_id : str;
}.

(** [self.device_topic_prefix], as [__init__] builds it. *)
Definition device_topic_prefix (c : Subscriber) : str :=
  (topic_root c ++ "/climate/" ++ device_node_id c)%string.

(** The records that the handler sends to its own logger's [error], and the
    one [info] record of the version under [src/].  The payload of a bad mode
    is logged as the [bytes] it came as by one version and as the decoded
    [str] by the other. *)
Inductive log_record :=
| MQTT_integration_restarted
| Got_message_with_malformed_topic (topic : str)
| Bad_setpoint_payload (payload : bytes)
| Bad_mode_payload (payload : text)
| Unknown_command (command : str).

(** [topic_parts[i]], for an index known to be in range. *)
Definition part (topic_parts : list str) (i : nat) : str := nth i topic_parts "".

(** [set_mode] called with a mode of either text type: a [bytes] is never a
    key of [MODE_MAP_MQTT2RCS], whose keys are [str]. *)
Definition set_mode_text (entity : str) (mode : text) (st : State) : result unit * State :=
  match mode with
  | Str mode => set_mode entity mode st
  | Bytes _ => (Returned tt, error Bad_call_to_set_mode st)
  end.

(** [on_message] of the top-level [mqtt_client.py]: gives the result, the
    new state and what was logged. *)
Definition on_message (c : Subscriber) (msg : MQTTMessage) (st : State)
  : result unit * State * list log_record :=
  if negb (connected c) then (Returned tt, st, [])
  else
    let topic_parts := split_on "/" "" (topic msg) in
    if (length topic_parts =? 2)%nat
       && String.eqb (part topic_parts 0) (device_topic_prefix c)
       && String.eqb (part topic_parts 1) "availability"
    then
      if text_eq (Bytes (payload msg)) (Str "online")
      then (Returned tt, force_sync st, [])
      else (Returned tt, st, [])
    else if negb (length topic_parts =? 6)%nat
            || negb (String.eqb (part topic_parts 0) (topic_root c))
            || negb (String.eqb (part topic_parts 1) "climate")
            || negb (String.eqb (part topic_parts 2) (device_node_id c))
            || negb (String.eqb (part topic_parts 4) "set")
    then (Returned tt, st, [Got_message_with_malformed_topic (topic msg)])
    else
      let entity := part topic_parts 3 in
      let command := part topic_parts 5 in
      if String.eqb command "setpoint" then
        match Py.to_float (payload msg) with
        | None => (Returned tt, st, [Bad_setpoint_payload (payload msg)])
        | Some target_setpoint =>
            let '(res, st) := set_setpoint entity target_setpoint st in (res, st, [])
        end
      else if String.eqb command "mode" then
        if negb (existsb (text_eq (Bytes (payload msg)))
                   [Str "off"; Str "heat"; Str "cool"; Str "auto"])
        then (Returned tt, st, [Bad_mode_payload (Bytes (payload msg))])
        else
          let '(res, st) := set_mode_text entity (Bytes (payload msg)) st in (res, st, [])
      else (Returned tt, st, [Unknown_command command]).

End mqtt_dispatch.

Module mqtt_dispatch_src.
Import zones rcs_controller mqtt_dispatch.

(** [on_message] of [src/mqtt_client.py]: the availability test looks for
    [<topic_root>/status], and the payload of a mode command is decoded
    before it is looked up. *)
Definition on_message (c : Subscriber) (msg : MQTTMessage) (st : State)
  : result unit * State * list log_record :=
  if negb (connected c) then (Returned tt, st, [])
  else
    let topic_parts := split_on "/" "" (topic msg) in
    if (length topic_parts =? 2)%nat
       && String.eqb (part topic_parts 0) (topic_root c)
       && String.eqb (part topic_parts 1) "status"
    then
      if text_eq (Bytes (payload msg)) (Str "online")
      then (Returned tt, force_sync st, [MQTT_integration_restarted])
      else (Returned tt, st, [])
    else if negb (length topic_parts =? 6)%nat
            || negb (String.eqb (part topic_parts 0) (topic_root c))
            || negb (String.eqb (part topic_parts 1) "climate")
            || negb (String.eqb (part topic_parts 2) (device_node_id c))
            || negb (String.eqb (part topic_parts 4) "set")
    then (Returned tt, st, [Got_message_with_malformed_topic (topic msg)])
    else
      let entity := part topic_parts 3 in
      let command := part topic_parts 5 in
      if String.eqb command "setpoint" then
        match Py.to_float (payload msg) with
        | None => (Returned tt, st, [Bad_setpoint_payload (payload msg)])
        | Some target_setpoint =>
            let '(res, st) := set_setpoint entity target_setpoint st in (res, st, [])
        end
      else if String.eqb command "mode" then
        match Py.decode_utf8 (payload msg) with
        | inl e => (Raised e, st, [])
        | inr payload =>
            if negb (existsb (String.eqb payload) ["off"; "heat"; "cool"; "auto"])
            then (Returned tt, st, [Bad_mode_payload (Str payload)])
            else
              let '(res, st) := set_mode entity payload st in (res, st, [])
        end
      else (Returned tt, st, [Unknown_command command]).

End mqtt_dispatch_src.

(** ** What stays the same in a registry *)

Module frames.
Import zones rcs_controller.

(** The entity name that [Zone.__init__] derives from an index. *)
Definition entity_of (index : Z) : str := ("zone_" ++ Py.str_of_int index)%string.

(** Two registries hold the same zones: the same dictionaries, as many
    objects, and each object with the name, index and entity name it had. *)
Definition same_zones (r r' : Registry) : Prop :=
  zones_by_index r' = zones_by_index r /\
  zones_by_entity r' = zones_by_entity r /\
  length (store r') = length (store r) /\
  forall l : ref,
    name (deref r' l) = name (deref r l) /\
    zone_index (deref r' l) = zone_index (deref r l) /\
    entity_name (deref r' l) = entity_name (deref r l).

(** The two dictionaries tell the same story: the zone found under an index
    carries that index and the entity name derived from it, the entity
    dictionary has exactly the derived names, and a derived name leads to the
    object that its index leads to. *)
Record consistent (r : Registry) : Prop := {
  found_by_index : forall (i : Z) (l : ref),
    get_zone_by_index r i = Some l ->
    zone_index (deref r l) = i /\ entity_name (deref r l) = entity_of i;
  found_by_entity : forall (e : str) (l : ref),
    get_zone_by_entity_name r e = Some l -> exists i : Z, e = entity_of i;
  same_object : forall i : Z,
    get_zone_by_entity_name r (entity_of i) = get_zone_by_index r i;
}.

(** A change to a zone object that leaves its name, index and entity name
    alone. *)
Definition keeps_identity (f : Zone -> Zone) : Prop :=
  forall z : Zone,
    name (f z) = name z /\
    zone_index (f z) = zone_index z /\
    entity_name (f z) = entity_name z.

(** A step that touches nothing but zone attributes and the log: the same
    zones, the same port, flag and client, and a log that only grew. *)
Definition decoding_frame (st st' : State) : Prop :=
  same_zones (zs st) (zs st') /\
  conn st' = conn st /\
  first_pass st' = first_pass st /\
  mqtt st' = mqtt st /\
  exists more : list log_record, log st' = (log st ++ more)%list.

(** What a command for an entity leaves alone: the same zones, every zone
    object but the one the entity names, the first-pass flag and the client;
    the port is as usable as it was and has at most one more record
    written. *)
Definition command_frame (entity : str) (st st' : State) : Prop :=
  same_zones (zs st) (zs st') /\
  (forall l : ref,
     get_zone_by_entity_name (zs st) entity <> Some l -> zone_of st' l = zone_of st l) /\
  first_pass st' = first_pass st /\
  mqtt st' = mqtt st /\
  (sample.wire st' = sample.wire st \/
   exists cmd_string : str, sample.wire st' = (sample.wire st ++ [cmd_string])%list) /\
  conn_unusable st' = conn_unusable st.

(** Whether a text holds no whitespace at all. *)
Fixpoint no_space (s : bytes) : bool :=
  match s with
  | EmptyString => true
  | String c s' => negb (Py.isspace c) && no_space s'
  end.

(** Whether a text is free of a given character. *)
Fixpoint no_char (sep : ascii) (s : str) : bool :=
  match s with
  | EmptyString => true
  | String c s' => negb (Ascii.eqb c sep) && no_char sep s'
  end.

(** Whether a configuration entry has both its name and its index. *)
Definition complete (zone : zone_entry) : bool :=
  match cfg_name zone, cfg_index zone with
  | Some _, Some _ => true
  | _, _ => false
  end.

(** Whether a float compares equal to itself: every float but NaN. *)
Definition self_equal (f : fields.field) : fields.value f -> bool :=
  match f with
  | fields.F_current_temperature | fields.F_current_setpoint => fun v => Py.float_eq v v
  | _ => fun _ => true
  end.

End frames.

(** * Properties *)

Import zones rcs_controller.

(** ** The store under mutation *)

Section Store.
Implicit Types (st : State) (zone : ref) (f : Zone -> Zone).

Lemma zone_of_on_zone st zone f :
  (zone < length (store (zs st)))%nat ->
  zone_of (on_zone zone f st) zone = f (zone_of st zone).
Proof.
  intros Hlt. unfold zone_of, on_zone, deref, mutate; simpl.
  by apply list_lookup_total_alter_eq.
Qed.

Lemma zone_of_on_zone_ne st zone zone' f :
  zone <> zone' -> zone_of (on_zone zone f st) zone' = zone_of st zone'.
Proof.
  intros Hne. unfold zone_of, on_zone, deref, mutate; simpl.
  by apply list_lookup_total_alter_ne.
Qed.

Lemma store_length_on_zone st zone f :
  length (store (zs (on_zone zone f st))) = length (store (zs st)).
Proof. unfold on_zone, mutate; simpl. apply length_alter. Qed.
End Store.

(** ** The registry invariant *)

Section Invariant.
Import invariants.
Implicit Types (r : Registry) (st : State).

Lemma values_set_elem {K : Type} (eqb : K -> K -> bool) (d : Dict.t (K := K) (V := ref))
    (k : K) (v x : ref) :
  x ∈ Dict.values (Dict.set eqb d k v) -> x = v \/ x ∈ Dict.values d.
Proof.
  induction d as [|[k' v'] d IH]; cbn.
  - intros H. apply elem_of_cons in H as [->|H]; [by left|by right].
  - destruct (eqb k k'); cbn; intros H; apply elem_of_cons in H as [->|H].
    + by left.
    + right. by apply list_elem_of_further.
    + right. apply list_elem_of_here.
    + destruct (IH H) as [->|Hin]; [by left|]. right. by apply list_elem_of_further.
Qed.

Lemma values_set_NoDup {K : Type} (eqb : K -> K -> bool) (d : Dict.t (K := K) (V := ref))
    (k : K) (v : ref) :
  NoDup (Dict.values d) -> v ∉ Dict.values d -> NoDup (Dict.values (Dict.set eqb d k v)).
Proof.
  induction d as [|[k' v'] d IH]; cbn; intros Hnd Hv.
  - apply NoDup_singleton.
  - apply NoDup_cons in Hnd as [Hv' Hnd]. apply not_elem_of_cons in Hv as [Hne Hv].
    destruct (eqb k k'); cbn; apply NoDup_cons.
    + by split.
    + split; [|by apply IH]. intros Hin.
      apply values_set_elem in Hin as [->|Hin]; contradiction.
Qed.

Lemma values_set_Forall {K : Type} (eqb : K -> K -> bool) (d : Dict.t (K := K) (V := ref))
    (k : K) (v : ref) (P : ref -> Prop) :
  Forall P (Dict.values d) -> P v -> Forall P (Dict.values (Dict.set eqb d k v)).
Proof.
  intros Hd Hv. apply Forall_forall. intros x Hin.
  apply values_set_elem in Hin as [->|Hin]; [exact Hv|].
  rewrite Forall_forall in Hd. by apply Hd.
Qed.

Lemma wf_empty : wf empty.
Proof. split; cbn; constructor. Qed.

Lemma wf_create_zones_loop (zs : list zone_entry) r :
  wf r -> wf (snd (create_zones_loop zs r)).
Proof.
  revert r. induction zs as [|zone rest IH]; intros r Hwf; [exact Hwf|].
  cbn [create_zones_loop].
  destruct (cfg_name zone) as [n|]; [|exact Hwf].
  destruct (cfg_index zone) as [i|]; [|exact Hwf].
  apply IH. destruct Hwf as [Hnd Hbi Hbe].
  assert (forall d : list ref,
            Forall (fun l => (l < length (store r))%nat) d ->
            Forall (fun l => (l < length (store r ++ [Zone_init n i]))%nat) d) as Hgrow.
  { intros d Hd. eapply Forall_impl; [exact Hd|].
    intros l Hl. cbn beta in *. rewrite length_app. cbn. lia. }
  split; cbn [store zones_by_index zones_by_entity].
  - apply values_set_NoDup; [exact Hnd|]. intros Hin.
    rewrite Forall_forall in Hbi. specialize (Hbi _ Hin). lia.
  - apply values_set_Forall; [by apply Hgrow|]. rewrite length_app. cbn. lia.
  - apply values_set_Forall; [by apply Hgrow|]. rewrite length_app. cbn. lia.
Qed.

(** Whatever the configuration, the registry built from it is well formed. *)
Lemma wf_create_zones_from_config (zs : option (list zone_entry)) r :
  wf r -> wf (snd (create_zones_from_config zs r)).
Proof.
  intros Hwf. unfold create_zones_from_config.
  destruct zs as [zs|]; [|exact Hwf].
  destruct (1 <=? length zs)%nat; [|exact Hwf].
  by apply wf_create_zones_loop.
Qed.

Lemma wf_mutate (zone : ref) (f : Zone -> Zone) r : wf r -> wf (mutate zone f r).
Proof.
  intros [Hnd Hbi Hbe]. split; cbn [mutate store zones_by_index zones_by_entity];
    rewrite ?length_alter; assumption.
Qed.

Lemma wf_on_zone (zone : ref) (f : Zone -> Zone) st : wf (zs st) -> wf (zs (on_zone zone f st)).
Proof. apply wf_mutate. Qed.

(** Decoding keeps the registry well formed, however the record ends. *)
Lemma wf_type_1_case (param : bytes) (zone : option ref) st :
  wf (zs st) -> wf (zs (snd (type_1_case param zone st))).
Proof.
  intros Hwf. unfold type_1_case.
  repeat case_match; cbn [snd zs error]; auto using wf_on_zone.
Qed.

Lemma wf_type_2_case (param : bytes) (ctx : option bool) st :
  wf (zs st) -> wf (zs (snd (type_2_case param ctx st))).
Proof.
  intros Hwf. unfold type_2_case.
  repeat case_match; cbn [snd zs error]; auto using wf_on_zone.
Qed.

Lemma wf_process_status_type_1 (status_type_1 : bytes) st :
  wf (zs st) -> wf (zs (snd (_process_status_type_1 status_type_1 st))).
Proof.
  unfold _process_status_type_1. generalize (Py.split status_type_1) (@None ref).
  intros params. revert st. induction params as [|param rest IH]; intros st zone Hwf.
  - exact Hwf.
  - cbn [type_1_loop]. pose proof (wf_type_1_case param zone st Hwf) as Hstep.
    destruct (type_1_case param zone st) as [[[| |v|e] zone'] st']; cbn [snd] in *;
      auto.
Qed.

Lemma wf_process_status_type_2 (status_type_2 : bytes) st :
  wf (zs st) -> wf (zs (snd (_process_status_type_2 status_type_2 st))).
Proof.
  unfold _process_status_type_2. generalize (Py.split status_type_2) (@None bool).
  intros params. revert st. induction params as [|param rest IH]; intros st ctx Hwf.
  - exact Hwf.
  - cbn [type_2_loop]. pose proof (wf_type_2_case param ctx st Hwf) as Hstep.
    destruct (type_2_case param ctx st) as [[[| |v|e] ctx'] st']; cbn [snd] in *;
      auto.
Qed.

(** The registry of the sample installation is well formed. *)
Lemma wf_sample_registry : wf sample.registry.
Proof. apply wf_create_zones_from_config, wf_empty. Qed.

(** A reference found in a dictionary of a well-formed registry points into
    the store. *)
Lemma get_elem_of_values {K : Type} (eqb : K -> K -> bool) (d : Dict.t (K := K) (V := ref))
    (k : K) (v : ref) :
  Dict.get eqb d k = Some v -> v ∈ Dict.values d.
Proof.
  induction d as [|[k' v'] d IH]; cbn; [discriminate|].
  destruct (eqb k k').
  - intros [= ->]. apply list_elem_of_here.
  - intros H. apply list_elem_of_further. by apply IH.
Qed.

Lemma get_zone_by_index_valid r (index : Z) (zone : ref) :
  wf r -> get_zone_by_index r index = Some zone -> (zone < length (store r))%nat.
Proof.
  intros [_ Hbi _] Hget. rewrite Forall_forall in Hbi. apply Hbi.
  by apply get_elem_of_values in Hget.
Qed.

Lemma get_zone_by_entity_name_valid r (entity : str) (zone : ref) :
  wf r -> get_zone_by_entity_name r entity = Some zone -> (zone < length (store r))%nat.
Proof.
  intros [_ _ Hbe] Hget. rewrite Forall_forall in Hbe. apply Hbe.
  by apply get_elem_of_values in Hget.
Qed.

End Invariant.

(** Well-formedness of a registry given in full, by evaluation. *)
Ltac wf_by_evaluation :=
  split; vm_compute;
  [ repeat constructor; intros H;
    repeat (apply elem_of_cons in H as [H|H]; [discriminate|]);
    by apply elem_of_nil in H
  | repeat constructor
  | repeat constructor ].

(** ** The change-aware assignments *)

(** C3: for every zone, every observable field and every value, the
    change-aware assignment stores the value and raises the zone's
    [modified_since_last_sync] flag when the value differs (Python's [!=]) from
    the stored one, and leaves the whole zone, flag included, as it was when
    the value equals the stored one. *)
Theorem C3_change_aware_assignment (f : fields.field) (zone : Zone) (v : fields.value f) :
  (fields.differs f zone v = true ->
     fields.stored f (fields.apply f v zone) = Some v /\
     modified_since_last_sync (fields.apply f v zone) = true) /\
  (fields.differs f zone v = false ->
     fields.apply f v zone = zone).
Proof.
  destruct f; simpl in *;
    unfold update_current_temperature, update_current_setpoint, update_current_mode,
      update_current_action, update_is_heating, update_is_damper_open;
    split; intros ->; auto.
Qed.

Lemma C3_change_aware_assignment_witness :
  let zone := Zone_init "Upstairs" 2 in
  (fields.stored fields.F_current_mode (fields.apply fields.F_current_mode "heat" zone)
     = Some "heat" /\
   modified_since_last_sync (fields.apply fields.F_current_mode "heat" zone) = true) /\
  fields.apply fields.F_is_heating false zone = zone.
Proof.
  intros zone. split.
  - apply (C3_change_aware_assignment fields.F_current_mode zone "heat"). reflexivity.
  - apply (C3_change_aware_assignment fields.F_is_heating zone false). reflexivity.
Defined.

(** ** Decoding on the sample installation *)

(** C1: on the registry as it is after start-up, the Type 1 record
    [Z=2 T=71 SP=70 M=H] stores the setpoint 70.0 in zone 2 and marks it
    modified, but the temperature stays unset (the [T=] token falls through
    to the ignored tokens) and the mode is stored as the wire letter [H], not
    as [heat]; a following [M=I] token overwrites the stored mode with [I]. *)
Theorem C1_type_1_record_on_fresh_registry :
  let st := snd (_process_status_type_1 "Z=2 T=71 SP=70 M=H" sample.state) in
  let st' := snd (_process_status_type_1 "Z=2 M=I" st) in
  option_map current_temperature (sample.zone_at sample.state 2) = Some None /\
  option_map current_temperature (sample.zone_at st 2) = Some None /\
  option_map current_setpoint (sample.zone_at st 2) = Some (Py.to_float "70.0") /\
  option_map current_mode (sample.zone_at st 2) = Some (Some "H") /\
  option_map modified_since_last_sync (sample.zone_at st 2) = Some true /\
  option_map current_mode (sample.zone_at st' 2) = Some (Some "I").
Proof. vm_compute. repeat split; reflexivity. Qed.

(** ** Commands on the wire *)

(** C4: for the four modes, [set_mode] writes the mode word itself after
    [M=], not the letter of [MODE_MAP_MQTT2RCS]: [heat] for zone 1 goes out as
    [A=1 Z=1 M=heat]; a mode outside the map sends nothing and leaves the
    registry as it was. *)
Theorem C4_set_mode_writes_mode_word :
  sample.wire (snd (set_mode "zone_1" "off" sample.state)) = ["A=1 Z=1 M=off"] /\
  sample.wire (snd (set_mode "zone_1" "heat" sample.state)) = ["A=1 Z=1 M=heat"] /\
  sample.wire (snd (set_mode "zone_2" "cool" sample.state)) = ["A=1 Z=2 M=cool"] /\
  sample.wire (snd (set_mode "zone_3" "auto" sample.state)) = ["A=1 Z=3 M=auto"] /\
  Dict.get String.eqb MODE_MAP_MQTT2RCS "heat" = Some "H" /\
  sample.wire (snd (set_mode "zone_1" "dry" sample.state)) = [] /\
  zs (snd (set_mode "zone_1" "dry" sample.state)) = zs sample.state.
Proof. vm_compute. repeat split; reflexivity. Qed.

(** C8: the two status requests are written with a trailing carriage
    return, but the set-setpoint and set-mode commands are written as the bare
    command text, with no carriage return after it. *)
Theorem C8_commands_lack_carriage_return :
  sample.wire (snd (_get_all_zone_status "" "" sample.state))
    = [("A=1 R=1" ++ CR)%string; ("A=1 R=2" ++ CR)%string] /\
  forallb sample.ends_with_CR (sample.wire (snd (_get_all_zone_status "" "" sample.state))) = true /\
  sample.wire (snd (set_setpoint "zone_1" (Py.float_of_int 72) sample.state))
    = ["A=1 Z=1 SP=72"] /\
  sample.ends_with_CR "A=1 Z=1 SP=72" = false /\
  sample.wire (snd (set_mode "zone_1" "heat" sample.state)) = ["A=1 Z=1 M=heat"] /\
  sample.ends_with_CR "A=1 Z=1 M=heat" = false.
Proof. vm_compute. repeat split; reflexivity. Qed.

(** C9: non-numeric text after [Z=], [H1A=] or [D<digit>=] makes the
    decoder raise [ValueError] (and a non-ASCII byte after [M=] raises
    [UnicodeDecodeError]); no branch of the decoder catches it, and in
    [control_loop] the exception ends the loop with return code 1 and the
    port closed. *)
Theorem C9_decoders_raise_on_bad_integers (st : State) :
  _process_status_type_1 "Z=x" st = (Raised Py.ValueError, st) /\
  _process_status_type_1 "Z=" st = (Raised Py.ValueError, st) /\
  _process_status_type_2 "H1A=x" st = (Raised Py.ValueError, st) /\
  _process_status_type_2 "H1A=1 Dx=0" st = (Raised Py.ValueError, st) /\
  _process_status_type_2 "H1A=1 D" st = (Raised Py.ValueError, st) /\
  fst (_process_status_type_2 "H1A=1 D2=x" sample.state) = Raised Py.ValueError /\
  fst (_process_status_type_1 (String "Z" (String "=" (String "2" (String " "
         (String "M" (String "=" (String "200" ""))))))) sample.state)
    = Raised Py.UnicodeDecodeError /\
  (let '(rc, st') := control_loop [("Z=x", "H1A=0"); ("Z=1 SP=70", "H1A=0")] sample.state in
   rc = Some (Returned 1) /\ conn st' = None /\
   log st' = [RCSController_received_exception Py.ValueError] /\
   zs st' = zs sample.state).
Proof. repeat split; reflexivity. Qed.

(** ** Decoding a Type 2 record, token by token *)

Section Type2.
Import type_2_tokens.
Implicit Types (st : State) (zone : ref) (z : Zone) (param : bytes).

Lemma in_0_1_false x : x <> 0 -> x <> 1 -> in_0_1 x = false.
Proof. unfold in_0_1. lia. Qed.

(** A heat-call token with an acceptable number sets the loop variable and
    touches nothing else. *)
Lemma type_2_case_heat_call param ctx st heat_call :
  Py.startswith param HEAT_CALL_PREFIX = true ->
  Py.int (Py.slice_from (len HEAT_CALL_PREFIX) param) = Some heat_call ->
  in_0_1 heat_call = true ->
  type_2_case param ctx st = (Continue, Some (heat_call =? 1), st).
Proof. intros Hp Hi Hr. unfold type_2_case. by rewrite Hp, Hi, Hr. Qed.

Lemma type_2_case_damper param hvac_heating st zone_index zone damper_status :
  Py.startswith param HEAT_CALL_PREFIX = false ->
  Py.startswith param DAMPER_STATUS_PREFIX = true ->
  Py.int (Py.slice 1 2 param) = Some zone_index ->
  get_zone_by_index (zs st) zone_index = Some zone ->
  Py.int (Py.slice_from 3 param) = Some damper_status ->
  in_0_1 damper_status = true ->
  str_attr_eq (current_mode (zone_of st zone)) "off" = false ->
  (zone < length (store (zs st)))%nat ->
  let is_damper_open := damper_status =? 0 in
  let is_zone_heating := is_damper_open && hvac_heating in
  type_2_case param (Some hvac_heating) st =
    (Continue, Some hvac_heating,
     on_zone zone (update_current_action (if is_zone_heating then "heating" else "idle"))
       (after_flags zone is_damper_open is_zone_heating st)).
Proof.
  intros Hh Hd Hi Hz Hs Hr Hoff Hlt. unfold type_2_case.
  rewrite Hh, Hd, Hi, Hz, Hs, Hr. cbn [negb].
  fold (after_flags zone (damper_status =? 0) ((damper_status =? 0) && hvac_heating) st).
  assert (current_mode (zone_of (after_flags zone (damper_status =? 0)
            ((damper_status =? 0) && hvac_heating) st) zone)
          = current_mode (zone_of st zone)) as ->.
  { unfold after_flags. rewrite !zone_of_on_zone by (rewrite ?store_length_on_zone; done).
    unfold update_is_damper_open, update_is_heating.
    repeat match goal with |- context [if ?b then _ else _] => destruct b end; reflexivity. }
  by rewrite Hoff.
Qed.
End Type2.

(** What a zone holds after the three assignments of a damper token. *)
Lemma zone_after_damper_token (z : Zone) (is_damper_open' is_zone_heating : bool)
    (current_action' : str) :
  let z' := update_current_action current_action'
              (update_is_damper_open is_damper_open'
                 (update_is_heating is_zone_heating z)) in
  is_damper_open z' = is_damper_open' /\
  is_heating z' = is_zone_heating /\
  current_action z' = Some current_action'.
Proof.
  unfold update_current_action, update_is_damper_open, update_is_heating, bool_ne.
  destruct (Bool.eqb (is_heating z) is_zone_heating) eqn:E1; cbn [negb];
    [apply Bool.eqb_prop in E1|];
    match goal with |- context [Bool.eqb (is_damper_open ?x) _] =>
      destruct (Bool.eqb (is_damper_open x) is_damper_open') eqn:E2 end; cbn [negb];
    [apply Bool.eqb_prop in E2| |apply Bool.eqb_prop in E2|];
    match goal with |- context [str_attr_ne (current_action ?x) _] =>
      destruct (str_attr_ne (current_action x) current_action') eqn:E3 end;
    cbn in *; repeat split; auto;
    unfold str_attr_ne in E3;
    match type of E3 with
    | context [match ?o with _ => _ end] => destruct o as [a|] eqn:Ea; [|discriminate]
    end;
    apply negb_false_iff, String.eqb_eq in E3; subst; cbn in *; congruence.
Qed.

(** C2, with the action that the code stores: when zone 2 is registered in
    a well-formed registry and its mode is not [off], decoding [H1A=1 D2=0]
    leaves zone 2 with the damper open, heating, and the action [heating];
    decoding [H1A=0 D2=0] leaves it with the damper open, not heating, and
    the action [idle].  The damper code is read with its polarity inverted,
    0 for open and 1 for closed: decoding [H1A=1 D2=1] or [H1A=0 D2=1] leaves
    zone 2 with the damper closed, hence not heating whatever the heat call,
    and the action [idle]. *)
Theorem C2_type_2_record_sets_action (st : State) (zone : ref) :
  invariants.wf (zs st) ->
  get_zone_by_index (zs st) 2 = Some zone ->
  current_mode (zone_of st zone) <> Some "off" ->
  (let st' := snd (_process_status_type_2 "H1A=1 D2=0" st) in
   is_damper_open (zone_of st' zone) = true /\
   is_heating (zone_of st' zone) = true /\
   current_action (zone_of st' zone) = Some "heating") /\
  (let st' := snd (_process_status_type_2 "H1A=0 D2=0" st) in
   is_damper_open (zone_of st' zone) = true /\
   is_heating (zone_of st' zone) = false /\
   current_action (zone_of st' zone) = Some "idle") /\
  (let st' := snd (_process_status_type_2 "H1A=1 D2=1" st) in
   is_damper_open (zone_of st' zone) = false /\
   is_heating (zone_of st' zone) = false /\
   current_action (zone_of st' zone) = Some "idle") /\
  (let st' := snd (_process_status_type_2 "H1A=0 D2=1" st) in
   is_damper_open (zone_of st' zone) = false /\
   is_heating (zone_of st' zone) = false /\
   current_action (zone_of st' zone) = Some "idle").
Proof.
  intros Hwf Hz Hmode.
  pose proof (get_zone_by_index_valid _ _ _ Hwf Hz) as Hlt.
  assert (str_attr_eq (current_mode (zone_of st zone)) "off" = false) as Hoff.
  { unfold str_attr_eq, str_attr_ne. destruct (current_mode (zone_of st zone)) as [m|]; [|done].
    rewrite negb_involutive. apply String.eqb_neq. intros ->. by apply Hmode. }
  split; [|split; [|split]]; intros st'; subst st'; unfold _process_status_type_2.
  - change (Py.split "H1A=1 D2=0") with ["H1A=1"; "D2=0"].
    cbn [type_2_loop].
    rewrite (type_2_case_heat_call "H1A=1" None st 1) by reflexivity.
    rewrite (type_2_case_damper "D2=0" (1 =? 1) st 2 zone 0) by (reflexivity || assumption).
    cbn [snd]. unfold type_2_tokens.after_flags.
    rewrite !zone_of_on_zone by (rewrite ?store_length_on_zone; done).
    apply zone_after_damper_token.
  - change (Py.split "H1A=0 D2=0") with ["H1A=0"; "D2=0"].
    cbn [type_2_loop].
    rewrite (type_2_case_heat_call "H1A=0" None st 0) by reflexivity.
    rewrite (type_2_case_damper "D2=0" (0 =? 1) st 2 zone 0) by (reflexivity || assumption).
    cbn [snd]. unfold type_2_tokens.after_flags.
    rewrite !zone_of_on_zone by (rewrite ?store_length_on_zone; done).
    apply zone_after_damper_token.
  - change (Py.split "H1A=1 D2=1") with ["H1A=1"; "D2=1"].
    cbn [type_2_loop].
    rewrite (type_2_case_heat_call "H1A=1" None st 1) by reflexivity.
    rewrite (type_2_case_damper "D2=1" (1 =? 1) st 2 zone 1) by (reflexivity || assumption).
    cbn [snd]. unfold type_2_tokens.after_flags.
    rewrite !zone_of_on_zone by (rewrite ?store_length_on_zone; done).
    apply zone_after_damper_token.
  - change (Py.split "H1A=0 D2=1") with ["H1A=0"; "D2=1"].
    cbn [type_2_loop].
    rewrite (type_2_case_heat_call "H1A=0" None st 0) by reflexivity.
    rewrite (type_2_case_damper "D2=1" (0 =? 1) st 2 zone 1) by (reflexivity || assumption).
    cbn [snd]. unfold type_2_tokens.after_flags.
    rewrite !zone_of_on_zone by (rewrite ?store_length_on_zone; done).
    apply zone_after_damper_token.
Qed.

Lemma C2_type_2_record_sets_action_witness :
  let st := sample.state in
  (let st' := snd (_process_status_type_2 "H1A=1 D2=0" st) in
   is_damper_open (zone_of st' 1%nat) = true /\
   is_heating (zone_of st' 1%nat) = true /\
   current_action (zone_of st' 1%nat) = Some "heating") /\
  (let st' := snd (_process_status_type_2 "H1A=0 D2=0" st) in
   is_damper_open (zone_of st' 1%nat) = true /\
   is_heating (zone_of st' 1%nat) = false /\
   current_action (zone_of st' 1%nat) = Some "idle") /\
  (let st' := snd (_process_status_type_2 "H1A=1 D2=1" st) in
   is_damper_open (zone_of st' 1%nat) = false /\
   is_heating (zone_of st' 1%nat) = false /\
   current_action (zone_of st' 1%nat) = Some "idle") /\
  (let st' := snd (_process_status_type_2 "H1A=0 D2=1" st) in
   is_damper_open (zone_of st' 1%nat) = false /\
   is_heating (zone_of st' 1%nat) = false /\
   current_action (zone_of st' 1%nat) = Some "idle").
Proof.
  apply (C2_type_2_record_sets_action sample.state 1%nat).
  - wf_by_evaluation.
  - reflexivity.
  - vm_compute. discriminate.
Defined.

(** C2, as stated, fails on the sample installation: zone 2 has no mode yet
    (so its mode is not [off]), and after [H1A=1 D2=0] its action is
    [heating], not [heat]. *)
Lemma C2_counterexample :
  ~ (forall zone : Zone,
       sample.zone_at sample.state 2 = Some zone ->
       current_mode zone <> Some "off" ->
       exists zone' : Zone,
         sample.zone_at (snd (_process_status_type_2 "H1A=1 D2=0" sample.state)) 2 = Some zone' /\
         is_damper_open zone' = true /\
         is_heating zone' = true /\
         current_action zone' = Some "heat").
Proof.
  intros H.
  destruct (H (Zone_init "Upstairs" 2)) as (zone' & Hz & _ & _ & Ha).
  - reflexivity.
  - discriminate.
  - vm_compute in Hz. injection Hz as <-. discriminate Ha.
Qed.

(** C7: a bad token is not skipped, it ends the record.  A damper token
    met before any heat-call token, a heat-call number other than 0 and 1,
    and a damper number other than 0 and 1 are each logged once and mutate no
    zone, but the [break] of their error branch leaves the [for] loop:
    whatever tokens follow are not looked at, what the earlier tokens stored
    stays, and the decoder returns [True]. *)
Theorem C7_bad_token_ends_the_record (st : State) (is_hvac_heating : option bool)
    (param : bytes) (rest : list bytes) (rec : log_record) :
  type_2_tokens.bad_token st is_hvac_heating param rec ->
  type_2_loop (param :: rest) is_hvac_heating st = (Returned (Some true), error rec st) /\
  zs (error rec st) = zs st /\
  log (error rec st) = (log st ++ [rec])%list.
Proof.
  intros Hbad. split; [|split; reflexivity].
  cbn [type_2_loop]. unfold type_2_case.
  destruct Hbad as [Hh Hd ->|heat_call Hh Hi H0 H1
                   |hvac_heating zone_index zone damper_status Hh Hd -> Hi Hz Hs H0 H1].
  - by rewrite Hh, Hd.
  - by rewrite Hh, Hi, (in_0_1_false _ H0 H1).
  - by rewrite Hh, Hd, Hi, Hz, Hs, (in_0_1_false _ H0 H1).
Qed.

Lemma C7_bad_token_ends_the_record_witness :
  type_2_loop ["D2=0"; "H1A=1"; "D2=0"] None sample.state
    = (Returned (Some true),
       error Missing_heat_status_data_before_damper_status sample.state) /\
  type_2_loop ["H1A=2"; "H1A=1"; "D2=0"] None sample.state
    = (Returned (Some true), error (Bad_heat_call "H1A=2") sample.state) /\
  type_2_loop ["D2=7"; "D1=0"] (Some true) sample.state
    = (Returned (Some true),
       error (Bad_damper_status_in_Type_2_damper_message "D2=7") sample.state).
Proof.
  split; [|split].
  - apply (C7_bad_token_ends_the_record sample.state None "D2=0" ["H1A=1"; "D2=0"]).
    apply type_2_tokens.damper_before_heat_call; reflexivity.
  - apply (C7_bad_token_ends_the_record sample.state None "H1A=2" ["H1A=1"; "D2=0"]).
    apply (type_2_tokens.heat_call_out_of_range _ _ _ 2); (reflexivity || lia).
  - apply (C7_bad_token_ends_the_record sample.state (Some true) "D2=7" ["D1=0"]).
    apply (type_2_tokens.damper_status_out_of_range _ _ _ true 2 1%nat 7);
      (reflexivity || lia).
Defined.

(** C7 fails on the sample installation.  Were the bad token [H1A=2]
    skipped and decoding continued, the record [H1A=2 H1A=1 D2=0] would leave
    the registry as the record [H1A=1 D2=0] leaves it (zone 2 heating with its
    damper open); the code leaves every zone as it was.  Likewise the bad
    damper number of zone 1 in [H1A=1 D1=7 D2=0 D3=0] costs zones 2 and 3
    their reports: the decoder returns [True] with every zone as it was,
    where [H1A=1 D2=0 D3=0] opens both dampers. *)
Lemma C7_counterexample :
  ~ (zs (snd (_process_status_type_2 "H1A=2 H1A=1 D2=0" sample.state))
       = zs (snd (_process_status_type_2 "H1A=1 D2=0" sample.state))) /\
  zs (snd (_process_status_type_2 "H1A=2 H1A=1 D2=0" sample.state)) = zs sample.state /\
  _process_status_type_2 "H1A=1 D1=7 D2=0 D3=0" sample.state
    = (Returned (Some true),
       error (Bad_damper_status_in_Type_2_damper_message "D1=7") sample.state) /\
  (let st' := snd (_process_status_type_2 "H1A=1 D2=0 D3=0" sample.state) in
   option_map is_damper_open (sample.zone_at st' 2) = Some true /\
   option_map is_damper_open (sample.zone_at st' 3) = Some true /\
   option_map is_damper_open (sample.zone_at sample.state 2) = Some false /\
   option_map is_damper_open (sample.zone_at sample.state 3) = Some false).
Proof.
  split; [vm_compute; discriminate|].
  split; [reflexivity|]. split; [reflexivity|].
  vm_compute. repeat split; reflexivity.
Qed.

(** ** Float comparisons *)

Lemma SFcompare_antisym (x y : Py.float) :
  SFcompare y x = option_map CompOpp (SFcompare x y).
Proof.
  destruct x as [sx|sx| |sx mx ex], y as [sy|sy| |sy my ey]; try reflexivity;
    try (destruct sx; reflexivity); try (destruct sy; reflexivity);
    try (destruct sx, sy; reflexivity).
  pose proof (Pos.compare_cont_antisym mx my Eq) as Hm. cbn in Hm.
  cbn. destruct sx, sy; try reflexivity; f_equal;
    rewrite (Z.compare_antisym ex ey); destruct (ex ?= ey); cbn; try reflexivity;
    by rewrite Hm.
Qed.

Lemma float_le_not_gt (x y : Py.float) :
  Py.float_le x y = true -> Py.float_gt x y = false.
Proof.
  unfold Py.float_le, Py.float_gt, SFleb, SFltb. rewrite (SFcompare_antisym x y).
  destruct (SFcompare x y) as [[]|]; cbn; congruence.
Qed.

Lemma float_le_not_lt (x y : Py.float) :
  Py.float_le x y = true -> Py.float_lt y x = false.
Proof. apply float_le_not_gt. Qed.

(** ** [set_setpoint] *)

(** The command text of [set_setpoint]. *)
Lemma set_setpoint_accepted (entity : str) (v : Py.float) (st : State) (c : Serial)
    (zone : ref) :
  Py.float_lt v (Py.float_of_int 40) = false ->
  Py.float_gt v (Py.float_of_int 99) = false ->
  conn st = Some c -> is_open c = true ->
  get_zone_by_entity_name (zs st) entity = Some zone ->
  set_setpoint entity v st =
    (Returned tt,
     on_zone zone (update_current_setpoint v)
       (with_conn
          (Some {| is_open := true;
                   written := written c ++
                     [("A=1 Z=" ++ Py.str_of_int (zone_index (zone_of st zone))
                        ++ " SP=" ++ Py.format_0f v)%string] |}) st)).
Proof.
  intros Hlt Hgt Hc Ho Hz. unfold set_setpoint, conn_unusable, send, Serial_write.
  by rewrite Hc, Ho, Hlt, Hgt, Hz.
Qed.

(** C6: a setpoint below 40 or above 99 makes [set_setpoint] return with
    the whole state as it was: nothing written to the port, no zone touched.
    A setpoint between 40 and 99, with the port open and the entity known,
    is written to the port as a command.  So 39 and 100 are rejected and 99
    is sent. *)
Theorem C6_set_setpoint_range (entity : str) (st : State) :
  (forall v : Py.float,
     Py.float_lt v (Py.float_of_int 40) = true \/ Py.float_gt v (Py.float_of_int 99) = true ->
     set_setpoint entity v st = (Returned tt, st)) /\
  (forall (v : Py.float) (c : Serial) (zone : ref),
     Py.float_le (Py.float_of_int 40) v = true ->
     Py.float_le v (Py.float_of_int 99) = true ->
     conn st = Some c -> is_open c = true ->
     get_zone_by_entity_name (zs st) entity = Some zone ->
     sample.wire (snd (set_setpoint entity v st)) =
       (written c ++
          [("A=1 Z=" ++ Py.str_of_int (zone_index (zone_of st zone))
             ++ " SP=" ++ Py.format_0f v)%string])%list) /\
  set_setpoint entity (Py.float_of_int 39) st = (Returned tt, st) /\
  set_setpoint entity (Py.float_of_int 100) st = (Returned tt, st) /\
  (forall (c : Serial) (zone : ref),
     conn st = Some c -> is_open c = true ->
     get_zone_by_entity_name (zs st) entity = Some zone ->
     sample.wire (snd (set_setpoint entity (Py.float_of_int 99) st)) =
       (written c ++
          [("A=1 Z=" ++ Py.str_of_int (zone_index (zone_of st zone)) ++ " SP=99")%string])%list).
Proof.
  assert (forall v : Py.float,
            Py.float_lt v (Py.float_of_int 40) = true \/
            Py.float_gt v (Py.float_of_int 99) = true ->
            set_setpoint entity v st = (Returned tt, st)) as Hrej.
  { intros v Hv. unfold set_setpoint. destruct (conn_unusable st); [reflexivity|].
    destruct Hv as [-> | ->]; [reflexivity|]. by rewrite orb_true_r. }
  assert (forall (v : Py.float) (c : Serial) (zone : ref),
            Py.float_le (Py.float_of_int 40) v = true ->
            Py.float_le v (Py.float_of_int 99) = true ->
            conn st = Some c -> is_open c = true ->
            get_zone_by_entity_name (zs st) entity = Some zone ->
            sample.wire (snd (set_setpoint entity v st)) =
              (written c ++
                 [("A=1 Z=" ++ Py.str_of_int (zone_index (zone_of st zone))
                    ++ " SP=" ++ Py.format_0f v)%string])%list) as Hacc.
  { intros v c zone Hlo Hhi Hc Ho Hz.
    rewrite (set_setpoint_accepted entity v st c zone);
      auto using float_le_not_lt, float_le_not_gt. }
  repeat split.
  - exact Hrej.
  - exact Hacc.
  - apply Hrej. left. reflexivity.
  - apply Hrej. right. reflexivity.
  - intros c zone Hc Ho Hz. by apply (Hacc (Py.float_of_int 99) c zone).
Qed.

Lemma C6_set_setpoint_range_witness :
  set_setpoint "zone_1" (Py.float_of_int 12) sample.state = (Returned tt, sample.state) /\
  sample.wire (snd (set_setpoint "zone_1" (Py.float_of_int 40) sample.state))
    = ["A=1 Z=1 SP=40"] /\
  sample.wire (snd (set_setpoint "zone_1" (Py.float_of_int 99) sample.state))
    = ["A=1 Z=1 SP=99"].
Proof.
  destruct (C6_set_setpoint_range "zone_1" sample.state) as (Hrej & Hacc & _ & _ & H99).
  split; [|split].
  - apply Hrej. left. reflexivity.
  - apply (Hacc (Py.float_of_int 40) {| is_open := true; written := [] |} 0%nat);
      reflexivity.
  - apply (H99 {| is_open := true; written := [] |} 0%nat); reflexivity.
Defined.

(** ** Binary64 numbers between 40 and 99 *)

Lemma float_40 : Py.float_of_int 40 = S754_finite false 5629499534213120 (-47).
Proof. vm_compute. reflexivity. Qed.

Lemma float_99 : Py.float_of_int 99 = S754_finite false 6966505673588736 (-46).
Proof. vm_compute. reflexivity. Qed.

Lemma digits2_pos_bounds (m : positive) :
  2 ^ (Zpos (digits2_pos m) - 1) <= Zpos m < 2 ^ Zpos (digits2_pos m).
Proof.
  induction m as [m IH|m IH|]; cbn [digits2_pos].
  - rewrite Pos2Z.inj_succ.
    replace (Z.succ (Zpos (digits2_pos m)) - 1) with (Z.succ (Zpos (digits2_pos m) - 1)) by lia.
    rewrite !Z.pow_succ_r by lia. lia.
  - rewrite Pos2Z.inj_succ.
    replace (Z.succ (Zpos (digits2_pos m)) - 1) with (Z.succ (Zpos (digits2_pos m) - 1)) by lia.
    rewrite !Z.pow_succ_r by lia. lia.
  - cbn. lia.
Qed.

(** A comparison that comes out equal against a finite float means the two
    floats are the same. *)
Lemma float_eq_finite (x : Py.float) (s : bool) (m : positive) (e : Z) :
  Py.float_eq x (S754_finite s m e) = true -> x = S754_finite s m e.
Proof.
  unfold Py.float_eq, SFeqb.
  destruct x as [sx|sx| |sx mx ex]; cbn [SFcompare];
    try (destruct sx; discriminate); try (destruct s; discriminate); try discriminate.
  rewrite Pos.compare_cont_spec.
  destruct sx, s; try discriminate;
    destruct (Z.compare_spec ex e) as [He|He|He]; try discriminate;
    destruct (Pos.compare_spec mx m) as [Hm|Hm|Hm]; try discriminate;
    subst; reflexivity.
Qed.

Lemma le_40_finite (s : bool) (m : positive) (e : Z) :
  Py.float_le (S754_finite false 5629499534213120 (-47)) (S754_finite s m e) = true ->
  s = false /\ (-47 < e \/ (e = -47 /\ 5629499534213120 <= Zpos m)).
Proof.
  unfold Py.float_le, SFleb. cbn [SFcompare].
  destruct s; [discriminate|]. intros H. split; [reflexivity|].
  destruct (Z.compare_spec (-47) e) as [He|He|He]; [|lia|discriminate].
  right. split; [lia|].
  rewrite Pos.compare_cont_spec in H.
  destruct (Pos.compare_spec 5629499534213120 m) as [Hm|Hm|Hm]; [| |discriminate].
  - rewrite <- Hm. apply Z.le_refl.
  - apply Z.lt_le_incl. exact Hm.
Qed.

Lemma le_99_finite (m : positive) (e : Z) :
  Py.float_le (S754_finite false m e) (S754_finite false 6966505673588736 (-46)) = true ->
  e < -46 \/ (e = -46 /\ Zpos m <= 6966505673588736).
Proof.
  unfold Py.float_le, SFleb. cbn [SFcompare]. intros H.
  destruct (Z.compare_spec e (-46)) as [He|He|He]; [|lia|discriminate].
  right. split; [lia|].
  rewrite Pos.compare_cont_spec in H.
  destruct (Pos.compare_spec m 6966505673588736) as [Hm|Hm|Hm]; [| |discriminate].
  - rewrite Hm. apply Z.le_refl.
  - apply Z.lt_le_incl. exact Hm.
Qed.

(** The shape of a binary64 number that lies between 40 and 99: 53 bits of
    mantissa, and the exponent of the binade of 32 or of 64. *)
Lemma in_range_shape (v : Py.float) :
  valid_binary Py.prec Py.emax v = true ->
  Py.float_le (Py.float_of_int 40) v = true ->
  Py.float_le v (Py.float_of_int 99) = true ->
  exists m : positive,
    (v = S754_finite false m (-47) /\
     5629499534213120 <= Zpos m < 9007199254740992) \/
    (v = S754_finite false m (-46) /\
     4503599627370496 <= Zpos m <= 6966505673588736).
Proof.
  rewrite float_40, float_99. intros Hvalid Hlo Hhi.
  destruct v as [s|s| |s m e];
    try (unfold Py.float_le, SFleb in Hlo, Hhi; cbn [SFcompare] in Hlo, Hhi;
         try destruct s; discriminate).
  apply le_40_finite in Hlo as [-> Hlo]. apply le_99_finite in Hhi.
  unfold valid_binary, bounded, canonical_mantissa, fexp, emin, Py.prec, Py.emax in Hvalid.
  apply andb_true_iff in Hvalid as [Hcanon _]. apply Z.eqb_eq in Hcanon.
  pose proof (digits2_pos_bounds m) as Hd.
  assert (2 ^ 52 = 4503599627370496) as E52 by reflexivity.
  assert (2 ^ 53 = 9007199254740992) as E53 by reflexivity.
  exists m.
  assert (e = -47 \/ e = -46) as [-> | ->] by lia.
  - left. split; [reflexivity|].
    assert (Zpos (digits2_pos m) = 53) as Hdig by lia.
    rewrite Hdig in Hd. rewrite E53 in Hd. lia.
  - right. split; [reflexivity|].
    assert (Zpos (digits2_pos m) = 53) as Hdig by lia.
    rewrite Hdig in Hd. replace (53 - 1) with 52 in Hd by reflexivity.
    rewrite E52 in Hd. lia.
Qed.

(** Rounded to an integer, such a number is still between 40 and 99. *)
Lemma nearest_int_in_range (m : positive) :
  (5629499534213120 <= Zpos m < 9007199254740992 ->
   40 <= Py.nearest_int m (-47) <= 99) /\
  (4503599627370496 <= Zpos m <= 6966505673588736 ->
   40 <= Py.nearest_int m (-46) <= 99).
Proof.
  unfold Py.nearest_int, Py.round_half_even. split; intros Hm.
  - replace (0 <=? -47) with false by reflexivity.
    replace (2 ^ (- -47)) with 140737488355328 by reflexivity.
    pose proof (Z.div_mod (Zpos m) 140737488355328 ltac:(lia)) as Hdm.
    pose proof (Z.mod_pos_bound (Zpos m) 140737488355328 ltac:(lia)) as Hr.
    destruct (Z.compare_spec (2 * (Zpos m mod 140737488355328)) 140737488355328);
      try destruct (Z.even _); lia.
  - replace (0 <=? -46) with false by reflexivity.
    replace (2 ^ (- -46)) with 70368744177664 by reflexivity.
    pose proof (Z.div_mod (Zpos m) 70368744177664 ltac:(lia)) as Hdm.
    pose proof (Z.mod_pos_bound (Zpos m) 70368744177664 ltac:(lia)) as Hr.
    destruct (Z.compare_spec (2 * (Zpos m mod 70368744177664)) 70368744177664);
      try destruct (Z.even _); lia.
Qed.

(** The decimal text of an integer between 40 and 99 reads back as a float
    that is a whole number. *)
Lemma whole_number_reads_back (n : Z) :
  40 <= n <= 99 ->
  exists w : Py.float,
    Py.to_float (Py.str_of_int n) = Some w /\ Py.is_integer w = true.
Proof.
  intros Hn.
  assert (forallb
            (fun k : nat =>
               match Py.to_float (Py.str_of_int (Z.of_nat k)) with
               | Some w => Py.is_integer w
               | None => false
               end) (seq 40 60) = true) as Hall by (vm_compute; reflexivity).
  rewrite forallb_forall in Hall.
  specialize (Hall (Z.to_nat n)).
  rewrite Z2Nat.id in Hall by lia.
  destruct (Py.to_float (Py.str_of_int n)) as [w|].
  - exists w. split; [reflexivity|]. apply Hall. apply in_seq. lia.
  - exfalso. enough (false = true) by discriminate. apply Hall. apply in_seq. lia.
Qed.

(** ** The setpoint that a zone holds *)

(** After the change-aware assignment of a finite setpoint, the zone holds
    exactly that setpoint. *)
Lemma update_current_setpoint_finite (z : Zone) (s : bool) (m : positive) (e : Z) :
  current_setpoint (update_current_setpoint (S754_finite s m e) z)
    = Some (S754_finite s m e).
Proof.
  unfold update_current_setpoint, float_attr_ne.
  destruct (current_setpoint z) as [x|] eqn:Hx; [|reflexivity].
  unfold Py.float_ne.
  destruct (SFeqb x (S754_finite s m e)) eqn:Heq; cbn [negb]; [|reflexivity].
  rewrite Hx. f_equal. by apply float_eq_finite.
Qed.


(** ** Publishing *)

Section Publish.
Import mqtt_client.
Implicit Types (m : MQTTClient) (r : Registry) (zone : ref).

(** Clearing the flag of one zone object, seen from any reference. *)
Lemma deref_clear r zone zone' :
  deref (mutate zone (with_modified_since_last_sync false) r) zone' =
    if decide (zone = zone') then with_modified_since_last_sync false (deref r zone)
    else deref r zone'.
Proof.
  unfold deref, mutate; cbn [store]. rewrite list_lookup_total_alter.
  repeat case_decide; try reflexivity; try (exfalso; tauto).
  subst zone'. rewrite !list_lookup_total_alt.
  rewrite (lookup_ge_None_2 (store r) zone) by lia. reflexivity.
Qed.

(** What the loop does to the client and to the registry, for a list of
    references without repetition. *)
Lemma publish_loop_spec (vals : list ref) (force : bool) m r :
  NoDup vals ->
  device_topic_prefix (fst (publish_loop vals force m r)) = device_topic_prefix m /\
  published (fst (publish_loop vals force m r)) =
    (published m ++
       map (fun zone => status_message m (deref r zone))
         (List.filter (selected force r) vals))%list /\
  zones_by_index (snd (publish_loop vals force m r)) = zones_by_index r /\
  zones_by_entity (snd (publish_loop vals force m r)) = zones_by_entity r /\
  forall zone,
    deref (snd (publish_loop vals force m r)) zone =
      if decide (zone ∈ vals /\ selected force r zone = true)
      then with_modified_since_last_sync false (deref r zone)
      else deref r zone.
Proof.
  intros Hnd. revert m r.
  induction Hnd as [|l rest Hnotin Hnd IH]; intros m r.
  - cbn [publish_loop List.filter map fst snd]. rewrite app_nil_r.
    split; [reflexivity|]. split; [reflexivity|]. split; [reflexivity|].
    split; [reflexivity|].
    intros zone. rewrite decide_False; [reflexivity|]. intros [H _]. by apply elem_of_nil in H.
  - cbn [publish_loop List.filter]. fold (selected force r l).
    replace (negb (modified_since_last_sync (deref r l)) && negb force)
      with (negb (selected force r l))
      by (unfold selected; by rewrite negb_orb).
    destruct (selected force r l) eqn:Hsel; cbn [negb].
    + set (m1 := publish _ _ m). set (r1 := mutate l _ r).
      destruct (IH m1 r1) as (Hp & Hpub & Hbi & Hbe & Hder).
      assert (forall zone, zone <> l -> deref r1 zone = deref r zone) as Hother.
      { intros zone Hne. unfold r1. rewrite deref_clear. by case_decide. }
      assert (forall zone, zone ∈ rest -> selected force r1 zone = selected force r zone)
        as Hselrest.
      { intros zone Hin. unfold selected. rewrite Hother; [reflexivity|].
        intros ->. contradiction. }
      repeat split.
      * by rewrite Hp.
      * rewrite Hpub. unfold m1, publish; cbn [published map].
        rewrite <- app_assoc. cbn [app]. f_equal. f_equal.
        rewrite (filter_ext_in (selected force r1) (selected force r) rest)
          by (intros zone Hin; apply Hselrest; by apply list_elem_of_In).
        apply map_ext_in. intros zone Hin. apply filter_In in Hin as [Hin _].
        unfold status_message; cbn [device_topic_prefix]. rewrite Hother; [reflexivity|].
        intros ->. apply Hnotin. by apply list_elem_of_In.
      * by rewrite Hbi.
      * by rewrite Hbe.
      * intros zone. rewrite Hder. destruct (decide (zone = l)) as [->|Hne].
        -- rewrite decide_False by (intros [Hin _]; contradiction).
           rewrite decide_True by (split; [apply list_elem_of_here|exact Hsel]).
           unfold r1. rewrite deref_clear. by rewrite decide_True.
        -- rewrite (Hother zone Hne).
           destruct (decide (zone ∈ rest)) as [Hin|Hnin].
           ++ rewrite (Hselrest zone Hin). apply decide_ext.
              rewrite elem_of_cons. tauto.
           ++ rewrite decide_False by (intros [Hin _]; contradiction).
              rewrite decide_False; [reflexivity|].
              intros [Hin _]. apply elem_of_cons in Hin as [?|?]; contradiction.
    + destruct (IH m r) as (Hp & Hpub & Hbi & Hbe & Hder).
      repeat split; try assumption.
      intros zone. rewrite Hder. destruct (decide (zone = l)) as [->|Hne].
      * rewrite decide_False by (intros [Hin _]; contradiction).
        rewrite decide_False; [reflexivity|]. intros [_ H]. congruence.
      * apply decide_ext. rewrite elem_of_cons. tauto.
Qed.

End Publish.

(** C5: on a well-formed registry, [publish_all_zone_status] without
    [force] publishes one status message for each zone whose
    [modified_since_last_sync] flag was set before the call, in the order of
    [zones_by_index], and nothing else; each of these zones is afterwards the
    same zone with the flag cleared, and every zone whose flag was not set is
    afterwards exactly as it was.  With [force] it publishes one message for
    every zone of [zones_by_index], whatever its flag, and clears every flag. *)
Theorem C5_publish_all_zone_status (m : mqtt_client.MQTTClient) (r : Registry) :
  invariants.wf r ->
  let configured := Dict.values (zones_by_index r) in
  let dirty := fun zone : ref => modified_since_last_sync (deref r zone) in
  let message := fun zone : ref => mqtt_client.status_message m (deref r zone) in
  (let m' := fst (mqtt_client.publish_all_zone_status false m r) in
   let r' := snd (mqtt_client.publish_all_zone_status false m r) in
   mqtt_client.published m' =
     (mqtt_client.published m ++ map message (List.filter dirty configured))%list /\
   (forall zone : ref,
      zone ∈ configured -> dirty zone = true ->
      deref r' zone = with_modified_since_last_sync false (deref r zone) /\
      modified_since_last_sync (deref r' zone) = false) /\
   (forall zone : ref, dirty zone = false -> deref r' zone = deref r zone)) /\
  (let m' := fst (mqtt_client.publish_all_zone_status true m r) in
   let r' := snd (mqtt_client.publish_all_zone_status true m r) in
   mqtt_client.published m' = (mqtt_client.published m ++ map message configured)%list /\
   (forall zone : ref,
      zone ∈ configured ->
      deref r' zone = with_modified_since_last_sync false (deref r zone) /\
      modified_since_last_sync (deref r' zone) = false)).
Proof.
  intros [Hnd _ _] configured dirty message.
  unfold mqtt_client.publish_all_zone_status. fold configured.
  split.
  - destruct (publish_loop_spec configured false m r Hnd) as (_ & Hpub & _ & _ & Hder).
    cbn zeta. split; [|split].
    + rewrite Hpub. f_equal. f_equal. apply filter_ext. intros zone.
      unfold mqtt_client.selected, dirty. apply orb_false_r.
    + intros zone Hin Hd. rewrite Hder.
      rewrite decide_True; [split; reflexivity|].
      split; [exact Hin|]. unfold mqtt_client.selected. fold (dirty zone). by rewrite Hd.
    + intros zone Hd. rewrite Hder. rewrite decide_False; [reflexivity|].
      intros [_ Hsel]. unfold mqtt_client.selected in Hsel. fold (dirty zone) in Hsel.
      rewrite Hd in Hsel. discriminate.
  - destruct (publish_loop_spec configured true m r Hnd) as (_ & Hpub & _ & _ & Hder).
    cbn zeta. split.
    + rewrite Hpub. f_equal. f_equal.
      rewrite (filter_ext (mqtt_client.selected true r) (fun _ => true))
        by (intros zone; apply orb_true_r).
      clear. induction configured as [|zone rest IH]; [reflexivity|].
      cbn [List.filter]. by rewrite IH.
    + intros zone Hin. rewrite Hder.
      rewrite decide_True; [split; reflexivity|].
      split; [exact Hin|]. apply orb_true_r.
Qed.

Lemma C5_publish_all_zone_status_witness :
  let st := snd (_process_status_type_1 "Z=2 SP=70" sample.state) in
  let m' := fst (mqtt_client.publish_all_zone_status false sample.client (zs st)) in
  let r' := snd (mqtt_client.publish_all_zone_status false sample.client (zs st)) in
  mqtt_client.published m' =
    [mqtt_client.status_message sample.client (zone_of st 1%nat)] /\
  modified_since_last_sync (deref r' 1%nat) = false /\
  deref r' 0%nat = deref (zs st) 0%nat.
Proof.
  intros st m' r'.
  assert (invariants.wf (zs st)) as Hwf by wf_by_evaluation.
  destruct (C5_publish_all_zone_status sample.client (zs st) Hwf) as [(Hpub & Hdirty & Hclean) _].
  split; [exact Hpub|]. split.
  - apply (Hdirty 1%nat); [|reflexivity].
    vm_compute. apply list_elem_of_further, list_elem_of_here.
  - apply (Hclean 0%nat). reflexivity.
Defined.

(** ** A command seen through the other dictionary *)

(** The zone that [set_setpoint] reaches through [zones_by_entity] is the
    object that [publish_all_zone_status] reads through [zones_by_index]: the
    setpoint of a command shows in the next status message, and the two
    other zones are not published. *)
Example command_then_publish :
  let st := snd (set_setpoint "zone_2" (Py.float_of_int 72) sample.state) in
  mqtt_client.published (fst (mqtt_client.publish_all_zone_status false (mqtt st) (zs st)))
    = [("homeassistant/climate/rcs/status",
        {| mqtt_client.setpoint := Some (Py.float_of_int 72);
           mqtt_client.mode := None;
           mqtt_client.temperature := None;
           mqtt_client.action := None |})].
Proof. vm_compute. reflexivity. Qed.

(** * Further properties *)

(** ** Start-up: [create_zones_from_config] *)

Section Startup.
Import frames invariants.
Implicit Types (r : Registry) (zs : list zone_entry).

Lemma create_zones_loop_complete zs r :
  forallb complete zs = true -> fst (create_zones_loop zs r) = true.
Proof.
  revert r. induction zs as [|zone rest IH]; intros r Hall; [reflexivity|].
  cbn [forallb] in Hall. apply andb_true_iff in Hall as [Hz Hrest].
  cbn [create_zones_loop]. unfold complete in Hz.
  destruct (cfg_name zone); [|discriminate]. destruct (cfg_index zone); [|discriminate].
  by apply IH.
Qed.

Lemma create_zones_loop_incomplete (pre : list zone_entry) (bad : zone_entry) zs r :
  forallb complete pre = true -> complete bad = false ->
  create_zones_loop ((pre ++ bad :: zs)%list) r = (false, snd (create_zones_loop pre r)).
Proof.
  revert r. induction pre as [|zone rest IH]; intros r Hall Hbad.
  - cbn. unfold complete in Hbad.
    destruct (cfg_name bad), (cfg_index bad); try discriminate; reflexivity.
  - cbn [forallb] in Hall. apply andb_true_iff in Hall as [Hz Hrest].
    cbn [app create_zones_loop]. unfold complete in Hz.
    destruct (cfg_name zone); [|discriminate]. destruct (cfg_index zone); [|discriminate].
    by apply IH.
Qed.

(** X1: [create_zones_from_config] returns [False] and registers nothing
    when the zone list is missing or empty; it returns [True] when the list
    is not empty and every entry has a name and an index; and at the first
    entry that lacks a name or an index it returns [False] with the entries
    before that one left registered, exactly as if they alone had been
    configured. *)
Theorem X1_create_zones_from_config_outcomes r :
  create_zones_from_config None r = (false, r) /\
  create_zones_from_config (Some []) r = (false, r) /\
  (forall zs, zs <> [] -> forallb complete zs = true ->
     fst (create_zones_from_config (Some zs) r) = true) /\
  (forall (pre : list zone_entry) (bad : zone_entry) zs,
     forallb complete pre = true -> complete bad = false ->
     create_zones_from_config (Some ((pre ++ bad :: zs)%list)) r
       = (false, snd (create_zones_from_config (Some pre) r))).
Proof.
  split; [reflexivity|]. split; [reflexivity|]. split.
  - intros zs Hne Hall. unfold create_zones_from_config.
    destruct zs as [|zone rest]; [contradiction|]. cbn [length Nat.leb].
    by apply create_zones_loop_complete.
  - intros pre bad zs Hall Hbad. unfold create_zones_from_config.
    rewrite length_app. cbn [length].
    replace (1 <=? length pre + S (length zs))%nat with true
      by (symmetry; apply Nat.leb_le; lia).
    rewrite (create_zones_loop_incomplete pre bad zs r Hall Hbad).
    destruct pre as [|zone rest]; reflexivity.
Qed.

Lemma X1_create_zones_from_config_outcomes_witness :
  fst (create_zones_from_config sample.config empty) = true /\
  create_zones_from_config
    (Some [ {| cfg_name := Some "Downstairs"; cfg_index := Some 1 |};
            {| cfg_name := Some "Upstairs"; cfg_index := None |};
            {| cfg_name := Some "Basement"; cfg_index := Some 3 |} ]) empty
    = (false,
       snd (create_zones_from_config
              (Some [ {| cfg_name := Some "Downstairs"; cfg_index := Some 1 |} ]) empty)).
Proof.
  destruct (X1_create_zones_from_config_outcomes empty) as (_ & _ & Hok & Hbad).
  split.
  - apply Hok; [discriminate|reflexivity].
  - apply (Hbad [ {| cfg_name := Some "Downstairs"; cfg_index := Some 1 |} ]
             {| cfg_name := Some "Upstairs"; cfg_index := None |}
             [ {| cfg_name := Some "Basement"; cfg_index := Some 3 |} ]); reflexivity.
Defined.


(** Reading a dictionary after an assignment. *)
Lemma get_set {K : Type} (eqb : K -> K -> bool) (d : Dict.t (K := K) (V := ref))
    (k k' : K) (v : ref) :
  (forall a b : K, eqb a b = true <-> a = b) ->
  Dict.get eqb (Dict.set eqb d k v) k' = if eqb k' k then Some v else Dict.get eqb d k'.
Proof.
  intros Heqb. induction d as [|[k0 v0] d IH]; cbn; [reflexivity|].
  destruct (eqb k k0) eqn:Hk; cbn.
  - apply Heqb in Hk. subst k0. destruct (eqb k' k); reflexivity.
  - destruct (eqb k' k0) eqn:Hk0.
    + apply Heqb in Hk0. subst k0.
      destruct (eqb k' k) eqn:Hk'; [|reflexivity].
      apply Heqb in Hk'. subst k'. assert (eqb k k = true) by (by apply Heqb). congruence.
    + exact IH.
Qed.

Lemma Z_eqb_iff (a b : Z) : (a =? b) = true <-> a = b.
Proof. apply Z.eqb_eq. Qed.

Lemma string_eqb_iff (a b : string) : String.eqb a b = true <-> a = b.
Proof. apply String.eqb_eq. Qed.

(** Distinct indices have distinct decimal texts, hence distinct entity
    names. *)
Lemma str_of_int_inj (i j : Z) : Py.str_of_int i = Py.str_of_int j -> i = j.
Proof.
  unfold Py.str_of_int. intros H.
  assert (forall z : Z, Z.to_int z <> Decimal.Pos Decimal.Nil /\
                        Z.to_int z <> Decimal.Neg Decimal.Nil) as Hnil.
  { intros z. split; intros Hz; pose proof (f_equal Z.of_int Hz) as Hz';
      rewrite DecimalZ.of_to in Hz'; cbn in Hz'; subst z; discriminate Hz. }
  pose proof (NilZero.isi (Z.to_int i) (proj1 (Hnil i)) (proj2 (Hnil i))) as Hi.
  pose proof (NilZero.isi (Z.to_int j) (proj1 (Hnil j)) (proj2 (Hnil j))) as Hj.
  rewrite H in Hi. rewrite Hi in Hj. injection Hj as Hij.
  apply (f_equal Z.of_int) in Hij. by rewrite !DecimalZ.of_to in Hij.
Qed.

Lemma entity_of_inj (i j : Z) : entity_of i = entity_of j -> i = j.
Proof. unfold entity_of. intros [= H]. by apply str_of_int_inj. Qed.

(** The registry after one more configured zone. *)
Lemma create_zones_loop_cons (n : str) (i : Z) zs r :
  create_zones_loop ({| cfg_name := Some n; cfg_index := Some i |} :: zs) r =
    create_zones_loop zs
      {| store := store r ++ [Zone_init n i];
         zones_by_index := Dict.set Z.eqb (zones_by_index r) i (length (store r));
         zones_by_entity :=
           Dict.set String.eqb (zones_by_entity r) (entity_of i) (length (store r)) |}.
Proof. reflexivity. Qed.

Lemma deref_new (n : str) (i : Z) r bi be :
  deref {| store := store r ++ [Zone_init n i]; zones_by_index := bi; zones_by_entity := be |}
    (length (store r)) = Zone_init n i.
Proof.
  unfold deref; cbn [store]. apply list_lookup_total_correct.
  rewrite lookup_app_r by lia. by rewrite Nat.sub_diag.
Qed.

Lemma deref_old (z : Zone) r bi be (l : ref) :
  (l < length (store r))%nat ->
  deref {| store := store r ++ [z]; zones_by_index := bi; zones_by_entity := be |} l
    = deref r l.
Proof.
  intros Hl. unfold deref; cbn [store]. rewrite !list_lookup_total_alt.
  by rewrite lookup_app_l.
Qed.

Lemma consistent_step (n : str) (i : Z) r :
  wf r -> consistent r ->
  consistent
    {| store := store r ++ [Zone_init n i];
       zones_by_index := Dict.set Z.eqb (zones_by_index r) i (length (store r));
       zones_by_entity :=
         Dict.set String.eqb (zones_by_entity r) (entity_of i) (length (store r)) |}.
Proof.
  intros Hwf [Hbi Hbe Hsame]. split.
  - intros j l. unfold get_zone_by_index; cbn [zones_by_index].
    rewrite (get_set Z.eqb _ i j _ Z_eqb_iff).
    destruct (Z.eqb_spec j i) as [->|Hne].
    + intros [= <-]. by rewrite deref_new.
    + intros Hget. rewrite deref_old by (by eapply get_zone_by_index_valid).
      by apply Hbi.
  - intros e l. unfold get_zone_by_entity_name; cbn [zones_by_entity].
    rewrite (get_set String.eqb _ (entity_of i) e _ string_eqb_iff).
    destruct (String.eqb_spec e (entity_of i)) as [->|Hne]; [by exists i|].
    apply Hbe.
  - intros j. unfold get_zone_by_entity_name, get_zone_by_index;
      cbn [zones_by_entity zones_by_index].
    rewrite (get_set String.eqb _ (entity_of i) (entity_of j) _ string_eqb_iff).
    rewrite (get_set Z.eqb _ i j _ Z_eqb_iff).
    destruct (Z.eqb_spec j i) as [->|Hne].
    + by rewrite String.eqb_refl.
    + destruct (String.eqb_spec (entity_of j) (entity_of i)) as [He|_].
      * apply entity_of_inj in He. contradiction.
      * apply Hsame.
Qed.

Lemma consistent_create_zones_loop zs r :
  wf r -> consistent r ->
  consistent (snd (create_zones_loop zs r)).
Proof.
  revert r. induction zs as [|[[n|] [i|]] rest IH]; intros r Hwf Hc; try exact Hc.
  rewrite create_zones_loop_cons. apply IH.
  - apply (wf_create_zones_loop [ {| cfg_name := Some n; cfg_index := Some i |} ] r Hwf).
  - by apply consistent_step.
Qed.

Lemma consistent_empty : consistent empty.
Proof. split; intros; try discriminate; reflexivity. Qed.

Lemma startup_consistent (config : option (list zone_entry)) :
  consistent (snd (create_zones_from_config config empty)).
Proof.
  unfold create_zones_from_config.
  destruct config as [zs|]; [|apply consistent_empty].
  destruct (1 <=? length zs)%nat; [|apply consistent_empty].
  apply consistent_create_zones_loop; [apply wf_empty|apply consistent_empty].
Qed.

(** X2: whatever the configuration, the registry that start-up builds is
    well formed (every reference of either dictionary points to a zone
    object, and [zones_by_index] lists no object twice) and consistent: the
    zone found under an index carries that index and the entity name
    [zone_<index>], and looking up that entity name gives the very same
    object. *)
Theorem X2_startup_registry_is_consistent (config : option (list zone_entry)) :
  wf (snd (create_zones_from_config config empty)) /\
  consistent (snd (create_zones_from_config config empty)).
Proof.
  split; [apply wf_create_zones_from_config, wf_empty|apply startup_consistent].
Qed.

Lemma create_zones_loop_app (a b : list zone_entry) r :
  forallb complete a = true ->
  create_zones_loop (a ++ b) r = create_zones_loop b (snd (create_zones_loop a r)).
Proof.
  revert r. induction a as [|[[n|] [i|]] rest IH]; intros r Hall; try discriminate.
  - reflexivity.
  - cbn [app]. rewrite !create_zones_loop_cons. by apply IH.
Qed.

Lemma create_zones_loop_keeps_objects zs r (l : ref) :
  (l < length (store r))%nat ->
  deref (snd (create_zones_loop zs r)) l = deref r l.
Proof.
  revert r. induction zs as [|[[n|] [i|]] rest IH]; intros r Hl; try reflexivity.
  rewrite create_zones_loop_cons. rewrite IH.
  - by apply deref_old.
  - cbn [store]. rewrite length_app. lia.
Qed.

Lemma create_zones_loop_keeps_index zs r (i : Z) :
  (forall e, In e zs -> cfg_index e <> Some i) ->
  get_zone_by_index (snd (create_zones_loop zs r)) i = get_zone_by_index r i.
Proof.
  revert r. induction zs as [|[[n|] [j|]] rest IH]; intros r Hno; try reflexivity.
  rewrite create_zones_loop_cons. rewrite IH by (intros e He; apply Hno; by right).
  unfold get_zone_by_index; cbn [zones_by_index].
  rewrite (get_set Z.eqb _ j i _ Z_eqb_iff).
  destruct (Z.eqb_spec i j) as [->|Hne]; [|reflexivity].
  exfalso. apply (Hno {| cfg_name := Some n; cfg_index := Some j |}); [by left|reflexivity].
Qed.

(** X3: after start-up from a list of complete entries, an index that no
    entry carries is found neither by index nor by entity name; and an index
    is found, by index and by its entity name [zone_<index>] alike, as a
    fresh zone (no temperature, setpoint, mode or action, not heating, damper
    closed, not modified) with the name of the last entry that carries that
    index. *)
Theorem X3_startup_lookup (i : Z) :
  (forall zs : list zone_entry,
     forallb complete zs = true ->
     (forall e, In e zs -> cfg_index e <> Some i) ->
     let r := snd (create_zones_from_config (Some zs) empty) in
     get_zone_by_index r i = None /\ get_zone_by_entity_name r (entity_of i) = None) /\
  (forall (pre post : list zone_entry) (n : str),
     forallb complete pre = true -> forallb complete post = true ->
     (forall e, In e post -> cfg_index e <> Some i) ->
     let r := snd (create_zones_from_config
                     (Some (pre ++ {| cfg_name := Some n; cfg_index := Some i |} :: post)%list)
                     empty) in
     exists l : ref,
       get_zone_by_index r i = Some l /\
       get_zone_by_entity_name r (entity_of i) = Some l /\
       deref r l = Zone_init n i).
Proof.
  split.
  - intros zs Hall Hno r.
    destruct (startup_consistent (Some zs)) as [_ _ Hsame]. fold r in Hsame.
    rewrite Hsame.
    assert (get_zone_by_index r i = None) as ->; [|by split].
    subst r. unfold create_zones_from_config.
    destruct (1 <=? length zs)%nat; [|reflexivity].
    by rewrite create_zones_loop_keeps_index.
  - intros pre post n Hpre Hpost Hno r.
    destruct (startup_consistent
                (Some (pre ++ {| cfg_name := Some n; cfg_index := Some i |} :: post)%list))
      as [_ _ Hsame]. fold r in Hsame.
    exists (length (store (snd (create_zones_loop pre empty)))).
    rewrite Hsame.
    assert (r = snd (create_zones_loop post
                       (snd (create_zones_loop
                               [ {| cfg_name := Some n; cfg_index := Some i |} ]
                               (snd (create_zones_loop pre empty)))))) as ->.
    { subst r. unfold create_zones_from_config. rewrite length_app. cbn [length].
      replace (1 <=? length pre + S (length post))%nat with true
        by (symmetry; apply Nat.leb_le; lia).
      rewrite (create_zones_loop_app pre) by exact Hpre.
      change ({| cfg_name := Some n; cfg_index := Some i |} :: post)
        with ([ {| cfg_name := Some n; cfg_index := Some i |} ] ++ post)%list.
      by rewrite (create_zones_loop_app [_]). }
    rewrite create_zones_loop_keeps_index by exact Hno.
    rewrite create_zones_loop_keeps_objects
      by (rewrite create_zones_loop_cons; cbn [create_zones_loop snd store];
          rewrite length_app; cbn; lia).
    rewrite create_zones_loop_cons. cbn [create_zones_loop snd].
    assert (forall s bi be,
              get_zone_by_index
                {| store := s;
                   zones_by_index :=
                     Dict.set Z.eqb bi i (length (store (snd (create_zones_loop pre empty))));
                   zones_by_entity := be |} i
              = Some (length (store (snd (create_zones_loop pre empty))))) as Hidx.
    { intros s bi be. unfold get_zone_by_index; cbn [zones_by_index].
      rewrite (get_set Z.eqb _ i i _ Z_eqb_iff). by rewrite Z.eqb_refl. }
    rewrite Hidx. split; [reflexivity|]. split; [reflexivity|]. apply deref_new.
Qed.

Lemma X3_startup_lookup_witness :
  get_zone_by_index sample.registry 7 = None /\
  exists l : ref,
    get_zone_by_index sample.registry 2 = Some l /\
    get_zone_by_entity_name sample.registry "zone_2" = Some l /\
    deref sample.registry l = Zone_init "Upstairs" 2.
Proof.
  split.
  - apply (proj1 (X3_startup_lookup 7)
             [ {| cfg_name := Some "Downstairs"; cfg_index := Some 1 |};
               {| cfg_name := Some "Upstairs"; cfg_index := Some 2 |};
               {| cfg_name := Some "Basement"; cfg_index := Some 3 |} ]).
    + reflexivity.
    + intros e [<-|[<-|[<-|[]]]]; discriminate.
  - apply (proj2 (X3_startup_lookup 2)
             [ {| cfg_name := Some "Downstairs"; cfg_index := Some 1 |} ]
             [ {| cfg_name := Some "Basement"; cfg_index := Some 3 |} ] "Upstairs").
    + reflexivity.
    + reflexivity.
    + intros e [<-|[]]. discriminate.
Defined.

End Startup.

(** ** What no operation does to the registry *)

Section Frames.
Import frames invariants.
Implicit Types (r : Registry) (st : State) (f : Zone -> Zone).

Lemma same_zones_refl r : same_zones r r.
Proof. by repeat split. Qed.

Lemma same_zones_trans r1 r2 r3 :
  same_zones r1 r2 -> same_zones r2 r3 -> same_zones r1 r3.
Proof.
  intros (Hi & He & Hl & Hz) (Hi' & He' & Hl' & Hz').
  split; [congruence|]. split; [congruence|]. split; [congruence|].
  intros l. destruct (Hz l) as (? & ? & ?), (Hz' l) as (? & ? & ?).
  repeat split; congruence.
Qed.

Lemma same_zones_mutate (l : ref) f r : keeps_identity f -> same_zones r (mutate l f r).
Proof.
  intros Hf. split; [reflexivity|]. split; [reflexivity|].
  split; [cbn [mutate store]; apply length_alter|].
  intros l'. unfold deref, mutate; cbn [store]. rewrite list_lookup_total_alter.
  case_decide as H; [|by repeat split]. destruct H as [<- _]. apply Hf.
Qed.

(** Well-formedness and consistency only depend on what [same_zones] keeps. *)
Lemma wf_same_zones r r' : same_zones r r' -> wf r -> wf r'.
Proof. intros (Hi & He & Hl & _) [? ? ?]. split; rewrite ?Hi, ?He, ?Hl; assumption. Qed.

Lemma consistent_same_zones r r' : same_zones r r' -> consistent r -> consistent r'.
Proof.
  intros (Hi & He & Hl & Hz) [Hbi Hbe Hsame].
  split; unfold get_zone_by_index, get_zone_by_entity_name in *.
  - intros i l. rewrite Hi. intros Hget. destruct (Hz l) as (_ & -> & ->). by apply Hbi.
  - intros e l. rewrite He. apply Hbe.
  - intros i. rewrite Hi, He. apply Hsame.
Qed.

Lemma keeps_identity_updates :
  (forall v, keeps_identity (update_current_temperature v)) /\
  (forall v, keeps_identity (update_current_setpoint v)) /\
  (forall v, keeps_identity (update_current_mode v)) /\
  (forall v, keeps_identity (update_current_action v)) /\
  (forall v, keeps_identity (update_is_heating v)) /\
  (forall v, keeps_identity (update_is_damper_open v)) /\
  (forall v, keeps_identity (with_modified_since_last_sync v)).
Proof.
  repeat split; intros;
    unfold update_current_temperature, update_current_setpoint, update_current_mode,
      update_current_action, update_is_heating, update_is_damper_open;
    try case_match; reflexivity.
Qed.

Lemma decoding_frame_refl st : decoding_frame st st.
Proof.
  split; [apply same_zones_refl|]. repeat split. exists []. by rewrite app_nil_r.
Qed.

Lemma decoding_frame_trans st1 st2 st3 :
  decoding_frame st1 st2 -> decoding_frame st2 st3 -> decoding_frame st1 st3.
Proof.
  intros (Hz & Hc & Hf & Hm & more & Hl) (Hz' & Hc' & Hf' & Hm' & more' & Hl').
  split; [by eapply same_zones_trans|].
  split; [congruence|]. split; [congruence|]. split; [congruence|].
  exists (more ++ more')%list. by rewrite Hl', Hl, app_assoc.
Qed.

Lemma decoding_frame_error (rec : log_record) st : decoding_frame st (error rec st).
Proof. split; [apply same_zones_refl|]. repeat split. by exists [rec]. Qed.

Lemma decoding_frame_on_zone (zone : ref) f st :
  keeps_identity f -> decoding_frame st (on_zone zone f st).
Proof.
  intros Hf. split; [by apply same_zones_mutate|]. repeat split.
  exists []. cbn. by rewrite app_nil_r.
Qed.

(** Peels the state changes of a decoder branch off, outermost first. *)
Ltac frame_steps :=
  repeat first
    [ apply decoding_frame_refl
    | eapply decoding_frame_trans; [|apply decoding_frame_error]
    | eapply decoding_frame_trans; [|apply decoding_frame_on_zone; solve [auto]] ].

Lemma decoding_frame_type_1_case (param : bytes) (zone : option ref) st :
  decoding_frame st (snd (type_1_case param zone st)).
Proof.
  destruct keeps_identity_updates as (Ht & Hs & Hm & _).
  unfold type_1_case. repeat case_match; cbn [snd]; frame_steps.
Qed.

Lemma decoding_frame_type_2_case (param : bytes) (ctx : option bool) st :
  decoding_frame st (snd (type_2_case param ctx st)).
Proof.
  destruct keeps_identity_updates as (_ & _ & _ & Ha & Hh & Hd & _).
  unfold type_2_case. repeat case_match; cbn [snd]; frame_steps.
Qed.

Lemma decoding_frame_type_1_loop (params : list bytes) (zone : option ref) st :
  decoding_frame st (snd (type_1_loop params zone st)).
Proof.
  revert zone st. induction params as [|param rest IH]; intros zone st;
    [apply decoding_frame_refl|].
  cbn [type_1_loop]. pose proof (decoding_frame_type_1_case param zone st) as Hstep.
  destruct (type_1_case param zone st) as [[[| |v|e] zone'] st']; cbn [snd] in *;
    try exact Hstep.
  eapply decoding_frame_trans; [exact Hstep|apply IH].
Qed.

Lemma decoding_frame_type_2_loop (params : list bytes) (ctx : option bool) st :
  decoding_frame st (snd (type_2_loop params ctx st)).
Proof.
  revert ctx st. induction params as [|param rest IH]; intros ctx st;
    [apply decoding_frame_refl|].
  cbn [type_2_loop]. pose proof (decoding_frame_type_2_case param ctx st) as Hstep.
  destruct (type_2_case param ctx st) as [[[| |v|e] ctx'] st']; cbn [snd] in *;
    try exact Hstep.
  eapply decoding_frame_trans; [exact Hstep|apply IH].
Qed.

(** X4: whatever bytes they are given and however they end (return or
    exception), the two decoders never add, remove, rename or re-index a zone
    and never alter either dictionary; they leave the serial port, the
    first-pass flag and the MQTT client as they were, and only append to the
    log. *)
Theorem X4_decoders_only_touch_zone_attributes (record : bytes) st :
  decoding_frame st (snd (_process_status_type_1 record st)) /\
  decoding_frame st (snd (_process_status_type_2 record st)).
Proof.
  split; [apply decoding_frame_type_1_loop|apply decoding_frame_type_2_loop].
Qed.

End Frames.

(** ** Commands *)

Section Commands.
Import frames invariants.
Implicit Types (r : Registry) (st : State) (entity : str).

Lemma send_open (cmd_string : str) st (c : Serial) :
  conn st = Some c -> is_open c = true ->
  send cmd_string st =
    (Returned tt,
     with_conn (Some {| is_open := true; written := written c ++ [cmd_string] |}) st).
Proof. intros Hc Ho. unfold send, Serial_write. by rewrite Hc, Ho. Qed.

Lemma conn_usable st :
  conn_unusable st = false -> exists c : Serial, conn st = Some c /\ is_open c = true.
Proof.
  unfold conn_unusable. destruct (conn st) as [c|]; [|discriminate].
  intros H. exists c. split; [reflexivity|]. by apply negb_false_iff.
Qed.

(** What both commands come down to: nothing, one more log record, or one
    record written followed by a change-aware assignment to the zone that the
    entity names. *)
Lemma set_setpoint_cases entity (v : Py.float) st :
  set_setpoint entity v st = (Returned tt, st) \/
  set_setpoint entity v st = (Returned tt, error (Unable_to_find_zone_for_entity entity) st) \/
  exists (c : Serial) (zone : ref) (cmd_string : str),
    conn st = Some c /\ is_open c = true /\
    get_zone_by_entity_name (zs st) entity = Some zone /\
    set_setpoint entity v st =
      (Returned tt,
       on_zone zone (update_current_setpoint v)
         (with_conn (Some {| is_open := true; written := written c ++ [cmd_string] |}) st)).
Proof.
  unfold set_setpoint. destruct (conn_unusable st) eqn:Hu; [by left|].
  destruct (conn_usable st Hu) as (c & Hc & Ho).
  destruct (_ || _); [by left|].
  destruct (get_zone_by_entity_name (zs st) entity) as [zone|]; [|right; by left].
  right; right. erewrite (send_open _ st c Hc Ho). by eexists c, zone, _.
Qed.

Lemma set_mode_cases entity (mode : str) st :
  set_mode entity mode st = (Returned tt, error Bad_call_to_set_mode st) \/
  set_mode entity mode st = (Returned tt, error (Unable_to_find_zone_for_entity entity) st) \/
  exists (c : Serial) (zone : ref) (cmd_string : str),
    conn st = Some c /\ is_open c = true /\
    get_zone_by_entity_name (zs st) entity = Some zone /\
    set_mode entity mode st =
      (Returned tt,
       on_zone zone (update_current_mode mode)
         (with_conn (Some {| is_open := true; written := written c ++ [cmd_string] |}) st)).
Proof.
  unfold set_mode. destruct (conn_unusable st) eqn:Hu; [by left|].
  destruct (conn_usable st Hu) as (c & Hc & Ho).
  unfold Dict.contains.
  destruct (Dict.get String.eqb MODE_MAP_MQTT2RCS mode) as [rcs_mode|]; [|by left].
  cbn [negb orb].
  destruct (get_zone_by_entity_name (zs st) entity) as [zone|]; [|right; by left].
  right; right. erewrite (send_open _ st c Hc Ho). by eexists c, zone, _.
Qed.

Lemma command_frame_refl entity st : command_frame entity st st.
Proof. split; [apply same_zones_refl|]. repeat split. by left. Qed.

Lemma command_frame_error entity (rec : log_record) st :
  command_frame entity st (error rec st).
Proof. split; [apply same_zones_refl|]. repeat split. by left. Qed.

Lemma command_frame_sent entity st (c : Serial) (zone : ref) (cmd_string : str)
    (f : Zone -> Zone) :
  keeps_identity f ->
  conn st = Some c -> is_open c = true ->
  get_zone_by_entity_name (zs st) entity = Some zone ->
  command_frame entity st
    (on_zone zone f
       (with_conn (Some {| is_open := true; written := written c ++ [cmd_string] |}) st)).
Proof.
  intros Hf Hc Ho Hz. split; [by apply same_zones_mutate|]. split.
  - intros l Hl. rewrite zone_of_on_zone_ne by congruence. reflexivity.
  - split; [reflexivity|]. split; [reflexivity|]. split.
    + right. exists cmd_string. unfold sample.wire. cbn. by rewrite Hc.
    + unfold conn_unusable. cbn. by rewrite Hc, Ho.
Qed.

(** X5: what [set_setpoint] and [set_mode] leave alone, whatever the state
    of the port, the entity, the value or the mode: they never add, remove,
    rename or re-index a zone; they change no zone object other than the one
    the entity names; they leave the first-pass flag and the MQTT client as
    they were; and they write at most one record to the port, which stays as
    usable as it was. *)
Theorem X5_commands_touch_one_zone entity (v : Py.float) (mode : str) st :
  command_frame entity st (snd (set_setpoint entity v st)) /\
  command_frame entity st (snd (set_mode entity mode st)).
Proof.
  destruct keeps_identity_updates as (_ & Hs & Hm & _). split.
  - destruct (set_setpoint_cases entity v st)
      as [-> | [-> | (c & zone & cmd & Hc & Ho & Hz & ->)]]; cbn [snd];
      eauto using command_frame_refl, command_frame_error, command_frame_sent.
  - destruct (set_mode_cases entity mode st)
      as [-> | [-> | (c & zone & cmd & Hc & Ho & Hz & ->)]]; cbn [snd];
      eauto using command_frame_refl, command_frame_error, command_frame_sent.
Qed.

(** X6: a command that cannot be carried out is dropped without a trace on
    the wire or in the registry.  [set_setpoint] returns the state untouched
    when the port is missing or closed; with a usable port and a setpoint in
    range but an entity that names no zone, it only logs.  [set_mode] only
    logs when the port is missing or closed, when the mode is not a key of
    [MODE_MAP_MQTT2RCS], or when the entity names no zone. *)
Theorem X6_dropped_commands entity st :
  (forall v : Py.float,
     conn_unusable st = true -> set_setpoint entity v st = (Returned tt, st)) /\
  (forall v : Py.float,
     conn_unusable st = false ->
     Py.float_le (Py.float_of_int 40) v = true ->
     Py.float_le v (Py.float_of_int 99) = true ->
     get_zone_by_entity_name (zs st) entity = None ->
     set_setpoint entity v st
       = (Returned tt, error (Unable_to_find_zone_for_entity entity) st)) /\
  (forall mode : str,
     conn_unusable st = true \/ Dict.get String.eqb MODE_MAP_MQTT2RCS mode = None ->
     set_mode entity mode st = (Returned tt, error Bad_call_to_set_mode st)) /\
  (forall mode : str,
     conn_unusable st = false ->
     Dict.get String.eqb MODE_MAP_MQTT2RCS mode <> None ->
     get_zone_by_entity_name (zs st) entity = None ->
     set_mode entity mode st
       = (Returned tt, error (Unable_to_find_zone_for_entity entity) st)).
Proof.
  repeat split.
  - intros v Hu. unfold set_setpoint. by rewrite Hu.
  - intros v Hu Hlo Hhi Hz. unfold set_setpoint.
    by rewrite Hu, (float_le_not_lt _ _ Hlo), (float_le_not_gt _ _ Hhi), Hz.
  - intros mode [Hu|Hm]; unfold set_mode, Dict.contains.
    + by rewrite Hu.
    + rewrite Hm. by rewrite orb_true_r.
  - intros mode Hu Hm Hz. unfold set_mode, Dict.contains. rewrite Hu, Hz.
    destruct (Dict.get String.eqb MODE_MAP_MQTT2RCS mode); [reflexivity|contradiction].
Qed.

Lemma X6_dropped_commands_witness :
  let closed := with_conn (Some {| is_open := false; written := [] |}) sample.state in
  set_setpoint "zone_1" (Py.float_of_int 70) closed = (Returned tt, closed) /\
  set_setpoint "zone_9" (Py.float_of_int 70) sample.state
    = (Returned tt, error (Unable_to_find_zone_for_entity "zone_9") sample.state) /\
  set_mode "zone_1" "dry" sample.state
    = (Returned tt, error Bad_call_to_set_mode sample.state) /\
  set_mode "zone_9" "heat" sample.state
    = (Returned tt, error (Unable_to_find_zone_for_entity "zone_9") sample.state).
Proof.
  intros closed.
  split; [|split; [|split]].
  - apply (proj1 (X6_dropped_commands "zone_1" closed)). reflexivity.
  - apply (proj1 (proj2 (X6_dropped_commands "zone_9" sample.state))); reflexivity.
  - apply (proj1 (proj2 (proj2 (X6_dropped_commands "zone_1" sample.state)))).
    right. reflexivity.
  - apply (proj2 (proj2 (proj2 (X6_dropped_commands "zone_9" sample.state))));
      [reflexivity|discriminate|reflexivity].
Defined.

(** X7: with the port open, a mode that is a key of [MODE_MAP_MQTT2RCS] and
    an entity that names a zone of a well-formed registry, [set_mode] writes
    one record, [A=1 Z=<index> M=<mode>], and the zone afterwards holds the
    mode; the zone is marked modified when the mode differs from the one it
    held, and is otherwise exactly as it was. *)
Theorem X7_set_mode_accepted entity (mode : str) st (c : Serial) (zone : ref) :
  wf (zs st) ->
  conn st = Some c -> is_open c = true ->
  Dict.get String.eqb MODE_MAP_MQTT2RCS mode <> None ->
  get_zone_by_entity_name (zs st) entity = Some zone ->
  let st' := snd (set_mode entity mode st) in
  sample.wire st' =
    (written c ++
       [("A=1 Z=" ++ Py.str_of_int (zone_index (zone_of st zone)) ++ " M=" ++ mode)%string])%list /\
  current_mode (zone_of st' zone) = Some mode /\
  (current_mode (zone_of st zone) <> Some mode ->
   modified_since_last_sync (zone_of st' zone) = true) /\
  (current_mode (zone_of st zone) = Some mode -> zone_of st' zone = zone_of st zone).
Proof.
  intros Hwf Hc Ho Hm Hz st'. subst st'.
  pose proof (get_zone_by_entity_name_valid _ _ _ Hwf Hz) as Hlt.
  unfold set_mode, conn_unusable, Dict.contains. rewrite Hc, Ho, Hz.
  destruct (Dict.get String.eqb MODE_MAP_MQTT2RCS mode) as [rcs_mode|]; [|contradiction].
  cbn [negb orb]. erewrite (send_open _ st c Hc Ho). cbn [snd].
  split; [reflexivity|].
  rewrite zone_of_on_zone by exact Hlt.
  change (zone_of (with_conn _ st) zone) with (zone_of st zone).
  unfold update_current_mode, str_attr_ne.
  destruct (current_mode (zone_of st zone)) as [m|] eqn:Hcur.
  - destruct (String.eqb_spec m mode) as [->|Hne]; cbn [negb].
    + split; [exact Hcur|]. split; [intros H; contradiction|reflexivity].
    + split; [reflexivity|]. split; [reflexivity|]. intros [= H]. contradiction.
  - split; [reflexivity|]. split; [reflexivity|]. discriminate.
Qed.

Lemma X7_set_mode_accepted_witness :
  let st' := snd (set_mode "zone_3" "cool" sample.state) in
  sample.wire st' = ["A=1 Z=3 M=cool"] /\
  current_mode (zone_of st' 2%nat) = Some "cool" /\
  modified_since_last_sync (zone_of st' 2%nat) = true.
Proof.
  intros st'.
  destruct (X7_set_mode_accepted "zone_3" "cool" sample.state
              {| is_open := true; written := [] |} 2%nat)
    as (Hw & Hm & Hd & _); try reflexivity.
  - wf_by_evaluation.
  - discriminate.
  - split; [exact Hw|]. split; [exact Hm|]. apply Hd. discriminate.
Defined.

End Commands.

(** ** Which zones a record can change *)

Section Addressed.
Import frames invariants.
Implicit Types (st : State) (l : ref).

Lemma zone_of_error (rec : log_record) st l : zone_of (error rec st) l = zone_of st l.
Proof. reflexivity. Qed.

Lemma type_1_case_other_zone (param : bytes) (zone : option ref) st l :
  zone <> Some l ->
  (forall i : Z,
     Py.startswith param ZONE_ID_PREFIX = true ->
     Py.int (Py.slice_from (len ZONE_ID_PREFIX) param) = Some i ->
     get_zone_by_index (zs st) i <> Some l) ->
  snd (fst (type_1_case param zone st)) <> Some l /\
  zone_of (snd (type_1_case param zone st)) l = zone_of st l.
Proof.
  intros Hzone Haddr. unfold type_1_case.
  destruct (Py.startswith param ZONE_ID_PREFIX) eqn:Hz.
  - destruct (Py.int _) as [i|] eqn:Hi; [|by split].
    specialize (Haddr i eq_refl eq_refl).
    destruct (get_zone_by_index (zs st) i) as [z|]; by split.
  - repeat case_match; cbn [fst snd]; (split; [assumption|]);
      try reflexivity; apply zone_of_on_zone_ne; congruence.
Qed.

Lemma type_1_loop_other_zone (params : list bytes) (zone : option ref) st l :
  zone <> Some l ->
  (forall (param : bytes) (i : Z),
     In param params ->
     Py.startswith param ZONE_ID_PREFIX = true ->
     Py.int (Py.slice_from (len ZONE_ID_PREFIX) param) = Some i ->
     get_zone_by_index (zs st) i <> Some l) ->
  zone_of (snd (type_1_loop params zone st)) l = zone_of st l.
Proof.
  revert zone st. induction params as [|param rest IH]; intros zone st Hzone Haddr;
    [reflexivity|].
  cbn [type_1_loop].
  destruct (type_1_case_other_zone param zone st l Hzone) as [Hzone' Hsame].
  { intros i. apply Haddr. by left. }
  destruct (decoding_frame_type_1_case param zone st) as ((Hbi & _) & _).
  destruct (type_1_case param zone st) as [[[| |v|e] zone'] st']; cbn [fst snd] in *;
    try exact Hsame.
  rewrite IH; [exact Hsame|exact Hzone'|].
  intros p i Hin. unfold get_zone_by_index. rewrite Hbi. apply Haddr. by right.
Qed.

Lemma type_2_case_other_zone (param : bytes) (ctx : option bool) st l :
  (forall i : Z,
     Py.startswith param DAMPER_STATUS_PREFIX = true ->
     Py.int (Py.slice 1 2 param) = Some i ->
     get_zone_by_index (zs st) i <> Some l) ->
  zone_of (snd (type_2_case param ctx st)) l = zone_of st l.
Proof.
  intros Haddr. unfold type_2_case.
  destruct (Py.startswith param HEAT_CALL_PREFIX); [repeat case_match; reflexivity|].
  destruct (Py.startswith param DAMPER_STATUS_PREFIX); [|reflexivity].
  destruct ctx as [hvac_heating|]; [|reflexivity].
  destruct (Py.int (Py.slice 1 2 param)) as [i|]; [|reflexivity].
  specialize (Haddr i eq_refl eq_refl).
  destruct (get_zone_by_index (zs st) i) as [zone|]; [|reflexivity].
  assert (zone <> l) as Hne by congruence.
  repeat case_match; cbn [snd]; try reflexivity;
    repeat first [ rewrite zone_of_error | rewrite zone_of_on_zone_ne by exact Hne ];
    reflexivity.
Qed.

Lemma type_2_loop_other_zone (params : list bytes) (ctx : option bool) st l :
  (forall (param : bytes) (i : Z),
     In param params ->
     Py.startswith param DAMPER_STATUS_PREFIX = true ->
     Py.int (Py.slice 1 2 param) = Some i ->
     get_zone_by_index (zs st) i <> Some l) ->
  zone_of (snd (type_2_loop params ctx st)) l = zone_of st l.
Proof.
  revert ctx st. induction params as [|param rest IH]; intros ctx st Haddr; [reflexivity|].
  cbn [type_2_loop].
  pose proof (type_2_case_other_zone param ctx st l) as Hsame.
  specialize (Hsame (fun i => Haddr param i (or_introl eq_refl))).
  destruct (decoding_frame_type_2_case param ctx st) as ((Hbi & _) & _).
  destruct (type_2_case param ctx st) as [[[| |v|e] ctx'] st']; cbn [fst snd] in *;
    try exact Hsame.
  rewrite IH; [exact Hsame|].
  intros p i Hin. unfold get_zone_by_index. rewrite Hbi. apply Haddr. by right.
Qed.

(** X8: a record only changes the zones it addresses.  A zone object that
    no [Z=] token of a Type 1 record resolves to comes out of the decoding
    exactly as it was; so does, for a Type 2 record, a zone object that the
    zone digit of no [D] token resolves to. *)
Theorem X8_records_change_addressed_zones_only (record : bytes) st l :
  ((forall (param : bytes) (i : Z),
      In param (Py.split record) ->
      Py.startswith param ZONE_ID_PREFIX = true ->
      Py.int (Py.slice_from (len ZONE_ID_PREFIX) param) = Some i ->
      get_zone_by_index (zs st) i <> Some l) ->
   zone_of (snd (_process_status_type_1 record st)) l = zone_of st l) /\
  ((forall (param : bytes) (i : Z),
      In param (Py.split record) ->
      Py.startswith param DAMPER_STATUS_PREFIX = true ->
      Py.int (Py.slice 1 2 param) = Some i ->
      get_zone_by_index (zs st) i <> Some l) ->
   zone_of (snd (_process_status_type_2 record st)) l = zone_of st l).
Proof.
  split; intros Haddr.
  - by apply type_1_loop_other_zone.
  - by apply type_2_loop_other_zone.
Qed.

Lemma X8_records_change_addressed_zones_only_witness :
  zone_of (snd (_process_status_type_1 "Z=2 SP=70 M=H Z=3 SP=68" sample.state)) 0%nat
    = zone_of sample.state 0%nat /\
  zone_of (snd (_process_status_type_2 "H1A=1 D2=0 D3=1" sample.state)) 0%nat
    = zone_of sample.state 0%nat.
Proof.
  destruct (X8_records_change_addressed_zones_only "Z=2 SP=70 M=H Z=3 SP=68"
              sample.state 0%nat) as [H1 _].
  destruct (X8_records_change_addressed_zones_only "H1A=1 D2=0 D3=1"
              sample.state 0%nat) as [_ H2].
  split.
  - apply H1. intros param i Hin Hz Hi. vm_compute in Hin.
    destruct Hin as [<-|[<-|[<-|[<-|[<-|[]]]]]]; try discriminate Hz;
      vm_compute in Hi; injection Hi as <-; vm_compute; discriminate.
  - apply H2. intros param i Hin Hd Hi. vm_compute in Hin.
    destruct Hin as [<-|[<-|[<-|[]]]]; try discriminate Hd;
      vm_compute in Hi; injection Hi as <-; vm_compute; discriminate.
Defined.

(** X9: a Type 1 record without any [Z=] token does nothing at all: the
    decoder returns without raising and the state is untouched, whatever
    else the record holds (the empty record of a read that timed out
    included). *)
Theorem X9_type_1_record_without_zone_marker (record : bytes) st :
  (forall param : bytes,
     In param (Py.split record) -> Py.startswith param ZONE_ID_PREFIX = false) ->
  _process_status_type_1 record st = (Returned None, st).
Proof.
  unfold _process_status_type_1. generalize (Py.split record). intros params.
  induction params as [|param rest IH]; intros Hno; [reflexivity|].
  cbn [type_1_loop]. unfold type_1_case.
  rewrite (Hno param (or_introl eq_refl)).
  destruct (Py.startswith param "self.TEMP_PREFIX"); [reflexivity|].
  destruct (Py.startswith param SETPOINT_PREFIX); [reflexivity|].
  destruct (Py.startswith param MODE_PREFIX); [reflexivity|].
  destruct (Py.startswith param FAN_MODE_PREFIX); [reflexivity|].
  apply IH. intros p Hin. apply Hno. by right.
Qed.

Lemma X9_type_1_record_without_zone_marker_witness :
  _process_status_type_1 "" sample.state = (Returned None, sample.state) /\
  _process_status_type_1 "A=1 O=00 SP=70 M=H" sample.state = (Returned None, sample.state).
Proof.
  split.
  - apply X9_type_1_record_without_zone_marker. intros param [].
  - apply X9_type_1_record_without_zone_marker. intros param Hin. vm_compute in Hin.
    destruct Hin as [<-|[<-|[<-|[<-|[]]]]]; reflexivity.
Defined.

End Addressed.

(** ** The poll step and the control loop *)

Section Loop.
Import frames invariants mqtt_client.
Implicit Types (st : State) (r : Registry) (m : MQTTClient).

(** The state once the two status requests are written. *)
Lemma poll_step_open (status_type_1 status_type_2 : bytes) st (c : Serial) :
  conn st = Some c -> is_open c = true ->
  exists st0 : State,
    decoding_frame
      (with_conn
         (Some {| is_open := true;
                  written := (written c ++ [("A=1 R=1" ++ CR)%string]) ++
                             [("A=1 R=2" ++ CR)%string] |}) st)
      st0 /\
    (_get_all_zone_status status_type_1 status_type_2 st = (Returned true, st0) \/
     exists e : Py.exn,
       _get_all_zone_status status_type_1 status_type_2 st = (Raised e, st0)).
Proof.
  intros Hc Ho. unfold _get_all_zone_status. rewrite Hc.
  rewrite (send_open _ st c Hc Ho).
  erewrite (send_open _ (with_conn _ st)); [|reflexivity|reflexivity].
  set (st0 := with_conn _ (with_conn _ st)).
  change (with_conn _ st) with st0 at 1.
  pose proof (decoding_frame_type_1_loop (Py.split status_type_1) None st0) as H1.
  unfold _process_status_type_1.
  destruct (type_1_loop (Py.split status_type_1) None st0) as [[v|e] st1]; cbn [snd] in H1.
  - pose proof (decoding_frame_type_2_loop (Py.split status_type_2) None st1) as H2.
    unfold _process_status_type_2.
    destruct (type_2_loop (Py.split status_type_2) None st1) as [[v'|e] st2];
      cbn [snd] in H2; exists st2; (split; [by eapply decoding_frame_trans|]).
    + by left.
    + right. by exists e.
  - exists st1. split; [exact H1|]. right. by exists e.
Qed.

(** X10: the poll step.  Without a port it returns [False], logs, and does
    nothing else.  With a port that is not open, the first write raises and
    nothing is decoded.  With an open port it writes exactly the two status
    requests, in order, whatever the device answers; it then returns [True]
    or passes a decoder's exception on (it never returns [False], not even
    when the Type 1 record was cut short by a malformed number); and besides
    the port it touches only zone attributes and the log. *)
Theorem X10_poll_step (status_type_1 status_type_2 : bytes) st :
  (conn st = None ->
   _get_all_zone_status status_type_1 status_type_2 st
     = (Returned false, error RCSController_not_connected st)) /\
  (forall c : Serial,
     conn st = Some c -> is_open c = false ->
     _get_all_zone_status status_type_1 status_type_2 st = (Raised Py.PortNotOpenError, st)) /\
  (forall c : Serial,
     conn st = Some c -> is_open c = true ->
     let res := fst (_get_all_zone_status status_type_1 status_type_2 st) in
     let st' := snd (_get_all_zone_status status_type_1 status_type_2 st) in
     sample.wire st' =
       (written c ++ [("A=1 R=1" ++ CR)%string; ("A=1 R=2" ++ CR)%string])%list /\
     (res = Returned true \/ exists e : Py.exn, res = Raised e) /\
     same_zones (zs st) (zs st') /\
     first_pass st' = first_pass st /\
     mqtt st' = mqtt st).
Proof.
  split; [|split].
  - intros Hc. unfold _get_all_zone_status. by rewrite Hc.
  - intros c Hc Ho. unfold _get_all_zone_status, send, Serial_write. by rewrite Hc, Ho.
  - intros c Hc Ho res st'. subst res st'.
    destruct (poll_step_open status_type_1 status_type_2 st c Hc Ho)
      as (st0 & (Hz & Hconn & Hfp & Hm & _) & [-> | [e ->]]); cbn [fst snd];
      (split; [unfold sample.wire; rewrite Hconn; cbn; by rewrite <- app_assoc|]);
      (split; [eauto|]); repeat split; try assumption; apply Hz.
Qed.

Lemma X10_poll_step_witness :
  let st' := snd (_get_all_zone_status "Z=2 SP=7x" "H1A=1 D2=0" sample.state) in
  fst (_get_all_zone_status "Z=2 SP=7x" "H1A=1 D2=0" sample.state) = Returned true /\
  sample.wire st' = [("A=1 R=1" ++ CR)%string; ("A=1 R=2" ++ CR)%string] /\
  first_pass st' = true.
Proof.
  intros st'.
  destruct (proj2 (proj2 (X10_poll_step "Z=2 SP=7x" "H1A=1 D2=0" sample.state))
              {| is_open := true; written := [] |} eq_refl eq_refl)
    as (Hw & _ & _ & Hfp & _).
  split; [reflexivity|]. split; [exact Hw|exact Hfp].
Defined.


Lemma publish_loop_same_zones (vals : list ref) (force : bool) m r :
  same_zones r (snd (publish_loop vals force m r)).
Proof.
  destruct keeps_identity_updates as (_ & _ & _ & _ & _ & _ & Hclear).
  revert m r. induction vals as [|zone rest IH]; intros m r; [apply same_zones_refl|].
  cbn [publish_loop]. destruct (_ && _); [apply IH|].
  eapply same_zones_trans; [|apply IH]. by apply same_zones_mutate.
Qed.

Lemma publish_loop_nothing_to_do (vals : list ref) m r :
  (forall zone : ref, zone ∈ vals -> modified_since_last_sync (deref r zone) = false) ->
  publish_loop vals false m r = (m, r).
Proof.
  induction vals as [|zone rest IH]; intros Hclean; [reflexivity|].
  cbn [publish_loop]. rewrite (Hclean zone) by apply list_elem_of_here.
  cbn [negb andb]. apply IH. intros z Hz. apply Hclean. by apply list_elem_of_further.
Qed.

Lemma publish_all_clears_flags (force : bool) m r (zone : ref) :
  wf r ->
  zone ∈ Dict.values (zones_by_index r) ->
  modified_since_last_sync (deref (snd (publish_all_zone_status force m r)) zone) = false.
Proof.
  intros [Hnd _ _] Hin. unfold publish_all_zone_status.
  destruct (publish_loop_spec (Dict.values (zones_by_index r)) force m r Hnd)
    as (_ & _ & _ & _ & Hder).
  rewrite Hder. case_decide as Hsel; [reflexivity|].
  unfold selected in Hsel.
  destruct (modified_since_last_sync (deref r zone)); [|reflexivity].
  exfalso. apply Hsel. by split.
Qed.

(** X11: publishing clears every flag, and then there is nothing left to
    publish.  After [publish_all_zone_status] on a well-formed registry,
    forced or not, no zone of [zones_by_index] is marked modified, the zones
    are the same zones, and a second unforced call publishes no message and
    changes nothing. *)
Theorem X11_publish_leaves_nothing_to_publish (force : bool) m r :
  wf r ->
  let m' := fst (publish_all_zone_status force m r) in
  let r' := snd (publish_all_zone_status force m r) in
  (forall zone : ref,
     zone ∈ Dict.values (zones_by_index r) ->
     modified_since_last_sync (deref r' zone) = false) /\
  same_zones r r' /\
  publish_all_zone_status false m' r' = (m', r').
Proof.
  intros Hwf m' r'.
  assert (forall zone : ref,
            zone ∈ Dict.values (zones_by_index r) ->
            modified_since_last_sync (deref r' zone) = false) as Hclean
    by (intros zone Hin; by apply publish_all_clears_flags).
  pose proof (publish_loop_same_zones (Dict.values (zones_by_index r)) force m r) as Hsame.
  split; [exact Hclean|]. split; [exact Hsame|].
  unfold publish_all_zone_status at 1. fold r'.
  destruct Hsame as (Hbi & _). fold (publish_all_zone_status force m r) in Hbi. fold r' in Hbi.
  rewrite Hbi. by apply publish_loop_nothing_to_do.
Qed.

Lemma X11_publish_leaves_nothing_to_publish_witness :
  let st := snd (_process_status_type_1 "Z=2 SP=70" sample.state) in
  let m' := fst (publish_all_zone_status false sample.client (zs st)) in
  let r' := snd (publish_all_zone_status false sample.client (zs st)) in
  modified_since_last_sync (deref r' 1%nat) = false /\
  publish_all_zone_status false m' r' = (m', r').
Proof.
  intros st m' r'.
  assert (wf (zs st)) as Hwf by wf_by_evaluation.
  destruct (X11_publish_leaves_nothing_to_publish false sample.client (zs st) Hwf)
    as (Hclean & _ & Hagain).
  split; [|exact Hagain].
  apply Hclean. vm_compute. apply list_elem_of_further, list_elem_of_here.
Defined.

(** The end of the loop with a port and without one. *)
Lemma leave_loop_port (rc : Z) st (c : Serial) :
  conn st = Some c -> leave_loop rc st = (Returned rc, with_conn None st).
Proof. intros Hc. unfold leave_loop, close_conn. by rewrite Hc. Qed.

Lemma leave_loop_no_port (rc : Z) st :
  conn st = None -> leave_loop rc st = (Raised Py.AttributeError, st).
Proof. intros Hc. unfold leave_loop, close_conn. by rewrite Hc. Qed.

(** The two ways in which the loop ends. *)
Lemma control_loop_ends (polls : list (bytes * bytes)) st (res : result Z) (st' : State) :
  control_loop polls st = (Some res, st') ->
  conn st' = None /\
  ((res = Returned 1 /\ conn st <> None) \/
   (res = Raised Py.AttributeError /\ conn st = None /\
    st' = error RCSController_not_connected st)) /\
  same_zones (zs st) (zs st').
Proof.
  revert st. induction polls as [|[s1 s2] rest IH]; intros st Hend; [discriminate|].
  cbn [control_loop] in Hend.
  destruct (conn st) as [c|] eqn:Hc.
  - destruct (is_open c) eqn:Ho.
    + destruct (poll_step_open s1 s2 st c Hc Ho)
        as (st0 & (Hz & Hconn & _) & [Hres | [e Hres]]); rewrite Hres in Hend.
      * destruct (publish_all_zone_status (first_pass st0) (mqtt st0) (zs st0))
          as [m r] eqn:Hpub.
        apply IH in Hend as (Hnone & Hrc & Hsame). cbn in Hrc, Hsame.
        split; [exact Hnone|]. split.
        -- left. destruct Hrc as [[-> _]|(_ & Habs & _)]; [by split|].
           rewrite Hconn in Habs. discriminate.
        -- eapply same_zones_trans; [exact Hz|].
           eapply same_zones_trans; [|exact Hsame].
           pose proof (publish_loop_same_zones (Dict.values (zones_by_index (zs st0)))
                         (first_pass st0) (mqtt st0) (zs st0)) as Hp.
           fold (publish_all_zone_status (first_pass st0) (mqtt st0) (zs st0)) in Hp.
           by rewrite Hpub in Hp.
      * erewrite leave_loop_port in Hend by (cbn; exact Hconn).
        injection Hend as <- <-. split; [reflexivity|]. split; [by left|exact Hz].
    + unfold _get_all_zone_status, send, Serial_write in Hend.
      rewrite Hc, Ho in Hend.
      erewrite leave_loop_port in Hend by (cbn; exact Hc).
      injection Hend as <- <-.
      split; [reflexivity|]. split; [by left|apply same_zones_refl].
  - unfold _get_all_zone_status in Hend. rewrite Hc in Hend.
    rewrite leave_loop_no_port in Hend by (cbn; exact Hc).
    injection Hend as <- <-.
    split; [exact Hc|]. split; [by right|apply same_zones_refl].
Qed.


(** X12: how the control loop ends, and that it never returns 0.  When an
    exception ends the loop, [control_loop] returns 1 with the port closed
    and dropped.  When there is no port to begin with, the poll step returns
    [False], the loop is left with the return code 0 set, and the [finally]
    clause then calls [close] on [None]: the call ends in [AttributeError]
    with nothing changed but the log.  There is no other way out.  Either way
    there is no port afterwards, the zones are still the same zones, and
    from then on [set_setpoint] does nothing and [set_mode] only logs. *)
Theorem X12_control_loop_end (polls : list (bytes * bytes)) st (res : result Z)
    (st' : State) :
  control_loop polls st = (Some res, st') ->
  conn st' = None /\
  ((res = Returned 1 /\ conn st <> None) \/
   (res = Raised Py.AttributeError /\ conn st = None /\
    st' = error RCSController_not_connected st)) /\
  res <> Returned 0 /\
  same_zones (zs st) (zs st') /\
  (forall (entity : str) (v : Py.float), set_setpoint entity v st' = (Returned tt, st')) /\
  (forall entity mode : str,
     set_mode entity mode st' = (Returned tt, error Bad_call_to_set_mode st')).
Proof.
  intros Hend. destruct (control_loop_ends polls st res st' Hend) as (Hnone & Hres & Hsame).
  split; [exact Hnone|]. split; [exact Hres|]. split; [|split; [exact Hsame|split]].
  - destruct Hres as [[-> _]|[-> _]]; discriminate.
  - intros entity v. unfold set_setpoint, conn_unusable. by rewrite Hnone.
  - intros entity mode. unfold set_mode, conn_unusable. by rewrite Hnone.
Qed.

Lemma X12_control_loop_end_witness :
  let polls := [("Z=2 SP=70", "H1A=0 D2=1"); ("Z=2 SP=70", "H1A=x")] in
  let no_port := with_conn None sample.state in
  let st1 := snd (control_loop polls sample.state) in
  let st2 := snd (control_loop polls no_port) in
  (fst (control_loop polls sample.state) = Some (Returned 1) /\
   conn st1 = None /\
   set_setpoint "zone_2" (Py.float_of_int 71) st1 = (Returned tt, st1)) /\
  (fst (control_loop polls no_port) = Some (Raised Py.AttributeError) /\
   st2 = error RCSController_not_connected no_port).
Proof.
  intros polls no_port st1 st2. split.
  - destruct (X12_control_loop_end polls sample.state (Returned 1) st1)
      as (Hnone & _ & _ & _ & Hsp & _); [vm_compute; reflexivity|].
    split; [vm_compute; reflexivity|]. split; [exact Hnone|apply Hsp].
  - destruct (X12_control_loop_end polls no_port (Raised Py.AttributeError) st2)
      as (_ & [[Habs _]|(_ & _ & Hst)] & _); [vm_compute; reflexivity|discriminate Habs|].
    split; [vm_compute; reflexivity|exact Hst].
Defined.

(** X13: one completed pass of the loop.  When the poll step returns [True]
    on a well-formed registry, the pass goes on (no return code); it
    publishes one status message, built from what the decoders left, for each
    zone of [zones_by_index] that is marked modified, or for every zone when
    the first-pass flag is set (at start-up and after [force_sync]); and it
    leaves the first-pass flag cleared and no zone marked modified. *)
Theorem X13_completed_pass (status_type_1 status_type_2 : bytes) st (st1 : State) :
  wf (zs st) ->
  _get_all_zone_status status_type_1 status_type_2 st = (Returned true, st1) ->
  let st' := snd (control_loop [(status_type_1, status_type_2)] st) in
  let configured := Dict.values (zones_by_index (zs st)) in
  fst (control_loop [(status_type_1, status_type_2)] st) = None /\
  first_pass st' = false /\
  (forall zone : ref, zone ∈ configured -> modified_since_last_sync (zone_of st' zone) = false) /\
  published (mqtt st') =
    (published (mqtt st) ++
       map (fun zone => status_message (mqtt st) (zone_of st1 zone))
         (List.filter
            (fun zone => modified_since_last_sync (zone_of st1 zone) || first_pass st)
            configured))%list /\
  (first_pass st = true ->
   published (mqtt st') =
     (published (mqtt st) ++
        map (fun zone => status_message (mqtt st) (zone_of st1 zone)) configured)%list).
Proof.
  intros Hwf Hres st' configured.
  assert (same_zones (zs st) (zs st1) /\ first_pass st1 = first_pass st /\ mqtt st1 = mqtt st)
    as (Hsame & Hfp & Hm).
  { destruct (conn st) as [c|] eqn:Hc.
    - destruct (is_open c) eqn:Ho.
      + destruct (poll_step_open status_type_1 status_type_2 st c Hc Ho)
          as (st0 & (Hz & _ & Hfp & Hm & _) & [H | [e H]]); rewrite H in Hres;
          [|discriminate]. injection Hres as <-.
        split; [exact Hz|split; assumption].
      + unfold _get_all_zone_status, send, Serial_write in Hres.
        rewrite Hc, Ho in Hres. discriminate.
    - unfold _get_all_zone_status in Hres. rewrite Hc in Hres. discriminate. }
  pose proof (wf_same_zones _ _ Hsame Hwf) as Hwf1.
  assert (Dict.values (zones_by_index (zs st1)) = configured) as Hvals
    by (destruct Hsame as (-> & _); reflexivity).
  subst st'. cbn [control_loop]. rewrite Hres.
  destruct (publish_all_zone_status (first_pass st1) (mqtt st1) (zs st1)) as [m r] eqn:Hpub.
  cbn [fst snd control_loop].
  assert (published m =
            (published (mqtt st) ++
               map (fun zone => status_message (mqtt st) (zone_of st1 zone))
                 (List.filter
                    (fun zone => modified_since_last_sync (zone_of st1 zone) || first_pass st)
                    configured))%list) as Hpublished.
  { destruct Hwf1 as [Hnd _ _].
    destruct (publish_loop_spec _ (first_pass st1) (mqtt st1) (zs st1) Hnd)
      as (_ & Hp & _).
    fold (publish_all_zone_status (first_pass st1) (mqtt st1) (zs st1)) in Hp.
    rewrite Hpub in Hp. cbn [fst] in Hp. rewrite Hp, Hvals, Hm, Hfp. reflexivity. }
  split; [reflexivity|]. split; [reflexivity|]. split; [|split].
  - intros zone Hin. unfold zone_of. cbn [zs with_first_pass with_zs].
    pose proof (publish_all_clears_flags (first_pass st1) (mqtt st1) (zs st1) zone Hwf1) as Hc.
    rewrite Hpub in Hc. apply Hc. by rewrite Hvals.
  - exact Hpublished.
  - intros Hforce. cbn [mqtt with_first_pass with_zs with_mqtt]. rewrite Hpublished.
    f_equal. f_equal. rewrite Hforce.
    clear. induction configured as [|zone rest IH]; [reflexivity|].
    cbn [List.filter]. rewrite orb_true_r. by rewrite IH.
Qed.

Lemma X13_completed_pass_witness :
  let st := force_sync (with_first_pass false sample.state) in
  let st' := snd (control_loop [("Z=2 SP=70", "H1A=0 D2=1")] st) in
  first_pass st' = false /\
  length (published (mqtt st')) = 3%nat.
Proof.
  intros st st'.
  assert (wf (zs st)) as Hwf by wf_by_evaluation.
  destruct (X13_completed_pass "Z=2 SP=70" "H1A=0 D2=1" st
              (snd (_get_all_zone_status "Z=2 SP=70" "H1A=0 D2=1" st)) Hwf eq_refl)
    as (_ & Hfp & _ & _ & Hall).
  split; [exact Hfp|].
  pose proof (f_equal (@length _) (Hall eq_refl)) as Hlen. exact Hlen.
Defined.

End Loop.

(** ** Numbers as text *)

Section Texts.
Import frames.

Lemma rstrip_no_space (s : bytes) : no_space s = true -> Py.rstrip s = s.
Proof.
  induction s as [|c s IH]; [reflexivity|].
  cbn [no_space Py.rstrip]. intros H. apply andb_true_iff in H as [Hc Hs].
  rewrite (IH Hs). apply negb_true_iff in Hc. rewrite Hc. by destruct s.
Qed.

Lemma strip_no_space (s : bytes) : no_space s = true -> Py.strip s = s.
Proof.
  intros H. unfold Py.strip.
  assert (Py.lstrip s = s) as ->.
  { destruct s as [|c s]; [reflexivity|]. cbn in *.
    apply andb_true_iff in H as [Hc _]. apply negb_true_iff in Hc. by rewrite Hc. }
  by apply rstrip_no_space.
Qed.

Lemma isdigit_not_underscore (c : ascii) : Py.isdigit c = true -> Ascii.eqb c "_" = false.
Proof.
  intros H. destruct (Ascii.eqb_spec c "_") as [->|]; [discriminate H|reflexivity].
Qed.

Lemma scan_digits_step (c : ascii) (s : bytes) (prev : ascii) (acc k : Z) :
  Py.isdigit c = true ->
  Py.scan_digits (String c s) prev acc k =
    Py.scan_digits s c (10 * acc + Py.digit_value c) (k + 1).
Proof.
  intros H. cbn [Py.scan_digits]. by rewrite (isdigit_not_underscore c H), H.
Qed.

(** One digit of a [Decimal.uint] text: the step, with the digit's value
    computed. *)
Ltac scan_one_digit :=
  rewrite scan_digits_step by reflexivity;
  match goal with
  | |- context [Py.digit_value ?c] =>
      let v := eval vm_compute in (Py.digit_value c) in
      change (Py.digit_value c) with v
  end.

(** The decimal digits of a number, read back with an accumulator. *)
Lemma scan_digits_acc (d : Decimal.uint) (prev : ascii) (p : positive) (k : Z) :
  Ascii.eqb prev "_" = false ->
  Py.scan_digits (NilEmpty.string_of_uint d) prev (Zpos p) k =
    Some (Zpos (Pos.of_uint_acc d p),
          k + Z.of_nat (String.length (NilEmpty.string_of_uint d))).
Proof.
  revert prev p k. induction d as [|d IH|d IH|d IH|d IH|d IH|d IH|d IH|d IH|d IH|d IH];
    intros prev p k Hprev;
    cbn [NilEmpty.string_of_uint String.length Pos.of_uint_acc];
    [ cbn [Py.scan_digits]; rewrite Hprev; f_equal; f_equal; lia | .. ];
    scan_one_digit;
    match goal with
    | |- Py.scan_digits _ _ ?a _ = Some (Zpos (Pos.of_uint_acc _ ?q), _) =>
        replace a with (Zpos q) by lia
    end;
    rewrite IH by reflexivity; f_equal; f_equal; lia.
Qed.

Lemma scan_digits_uint (d : Decimal.uint) (prev : ascii) (k : Z) :
  Ascii.eqb prev "_" = false ->
  Py.scan_digits (NilEmpty.string_of_uint d) prev 0 k =
    Some (Z.of_N (Pos.of_uint d),
          k + Z.of_nat (String.length (NilEmpty.string_of_uint d))).
Proof.
  revert prev k. induction d as [|d IH|d IH|d IH|d IH|d IH|d IH|d IH|d IH|d IH|d IH];
    intros prev k Hprev;
    cbn [NilEmpty.string_of_uint String.length Pos.of_uint];
    [ cbn [Py.scan_digits]; rewrite Hprev; f_equal; f_equal; lia | .. ];
    scan_one_digit.
  - change (10 * 0 + 0) with 0. rewrite IH by reflexivity. f_equal. f_equal. lia.
  - change (10 * 0 + 1) with (Zpos 1). rewrite scan_digits_acc by reflexivity.
    f_equal. f_equal. lia.
  - change (10 * 0 + 2) with (Zpos 2). rewrite scan_digits_acc by reflexivity.
    f_equal. f_equal. lia.
  - change (10 * 0 + 3) with (Zpos 3). rewrite scan_digits_acc by reflexivity.
    f_equal. f_equal. lia.
  - change (10 * 0 + 4) with (Zpos 4). rewrite scan_digits_acc by reflexivity.
    f_equal. f_equal. lia.
  - change (10 * 0 + 5) with (Zpos 5). rewrite scan_digits_acc by reflexivity.
    f_equal. f_equal. lia.
  - change (10 * 0 + 6) with (Zpos 6). rewrite scan_digits_acc by reflexivity.
    f_equal. f_equal. lia.
  - change (10 * 0 + 7) with (Zpos 7). rewrite scan_digits_acc by reflexivity.
    f_equal. f_equal. lia.
  - change (10 * 0 + 8) with (Zpos 8). rewrite scan_digits_acc by reflexivity.
    f_equal. f_equal. lia.
  - change (10 * 0 + 9) with (Zpos 9). rewrite scan_digits_acc by reflexivity.
    f_equal. f_equal. lia.
Qed.

Lemma no_space_uint (d : Decimal.uint) : no_space (NilEmpty.string_of_uint d) = true.
Proof. induction d; cbn [NilEmpty.string_of_uint no_space]; try reflexivity; exact IHd. Qed.

Lemma no_space_str_of_int (n : Z) : no_space (Py.str_of_int n) = true.
Proof.
  unfold Py.str_of_int, NilZero.string_of_int, NilZero.string_of_uint.
  destruct (Z.to_int n) as [d|d]; destruct d; try reflexivity;
    cbn [NilEmpty.string_of_uint no_space]; apply no_space_uint.
Qed.


Lemma to_uint_not_nil (p : positive) : Pos.to_uint p <> Decimal.Nil.
Proof.
  intros H. pose proof (DecimalPos.Unsigned.of_to p) as Hp. rewrite H in Hp. discriminate.
Qed.

(** Reading the digits of a positive number. *)
Lemma int_of_digits (p : positive) (neg : bool) :
  let s := NilEmpty.string_of_uint (Pos.to_uint p) in
  (String.length s <= 4300)%nat ->
  match s with
  | EmptyString => None
  | String "_" _ => None
  | _ =>
      match Py.scan_digits s "000" 0 0 with
      | Some (v, digits) =>
          if Py.int_max_str_digits <? digits then None else Some (if neg then - v else v)
      | None => None
      end
  end = Some (if neg then Zneg p else Zpos p) /\
  Py.split_sign s = (false, s).
Proof.
  intros s Hlen.
  assert (Py.scan_digits s "000" 0 0 = Some (Zpos p, Z.of_nat (String.length s))) as Hscan.
  { unfold s. rewrite scan_digits_uint by reflexivity.
    by rewrite DecimalPos.Unsigned.of_to. }
  rewrite Hscan.
  replace (Py.int_max_str_digits <? Z.of_nat (String.length s)) with false
    by (symmetry; apply Z.ltb_ge; unfold Py.int_max_str_digits; lia).
  pose proof (to_uint_not_nil p) as Hnil. subst s.
  destruct (Pos.to_uint p); try contradiction; cbn [NilEmpty.string_of_uint];
    (split; [by destruct neg|reflexivity]).
Qed.

Lemma int_str_of_int (n : Z) :
  (String.length (Py.str_of_int n) <= 4300)%nat ->
  Py.int (Py.str_of_int n) = Some n.
Proof.
  intros Hlen. unfold Py.int. rewrite strip_no_space by apply no_space_str_of_int.
  revert Hlen. unfold Py.str_of_int.
  destruct n as [|p|p]; [reflexivity| |];
    cbn [Z.to_int NilZero.string_of_int]; unfold NilZero.string_of_uint;
    pose proof (to_uint_not_nil p) as Hnil.
  - intros Hlen.
    assert (match Pos.to_uint p with
            | Decimal.Nil => "0"
            | _ => NilEmpty.string_of_uint (Pos.to_uint p)
            end = NilEmpty.string_of_uint (Pos.to_uint p)) as E
      by (destruct (Pos.to_uint p); [contradiction|reflexivity..]).
    rewrite E in *.
    destruct (int_of_digits p false Hlen) as [Hint ->]. exact Hint.
  - intros Hlen.
    assert (match Pos.to_uint p with
            | Decimal.Nil => "0"
            | _ => NilEmpty.string_of_uint (Pos.to_uint p)
            end = NilEmpty.string_of_uint (Pos.to_uint p)) as E
      by (destruct (Pos.to_uint p); [contradiction|reflexivity..]).
    rewrite E in *. cbn [Py.split_sign].
    cbn [String.length] in Hlen.
    destruct (int_of_digits p true) as [Hint _]; [lia|]. exact Hint.
Qed.

End Texts.

(** ** A command read back as a status record *)

Section RoundTrip.
Import frames invariants.
Implicit Types (st : State) (s : bytes).

Lemma split_from_char (c : ascii) (cur s : bytes) :
  Py.isspace c = false ->
  Py.split_from cur (String c s) = Py.split_from (cur ++ String c "") s.
Proof. intros H. cbn [Py.split_from]. by rewrite H. Qed.

Lemma split_from_space (c : ascii) (cur s : bytes) :
  Py.isspace c = true -> String.eqb cur "" = false ->
  Py.split_from cur (String c s) = cur :: Py.split_from "" s.
Proof. intros Hc Hcur. cbn [Py.split_from]. by rewrite Hc, Hcur. Qed.

Lemma append_assoc (a b c : string) : ((a ++ b) ++ c)%string = (a ++ (b ++ c))%string.
Proof. induction a as [|x a IH]; [reflexivity|]. cbn. by rewrite IH. Qed.

Lemma append_empty (a : string) : (a ++ "")%string = a.
Proof. induction a as [|x a IH]; [reflexivity|]. cbn. by rewrite IH. Qed.

(** A token without whitespace is taken whole. *)
Lemma split_from_token (tok cur rest : bytes) :
  no_space tok = true ->
  Py.split_from cur (tok ++ rest) = Py.split_from (cur ++ tok) rest.
Proof.
  revert cur. induction tok as [|c tok IH]; intros cur Htok.
  - cbn. by rewrite append_empty.
  - cbn [no_space] in Htok. apply andb_true_iff in Htok as [Hc Htok].
    apply negb_true_iff in Hc. cbn [append].
    rewrite split_from_char by exact Hc. rewrite IH by exact Htok.
    by rewrite append_assoc.
Qed.

Lemma split_from_last (tok cur : bytes) :
  no_space tok = true ->
  Py.split_from cur tok = if String.eqb (cur ++ tok) "" then [] else [(cur ++ tok)%string].
Proof.
  intros Htok. rewrite <- (append_empty tok) at 1.
  by rewrite split_from_token.
Qed.


(** Whole setpoints between 40 and 99 as floats and as text. *)
Lemma whole_setpoint (n : Z) :
  40 <= n <= 99 ->
  Py.format_0f (Py.float_of_int n) = Py.str_of_int n /\
  Py.to_float (Py.str_of_int n) = Some (Py.float_of_int n) /\
  Py.float_lt (Py.float_of_int n) (Py.float_of_int 40) = false /\
  Py.float_gt (Py.float_of_int n) (Py.float_of_int 99) = false /\
  Py.float_ne (Py.float_of_int n) (Py.float_of_int n) = false /\
  exists (m : positive) (e : Z), Py.float_of_int n = S754_finite false m e.
Proof.
  intros Hn.
  assert (forallb
            (fun k : nat =>
               let n := Z.of_nat k in
               String.eqb (Py.format_0f (Py.float_of_int n)) (Py.str_of_int n) &&
               match Py.to_float (Py.str_of_int n), Py.float_of_int n with
               | Some (S754_finite false m1 e1), S754_finite false m2 e2 =>
                   Pos.eqb m1 m2 && Z.eqb e1 e2
               | _, _ => false
               end &&
               negb (Py.float_lt (Py.float_of_int n) (Py.float_of_int 40)) &&
               negb (Py.float_gt (Py.float_of_int n) (Py.float_of_int 99)) &&
               negb (Py.float_ne (Py.float_of_int n) (Py.float_of_int n)))
            (seq 40 60) = true) as Hall by (vm_compute; reflexivity).
  rewrite forallb_forall in Hall.
  specialize (Hall (Z.to_nat n)). cbn zeta in Hall.
  rewrite Z2Nat.id in Hall by lia.
  specialize (Hall ltac:(apply in_seq; lia)).
  repeat (apply andb_true_iff in Hall as [Hall ?]).
  apply String.eqb_eq in Hall.
  destruct (Py.to_float (Py.str_of_int n)) as [[| | |[] m1 e1]|]; try discriminate.
  destruct (Py.float_of_int n) as [| | |[] m2 e2] eqn:Hf; try discriminate.
  match goal with H : Pos.eqb _ _ && Z.eqb _ _ = true |- _ =>
    apply andb_true_iff in H as [Hm He]; apply Pos.eqb_eq in Hm; apply Z.eqb_eq in He end.
  subst. repeat split; try (by apply negb_true_iff); eauto.
Qed.



Lemma startswith_app (p s : bytes) : Py.startswith (p ++ s) p = true.
Proof.
  unfold Py.startswith. induction p as [|c p IH]; cbn; [by destruct s|].
  destruct (ascii_dec c c); [exact IH|contradiction].
Qed.

Lemma startswith_mismatch (c c' : ascii) (s p : bytes) :
  c <> c' -> Py.startswith (String c s) (String c' p) = false.
Proof.
  intros Hne. unfold Py.startswith. cbn.
  destruct (ascii_dec c' c); [congruence|reflexivity].
Qed.

Lemma slice_from_app (p s : bytes) : Py.slice_from (len p) (p ++ s) = s.
Proof. induction p as [|c p IH]; [reflexivity|exact IH]. Qed.



End RoundTrip.

(** ** What [set_setpoint] sends, what it stores, and for how long *)

Section Rounding.

(** Rounding to the nearest integer, ties to even, in rational terms. *)
Lemma round_half_even_nearest (m : Z) (D : positive) (k : Z) :
  2 ^ k = Zpos D -> 0 <= m ->
  let n := Py.round_half_even m k in
  (Qabs (Qmake m D - inject_Z n) <= 1 # 2)%Q /\
  (Qabs (Qmake m D - inject_Z n) == 1 # 2 -> Z.even n = true)%Q.
Proof.
  intros HD Hm n. subst n. unfold Py.round_half_even. rewrite HD.
  pose proof (Z.div_mod m (Zpos D) ltac:(lia)) as Hdm.
  pose proof (Z.mod_pos_bound m (Zpos D) ltac:(lia)) as Hr.
  set (q := m / Zpos D) in *. set (r := m mod Zpos D) in *.
  assert (forall n : Z,
            (Qabs (Qmake m D - inject_Z n) <= 1 # 2)%Q <-> 2 * Z.abs (m - n * Zpos D) <= Zpos D)
    as Hle.
  { intros n. unfold Qle, Qabs, Qminus, Qplus, Qopp, inject_Z. cbn [Qnum Qden].
    rewrite Pos.mul_1_r. lia. }
  assert (forall n : Z,
            (Qabs (Qmake m D - inject_Z n) == 1 # 2)%Q <-> 2 * Z.abs (m - n * Zpos D) = Zpos D)
    as Heq.
  { intros n. unfold Qeq, Qabs, Qminus, Qplus, Qopp, inject_Z. cbn [Qnum Qden].
    rewrite Pos.mul_1_r. lia. }
  destruct (Z.compare_spec (2 * r) (Zpos D)) as [Htie|Hlt|Hgt].
  - destruct (Z.even q) eqn:Heven.
    + split; [apply Hle; nia|]. intros _. exact Heven.
    + split; [apply Hle; nia|]. intros _.
      rewrite Z.add_1_r, Z.even_succ, <- Z.negb_even, Heven. reflexivity.
  - split; [apply Hle; nia|]. intros H. apply Heq in H. nia.
  - split; [apply Hle; nia|]. intros H. apply Heq in H. nia.
Qed.

(** What the zero-decimal format of a setpoint between 40 and 99 holds. *)
Lemma format_0f_in_range (v : Py.float) :
  valid_binary Py.prec Py.emax v = true ->
  Py.float_le (Py.float_of_int 40) v = true ->
  Py.float_le v (Py.float_of_int 99) = true ->
  exists n : Z,
    40 <= n <= 99 /\
    Py.format_0f v = Py.str_of_int n /\
    Py.rounded_to_integer v n /\
    (Py.is_integer v = false -> ~ (Py.to_Q v == inject_Z n)%Q).
Proof.
  intros Hvalid Hlo Hhi.
  destruct (in_range_shape v Hvalid Hlo Hhi) as [m Hshape].
  destruct (nearest_int_in_range m) as [H47 H46].
  assert (exists k : Z,
            0 < k /\ v = S754_finite false m (- k) /\ 40 <= Py.nearest_int m (- k) <= 99)
    as (k & Hk & -> & Hn).
  { destruct Hshape as [[-> Hm]|[-> Hm]]; [exists 47|exists 46]; (split; [lia|]); auto. }
  exists (Py.nearest_int m (- k)). split; [exact Hn|]. split; [reflexivity|].
  assert ((0 <=? - k) = false) as Hneg by lia.
  assert (2 ^ k = Zpos (Z.to_pos (2 ^ k))) as HD
    by (rewrite Z2Pos.id; [reflexivity|apply Z.pow_pos_nonneg; lia]).
  unfold Py.rounded_to_integer, Py.to_Q, Py.nearest_int. rewrite Hneg, Z.opp_involutive.
  split; [apply (round_half_even_nearest (Zpos m) _ k HD); lia|].
  unfold Py.is_integer. rewrite Hneg, Z.opp_involutive. intros Hfrac.
  apply Z.eqb_neq in Hfrac. intros Heq. apply Hfrac.
  unfold Qeq, inject_Z in Heq. cbn [Qnum Qden] in Heq. rewrite <- HD in Heq.
  set (n := Py.round_half_even (Zpos m) k) in *.
  replace (Zpos m) with (n * 2 ^ k) by lia.
  apply Z.mod_mul. apply Z.pow_nonzero; lia.
Qed.

End Rounding.

Section Overwrite.
Import frames invariants.
Implicit Types (st : State) (zone : ref).

(** The tokens of a record that reports one zone's setpoint. *)
Lemma split_setpoint_report (index setpoint : bytes) :
  no_space index = true -> no_space setpoint = true ->
  Py.split ("Z=" ++ index ++ " SP=" ++ setpoint)
    = [("Z=" ++ index)%string; ("SP=" ++ setpoint)%string].
Proof.
  intros Hi Hs. unfold Py.split. cbn [append].
  rewrite !split_from_char by reflexivity. cbn [append].
  rewrite split_from_token by exact Hi. cbn [append].
  rewrite split_from_space by reflexivity.
  rewrite !split_from_char by reflexivity. cbn [append].
  rewrite split_from_last by exact Hs. reflexivity.
Qed.

(** A status record that reports a whole setpoint for a zone replaces the
    setpoint that the zone holds. *)
Lemma poll_overwrites_setpoint st zone (i w : Z) :
  (zone < length (store (zs st)))%nat ->
  get_zone_by_index (zs st) i = Some zone ->
  (String.length (Py.str_of_int i) <= 4300)%nat ->
  40 <= w <= 99 ->
  let st' :=
    snd (_process_status_type_1 ("Z=" ++ Py.str_of_int i ++ " SP=" ++ Py.str_of_int w) st) in
  current_setpoint (zone_of st' zone) = Some (Py.float_of_int w).
Proof.
  intros Hlt Hidx Hlen Hw st'. subst st'.
  destruct (whole_setpoint w Hw) as (_ & Hread & _ & _ & _ & m & e & Hfin).
  unfold _process_status_type_1.
  rewrite split_setpoint_report by apply no_space_str_of_int.
  cbn [type_1_loop].
  assert (type_1_case ("Z=" ++ Py.str_of_int i) None st = (Continue, Some zone, st)) as ->.
  { unfold type_1_case. rewrite startswith_app, slice_from_app.
    by rewrite (int_str_of_int _ Hlen), Hidx. }
  cbn match.
  assert (type_1_case ("SP=" ++ Py.str_of_int w) (Some zone) st
          = (Continue, Some zone, on_zone zone (update_current_setpoint (Py.float_of_int w)) st))
    as ->.
  { unfold type_1_case.
    change (Py.startswith ("SP=" ++ Py.str_of_int w) ZONE_ID_PREFIX)
      with (Py.startswith (String "S" ("P=" ++ Py.str_of_int w)) (String "Z" "=")).
    rewrite (startswith_mismatch "S" "Z") by discriminate.
    change (Py.startswith ("SP=" ++ Py.str_of_int w) "self.TEMP_PREFIX")
      with (Py.startswith (String "S" ("P=" ++ Py.str_of_int w)) (String "s" "elf.TEMP_PREFIX")).
    rewrite (startswith_mismatch "S" "s") by discriminate.
    unfold SETPOINT_PREFIX. rewrite startswith_app, slice_from_app.
    by rewrite Hread. }
  cbn match. cbn [snd].
  rewrite zone_of_on_zone by exact Hlt. rewrite Hfin.
  apply update_current_setpoint_finite.
Qed.

(** C10: for a binary64 setpoint between 40 and 99, with the port open and the
    entity known to a well-formed registry, [set_setpoint] writes the command
    with the setpoint formatted to zero decimals and stores the setpoint
    itself, unrounded, in the zone.  The digits written are those of the
    setpoint rounded to an integer: of the nearest integer, and of the even
    one where two are equally near.  So when the setpoint is not a whole
    number, the number sent is a whole number and differs from the stored
    one.  The difference lasts until a poll overwrites the stored setpoint:
    a status record that reports a whole setpoint for the zone leaves the
    zone holding the reported one. *)
Theorem C10_setpoint_sent_rounded_stored_unrounded (entity : str) (v : Py.float)
    (st : State) (c : Serial) (zone : ref) :
  valid_binary Py.prec Py.emax v = true ->
  Py.float_le (Py.float_of_int 40) v = true ->
  Py.float_le v (Py.float_of_int 99) = true ->
  conn st = Some c -> is_open c = true ->
  get_zone_by_entity_name (zs st) entity = Some zone ->
  invariants.wf (zs st) ->
  let st' := snd (set_setpoint entity v st) in
  sample.wire st' =
    (written c ++
       [("A=1 Z=" ++ Py.str_of_int (zone_index (zone_of st zone))
          ++ " SP=" ++ Py.format_0f v)%string])%list /\
  current_setpoint (zone_of st' zone) = Some v /\
  (Py.is_integer v = false ->
   exists sent : Py.float,
     Py.to_float (Py.format_0f v) = Some sent /\
     Py.is_integer sent = true /\
     Py.float_ne sent v = true) /\
  (exists n : Z,
     Py.format_0f v = Py.str_of_int n /\
     Py.rounded_to_integer v n /\
     Py.to_float (Py.str_of_int n) = Some (Py.float_of_int n) /\
     (Py.is_integer v = false -> ~ (Py.to_Q v == inject_Z n)%Q)) /\
  (forall i w : Z,
     get_zone_by_index (zs st) i = Some zone ->
     (String.length (Py.str_of_int i) <= 4300)%nat ->
     40 <= w <= 99 ->
     let st'' :=
       snd (_process_status_type_1
              ("Z=" ++ Py.str_of_int i ++ " SP=" ++ Py.str_of_int w) st') in
     current_setpoint (zone_of st'' zone) = Some (Py.float_of_int w)).
Proof.
  intros Hvalid Hlo Hhi Hc Ho Hz Hwf st'. subst st'.
  pose proof (get_zone_by_entity_name_valid _ _ _ Hwf Hz) as Hlt.
  rewrite (set_setpoint_accepted entity v st c zone);
    auto using float_le_not_lt, float_le_not_gt.
  cbn [snd].
  destruct (format_0f_in_range v Hvalid Hlo Hhi) as (n & Hn & Hfmt & Hround & Hfrac).
  destruct (whole_setpoint n Hn) as (_ & Hread & _).
  destruct (in_range_shape v Hvalid Hlo Hhi) as [m Hshape].
  assert (exists e, v = S754_finite false m e) as (e & Hfin)
    by (destruct Hshape as [[-> _]|[-> _]]; eauto).
  split; [reflexivity|]. split; [|split; [|split]].
  - rewrite zone_of_on_zone by exact Hlt. rewrite Hfin. apply update_current_setpoint_finite.
  - intros Hnot. rewrite Hfmt.
    destruct (whole_number_reads_back _ Hn) as (sent & Hsent & Hint).
    exists sent. split; [exact Hsent|]. split; [exact Hint|].
    unfold Py.float_ne. rewrite Hfin.
    destruct (SFeqb sent (S754_finite false m e)) eqn:Heq; [|reflexivity].
    apply float_eq_finite in Heq. rewrite <- Hfin in Heq. congruence.
  - exists n. split; [exact Hfmt|]. split; [exact Hround|]. split; [exact Hread|exact Hfrac].
  - intros i w Hidx Hlen Hw.
    apply poll_overwrites_setpoint; [by rewrite store_length_on_zone|exact Hidx|exact Hlen|exact Hw].
Qed.

Lemma C10_setpoint_sent_rounded_stored_unrounded_witness :
  let v := S754_finite false 5101733952880640 (-46) in
  let v' := S754_finite false 5108770827298406 (-46) in
  let v'' := S754_finite false 5172102697058304 (-46) in
  let st' := snd (set_setpoint "zone_1" v sample.state) in
  (Py.to_float "72.5" = Some v /\
   sample.wire st' = ["A=1 Z=1 SP=72"] /\
   current_setpoint (zone_of st' 0%nat) = Some v /\
   (exists sent : Py.float,
      Py.to_float (Py.format_0f v) = Some sent /\
      Py.is_integer sent = true /\
      Py.float_ne sent v = true) /\
   Py.rounded_to_integer v 72 /\
   current_setpoint (zone_of (snd (_process_status_type_1 "Z=1 SP=72" st')) 0%nat)
     = Some (Py.float_of_int 72)) /\
  (Py.to_float "72.6" = Some v' /\
   sample.wire (snd (set_setpoint "zone_1" v' sample.state)) = ["A=1 Z=1 SP=73"] /\
   Py.rounded_to_integer v' 73) /\
  (Py.to_float "73.5" = Some v'' /\
   sample.wire (snd (set_setpoint "zone_1" v'' sample.state)) = ["A=1 Z=1 SP=74"] /\
   Py.rounded_to_integer v'' 74).
Proof.
  intros v v' v'' st'.
  assert (invariants.wf (zs sample.state)) as Hwf by wf_by_evaluation.
  split; [|split].
  - split; [reflexivity|].
    destruct (C10_setpoint_sent_rounded_stored_unrounded "zone_1" v sample.state
                {| is_open := true; written := [] |} 0%nat)
      as (Hw & Hs & Hd & (n & Hfmt & Hround & _) & Hpoll); try reflexivity; [exact Hwf|].
    split; [exact Hw|]. split; [exact Hs|]. split; [apply Hd; reflexivity|].
    split.
    + assert (n = 72) as <-; [|exact Hround].
      apply str_of_int_inj. rewrite <- Hfmt. reflexivity.
    + apply (Hpoll 1 72); [reflexivity|vm_compute; lia|lia].
  - split; [reflexivity|].
    destruct (C10_setpoint_sent_rounded_stored_unrounded "zone_1" v' sample.state
                {| is_open := true; written := [] |} 0%nat)
      as (Hw & _ & _ & (n & Hfmt & Hround & _) & _); try reflexivity; [exact Hwf|].
    split; [exact Hw|].
    assert (n = 73) as <-; [|exact Hround].
    apply str_of_int_inj. rewrite <- Hfmt. reflexivity.
  - split; [reflexivity|].
    destruct (C10_setpoint_sent_rounded_stored_unrounded "zone_1" v'' sample.state
                {| is_open := true; written := [] |} 0%nat)
      as (Hw & _ & _ & (n & Hfmt & Hround & _) & _); try reflexivity; [exact Hwf|].
    split; [exact Hw|].
    assert (n = 74) as <-; [|exact Hround].
    apply str_of_int_inj. rewrite <- Hfmt. reflexivity.
Defined.

End Overwrite.

(** ** The same reading twice *)

Section Again.
Import frames fields.

Lemma float_attr_ne_self (v : Py.float) :
  Py.float_eq v v = true -> float_attr_ne (Some v) v = false.
Proof. intros H. unfold float_attr_ne, Py.float_ne. unfold Py.float_eq in H. by rewrite H. Qed.

(** After an assignment of [v], the stored value no longer differs from [v]. *)
Lemma differs_after_apply (f : field) (v : value f) (zone : Zone) :
  self_equal f v = true -> differs f (apply f v zone) v = false.
Proof.
  destruct f; cbn [self_equal differs apply value] in *; intros Hv;
    unfold update_current_temperature, update_current_setpoint, update_current_mode,
      update_current_action, update_is_heating, update_is_damper_open;
    match goal with |- context [if ?b then _ else _] => destruct b eqn:Hd end;
    try exact Hd; cbn;
    try (by apply float_attr_ne_self);
    try (by rewrite String.eqb_refl);
    unfold bool_ne; by rewrite Bool.eqb_reflx.
Qed.

Lemma apply_same (f : field) (v : value f) (zone : Zone) :
  differs f zone v = false -> apply f v zone = zone.
Proof.
  destruct f; cbn [differs apply value];
    unfold update_current_temperature, update_current_setpoint, update_current_mode,
      update_current_action, update_is_heating, update_is_damper_open;
    by intros ->.
Qed.

(** [differs] does not look at the flag. *)
Lemma differs_clear (f : field) (v : value f) (zone : Zone) :
  differs f (with_modified_since_last_sync false zone) v = differs f zone v.
Proof. destruct f; reflexivity. Qed.

(** X15: the same reading a second time changes nothing.  For every field
    and every value that equals itself (any value but a NaN), assigning the
    value again right after assigning it leaves the zone as it is; and once
    a publish has cleared the flag, assigning the value again leaves the flag
    cleared.  A NaN temperature or setpoint, on the contrary, marks the zone
    modified at every assignment. *)
Theorem X15_same_reading_twice (zone : Zone) :
  (forall (f : field) (v : value f),
     self_equal f v = true ->
     apply f v (apply f v zone) = apply f v zone /\
     apply f v (with_modified_since_last_sync false (apply f v zone))
       = with_modified_since_last_sync false (apply f v zone)) /\
  modified_since_last_sync (update_current_temperature S754_nan zone) = true /\
  modified_since_last_sync (update_current_setpoint S754_nan zone) = true.
Proof.
  split.
  - intros f v Hv. split.
    + apply apply_same. by apply differs_after_apply.
    + apply apply_same. rewrite differs_clear. by apply differs_after_apply.
  - unfold update_current_temperature, update_current_setpoint, float_attr_ne, Py.float_ne.
    split.
    + destruct (current_temperature zone) as [[]|]; reflexivity.
    + destruct (current_setpoint zone) as [[]|]; reflexivity.
Qed.

Lemma X15_same_reading_twice_witness :
  let zone := Zone_init "Upstairs" 2 in
  update_current_setpoint (Py.float_of_int 70) (update_current_setpoint (Py.float_of_int 70) zone)
    = update_current_setpoint (Py.float_of_int 70) zone.
Proof.
  intros zone.
  apply (proj1 (X15_same_reading_twice zone) F_current_setpoint (Py.float_of_int 70)).
  reflexivity.
Defined.

End Again.

(** ** What a damper token does *)

Section Damper.
Import frames invariants type_2_tokens.
Implicit Types (st : State) (zone : ref).

(** A well-formed damper token, in any mode of the zone. *)
Lemma type_2_case_damper_any (param : bytes) (hvac_heating : bool) st (zone_index : Z) zone
    (damper_status : Z) :
  Py.startswith param HEAT_CALL_PREFIX = false ->
  Py.startswith param DAMPER_STATUS_PREFIX = true ->
  Py.int (Py.slice 1 2 param) = Some zone_index ->
  get_zone_by_index (zs st) zone_index = Some zone ->
  Py.int (Py.slice_from 3 param) = Some damper_status ->
  in_0_1 damper_status = true ->
  (zone < length (store (zs st)))%nat ->
  let is_damper_open := damper_status =? 0 in
  let is_zone_heating := is_damper_open && hvac_heating in
  let st2 := after_flags zone is_damper_open is_zone_heating st in
  type_2_case param (Some hvac_heating) st =
    if str_attr_eq (current_mode (zone_of st zone)) "off" then
      if is_zone_heating then
        (Break, Some hvac_heating,
         error (Zone_heating_when_off (entity_name (zone_of st zone))) st2)
      else (Continue, Some hvac_heating, on_zone zone (update_current_action "off") st2)
    else
      (Continue, Some hvac_heating,
       on_zone zone (update_current_action (if is_zone_heating then "heating" else "idle")) st2).
Proof.
  intros Hh Hd Hi Hz Hs Hr Hlt. cbn zeta. unfold type_2_case.
  rewrite Hh, Hd, Hi, Hz, Hs, Hr. cbn [negb].
  fold (after_flags zone (damper_status =? 0) ((damper_status =? 0) && hvac_heating) st).
  assert (zone_of (after_flags zone (damper_status =? 0)
                     ((damper_status =? 0) && hvac_heating) st) zone
          = update_is_damper_open (damper_status =? 0)
              (update_is_heating ((damper_status =? 0) && hvac_heating) (zone_of st zone)))
    as Hafter.
  { unfold after_flags. by rewrite !zone_of_on_zone by (rewrite ?store_length_on_zone; done). }
  rewrite Hafter.
  destruct keeps_identity_updates as (_ & _ & _ & _ & Hkh & Hkd & _).
  destruct (Hkd (damper_status =? 0)
              (update_is_heating ((damper_status =? 0) && hvac_heating) (zone_of st zone)))
    as (_ & _ & ->).
  destruct (Hkh ((damper_status =? 0) && hvac_heating) (zone_of st zone)) as (_ & _ & ->).
  assert (current_mode
            (update_is_damper_open (damper_status =? 0)
               (update_is_heating ((damper_status =? 0) && hvac_heating) (zone_of st zone)))
          = current_mode (zone_of st zone)) as ->.
  { unfold update_is_damper_open, update_is_heating.
    repeat match goal with |- context [if ?b then _ else _] => destruct b end; reflexivity. }
  reflexivity.
Qed.

(** What a zone holds after the two boolean assignments of a damper token. *)
Lemma zone_after_flags (z : Zone) (is_damper_open' is_zone_heating : bool) :
  let z' := update_is_damper_open is_damper_open' (update_is_heating is_zone_heating z) in
  is_damper_open z' = is_damper_open' /\
  is_heating z' = is_zone_heating /\
  current_action z' = current_action z.
Proof.
  unfold update_is_damper_open, update_is_heating, bool_ne.
  destruct (Bool.eqb (is_heating z) is_zone_heating) eqn:E1; cbn [negb];
    [apply Bool.eqb_prop in E1|];
    match goal with |- context [Bool.eqb (is_damper_open ?x) _] =>
      destruct (Bool.eqb (is_damper_open x) is_damper_open') eqn:E2 end; cbn [negb];
    try apply Bool.eqb_prop in E2; cbn in *; repeat split; auto.
Qed.

(** The two tokens of a record [H1A=<h> D<i>=<d>]. *)
Lemma heat_call_and_damper_tokens (h d i : Z) :
  h = 0 \/ h = 1 -> d = 0 \/ d = 1 -> 0 <= i <= 9 ->
  let t1 := ("H1A=" ++ Py.str_of_int h)%string in
  let t2 := ("D" ++ Py.str_of_int i ++ "=" ++ Py.str_of_int d)%string in
  Py.split (t1 ++ " " ++ t2) = [t1; t2] /\
  Py.startswith t1 HEAT_CALL_PREFIX = true /\
  Py.int (Py.slice_from (len HEAT_CALL_PREFIX) t1) = Some h /\
  Py.startswith t2 HEAT_CALL_PREFIX = false /\
  Py.startswith t2 DAMPER_STATUS_PREFIX = true /\
  Py.int (Py.slice 1 2 t2) = Some i /\
  Py.int (Py.slice_from 3 t2) = Some d.
Proof.
  intros Hh Hd Hi.
  assert (i = 0 \/ i = 1 \/ i = 2 \/ i = 3 \/ i = 4 \/ i = 5 \/ i = 6 \/ i = 7 \/ i = 8 \/ i = 9)
    as Hcases by lia.
  destruct Hh as [-> | ->], Hd as [-> | ->];
    repeat (destruct Hcases as [-> | Hcases]); try subst i;
    vm_compute; repeat split; reflexivity.
Qed.

(** X16: what a damper report does to its zone.  For a zone registered
    under a one-digit index [i] in a well-formed registry, decoding the
    record [H1A=<h> D<i>=<d>] with [h] and [d] each 0 or 1 returns [True]
    and leaves the zone with the damper open exactly when [d] is 0, and
    heating exactly when the damper is open and [h] is 1.  The action becomes
    [heating] or [idle] accordingly when the zone's mode is not [off]; in
    mode [off] it becomes [off] when the zone is not heating, and when the
    zone is heating the action is left as it was and the inconsistency is
    logged. *)
Theorem X16_damper_report (h d i : Z) st zone :
  wf (zs st) ->
  h = 0 \/ h = 1 -> d = 0 \/ d = 1 -> 0 <= i <= 9 ->
  get_zone_by_index (zs st) i = Some zone ->
  let record :=
    (("H1A=" ++ Py.str_of_int h) ++ " " ++
     ("D" ++ Py.str_of_int i ++ "=" ++ Py.str_of_int d))%string in
  let st' := snd (_process_status_type_2 record st) in
  let heating := (d =? 0) && (h =? 1) in
  let off := str_attr_eq (current_mode (zone_of st zone)) "off" in
  fst (_process_status_type_2 record st) = Returned (Some true) /\
  is_damper_open (zone_of st' zone) = (d =? 0) /\
  is_heating (zone_of st' zone) = heating /\
  current_action (zone_of st' zone) =
    (if off then if heating then current_action (zone_of st zone) else Some "off"
     else Some (if heating then "heating" else "idle")) /\
  log st' =
    if off && heating
    then (log st ++ [Zone_heating_when_off (entity_name (zone_of st zone))])%list
    else log st.
Proof.
  intros Hwf Hh Hd Hi Hz record st' heating off.
  pose proof (get_zone_by_index_valid _ _ _ Hwf Hz) as Hlt.
  destruct (heat_call_and_damper_tokens h d i Hh Hd Hi)
    as (Hsplit & Hp1 & Hi1 & Hp2 & Hd2 & Hzi & Hds).
  cbn zeta in *.
  assert (in_0_1 h = true) as Hrh by (unfold in_0_1; lia).
  assert (in_0_1 d = true) as Hrd by (unfold in_0_1; lia).
  subst st' record. unfold _process_status_type_2. rewrite Hsplit.
  cbn [type_2_loop].
  rewrite (type_2_case_heat_call _ None st h Hp1 Hi1 Hrh).
  rewrite (type_2_case_damper_any _ (h =? 1) st i zone d Hp2 Hd2 Hzi Hz Hds Hrd Hlt).
  fold heating. fold off.
  assert (zone_of (after_flags zone (d =? 0) heating st) zone
          = update_is_damper_open (d =? 0) (update_is_heating heating (zone_of st zone)))
    as Hafter.
  { unfold after_flags. by rewrite !zone_of_on_zone by (rewrite ?store_length_on_zone; done). }
  destruct off; [destruct heating|]; cbn [fst snd andb type_2_loop].
  - split; [reflexivity|]. rewrite zone_of_error, Hafter.
    destruct (zone_after_flags (zone_of st zone) (d =? 0) true) as (H1 & H2 & H3).
    by repeat split.
  - split; [reflexivity|].
    rewrite zone_of_on_zone by (unfold after_flags; rewrite ?store_length_on_zone; done).
    rewrite Hafter.
    destruct (zone_after_damper_token (zone_of st zone) (d =? 0) false "off") as (H1 & H2 & H3).
    by repeat split.
  - split; [reflexivity|].
    rewrite zone_of_on_zone by (unfold after_flags; rewrite ?store_length_on_zone; done).
    rewrite Hafter.
    destruct (zone_after_damper_token (zone_of st zone) (d =? 0) heating
                (if heating then "heating" else "idle")) as (H1 & H2 & H3).
    by repeat split.
Qed.

Lemma X16_damper_report_witness :
  let st := snd (set_mode "zone_3" "off" sample.state) in
  let st' := snd (_process_status_type_2 "H1A=1 D3=0" st) in
  is_heating (zone_of st' 2%nat) = true /\
  current_action (zone_of st' 2%nat) = None /\
  log st' = [Zone_heating_when_off "zone_3"].
Proof.
  intros st st'.
  destruct (X16_damper_report 1 0 3 st 2%nat) as (_ & _ & Hh & Ha & Hl);
    [wf_by_evaluation|by right|by left|lia|reflexivity|].
  split; [exact Hh|]. split; [exact Ha|exact Hl].
Defined.

End Damper.


(** ** Messages from the broker *)

Section Messages.
Import frames invariants mqtt_dispatch.
Implicit Types (st : State) (c : Subscriber) (msg : MQTTMessage).

Lemma no_char_app (sep : ascii) (a b : str) :
  no_char sep (a ++ b) = no_char sep a && no_char sep b.
Proof.
  induction a as [|x a IH]; [reflexivity|]. cbn [append no_char].
  by rewrite IH, andb_assoc.
Qed.

Lemma split_on_char (sep x : ascii) (cur s : str) :
  Ascii.eqb x sep = false ->
  split_on sep cur (String x s) = split_on sep (cur ++ String x "") s.
Proof. intros H. cbn [split_on]. by rewrite H. Qed.

Lemma split_on_sep (sep : ascii) (cur s : str) :
  split_on sep cur (String sep s) = cur :: split_on sep "" s.
Proof. cbn [split_on]. by rewrite Ascii.eqb_refl. Qed.

(** A piece without the separator, followed by the separator, is split off
    whole. *)
Lemma split_on_piece (sep : ascii) (piece cur rest : str) :
  no_char sep piece = true ->
  split_on sep cur (piece ++ String sep rest) = (cur ++ piece)%string :: split_on sep "" rest.
Proof.
  revert cur. induction piece as [|x piece IH]; intros cur Hp.
  - cbn [append split_on]. by rewrite Ascii.eqb_refl, append_empty.
  - cbn [no_char] in Hp. apply andb_true_iff in Hp as [Hx Hp]. apply negb_true_iff in Hx.
    cbn [append split_on]. rewrite Hx. rewrite IH by exact Hp. by rewrite append_assoc.
Qed.

Lemma split_on_last (sep : ascii) (piece cur : str) :
  no_char sep piece = true -> split_on sep cur piece = [(cur ++ piece)%string].
Proof.
  revert cur. induction piece as [|x piece IH]; intros cur Hp.
  - cbn. by rewrite append_empty.
  - cbn [no_char] in Hp. apply andb_true_iff in Hp as [Hx Hp]. apply negb_true_iff in Hx.
    cbn [split_on]. rewrite Hx. rewrite IH by exact Hp. by rewrite append_assoc.
Qed.

(** No piece of a split holds the separator. *)
Lemma split_on_pieces (sep : ascii) (s cur : str) :
  no_char sep cur = true ->
  Forall (fun piece => no_char sep piece = true) (split_on sep cur s).
Proof.
  revert cur. induction s as [|x s IH]; intros cur Hcur; cbn [split_on].
  - by constructor.
  - destruct (Ascii.eqb x sep) eqn:Hx.
    + constructor; [exact Hcur|]. by apply IH.
    + apply IH. rewrite no_char_app, Hcur. cbn. by rewrite Hx.
Qed.

(** The topic of a command: six pieces. *)
Lemma split_command_topic c (entity command : str) :
  no_char "/" (topic_root c) = true ->
  no_char "/" (device_node_id c) = true ->
  no_char "/" entity = true ->
  no_char "/" command = true ->
  split_on "/" ""
    (topic_root c ++ "/climate/" ++ device_node_id c ++ "/" ++ entity ++ "/set/" ++ command)
    = [topic_root c; "climate"; device_node_id c; entity; "set"; command].
Proof.
  intros Hr Hn He Hc. cbn [append].
  rewrite split_on_piece by exact Hr.
  rewrite !split_on_char by reflexivity. rewrite split_on_sep. cbn [append].
  rewrite split_on_piece by exact Hn.
  rewrite split_on_piece by exact He.
  rewrite !split_on_char by reflexivity. rewrite split_on_sep. cbn [append].
  rewrite split_on_last by exact Hc. reflexivity.
Qed.

Lemma set_setpoint_keeps_first_pass (entity : str) (v : Py.float) st :
  first_pass (snd (set_setpoint entity v st)) = first_pass st.
Proof.
  destruct (set_setpoint_cases entity v st)
    as [-> | [-> | (c & zone & cmd & _ & _ & _ & ->)]]; reflexivity.
Qed.


Lemma set_mode_keeps_first_pass (entity mode : str) st :
  first_pass (snd (set_mode entity mode st)) = first_pass st.
Proof.
  destruct (set_mode_cases entity mode st)
    as [-> | [-> | (c & zone & cmd & _ & _ & _ & ->)]]; reflexivity.
Qed.

(** The first piece of a topic holds no slash, so it is not the device's
    topic prefix. *)
Lemma first_piece_is_no_prefix c (topic' : str) :
  part (split_on "/" "" topic') 0 <> device_topic_prefix c.
Proof.
  intros Heq.
  pose proof (split_on_pieces "/" topic' "" eq_refl) as Hpieces.
  assert (no_char "/" (part (split_on "/" "" topic') 0) = true) as Hno.
  { unfold part. destruct (split_on "/" "" topic') as [|p ps]; [reflexivity|].
    cbn. by inversion Hpieces. }
  rewrite Heq in Hno. unfold device_topic_prefix in Hno.
  rewrite !no_char_app in Hno. cbn in Hno. by rewrite andb_false_r in Hno.
Qed.

Lemma existsb_eqb_In (x : str) (l : list str) :
  existsb (String.eqb x) l = true -> In x l.
Proof.
  intros H. apply existsb_exists in H as (y & Hin & Heq).
  apply String.eqb_eq in Heq. by subst.
Qed.

(** X17: what a message can reach, in either version of the handler.
    Whatever the client, the message and the state, the first-pass flag is
    left as it was: no message forces a resynchronisation, since the payload
    of an availability message, a [bytes], is compared with the [str]
    [online].  The top-level version leaves the state as it was, or as
    [set_setpoint] leaves it for the number that the payload denotes; the
    version under [src/] may also leave it as [set_mode] leaves it, for a
    payload that is one of the four mode words.  In the top-level version the
    availability test cannot even succeed: the first piece of a topic split
    at its slashes never equals [device_topic_prefix], which holds a slash. *)
Theorem X17_on_message_reach c msg st :
  let st1 := snd (fst (on_message c msg st)) in
  let st2 := snd (fst (mqtt_dispatch_src.on_message c msg st)) in
  first_pass st1 = first_pass st /\
  first_pass st2 = first_pass st /\
  (st1 = st \/
   exists (entity : str) (v : Py.float),
     Py.to_float (payload msg) = Some v /\ st1 = snd (set_setpoint entity v st)) /\
  (st2 = st \/
   (exists (entity : str) (v : Py.float),
      Py.to_float (payload msg) = Some v /\ st2 = snd (set_setpoint entity v st)) \/
   (exists entity : str,
      In (payload msg) ["off"; "heat"; "cool"; "auto"] /\
      st2 = snd (set_mode entity (payload msg) st))) /\
  part (split_on "/" "" (topic msg)) 0 <> device_topic_prefix c.
Proof.
  cbn zeta.
  pose proof (first_piece_is_no_prefix c (topic msg)) as Hdead.
  assert (let st1 := snd (fst (on_message c msg st)) in
          first_pass st1 = first_pass st /\
          (st1 = st \/
           exists (entity : str) (v : Py.float),
             Py.to_float (payload msg) = Some v /\ st1 = snd (set_setpoint entity v st)))
    as [Hfp1 Hst1].
  { cbn zeta. unfold on_message.
    destruct (connected c); cbn [negb]; [|by auto].
    set (parts := split_on "/" "" (topic msg)).
    destruct (_ && _ && _);
      [change (text_eq (Bytes (payload msg)) (Str "online")) with false; by auto|].
    destruct (_ || _ || _ || _ || _); [by auto|].
    destruct (String.eqb (part parts 5) "setpoint").
    - destruct (Py.to_float (payload msg)) as [v|] eqn:Hv; [|by auto].
      pose proof (set_setpoint_keeps_first_pass (part parts 3) v st) as Hfp.
      destruct (set_setpoint (part parts 3) v st) as [r s'] eqn:Hset; cbn in *.
      split; [exact Hfp|]. right. exists (part parts 3), v. by rewrite Hset.
    - destruct (String.eqb (part parts 5) "mode"); [|by auto].
      change (existsb _ _) with false. cbn [negb]. by auto. }
  assert (let st2 := snd (fst (mqtt_dispatch_src.on_message c msg st)) in
          first_pass st2 = first_pass st /\
          (st2 = st \/
           (exists (entity : str) (v : Py.float),
              Py.to_float (payload msg) = Some v /\ st2 = snd (set_setpoint entity v st)) \/
           (exists entity : str,
              In (payload msg) ["off"; "heat"; "cool"; "auto"] /\
              st2 = snd (set_mode entity (payload msg) st))))
    as [Hfp2 Hst2].
  { cbn zeta. unfold mqtt_dispatch_src.on_message.
    destruct (connected c); cbn [negb]; [|by auto].
    set (parts := split_on "/" "" (topic msg)).
    destruct (_ && _ && _);
      [change (text_eq (Bytes (payload msg)) (Str "online")) with false; by auto|].
    destruct (_ || _ || _ || _ || _); [by auto|].
    destruct (String.eqb (part parts 5) "setpoint").
    - destruct (Py.to_float (payload msg)) as [v|] eqn:Hv; [|by auto].
      pose proof (set_setpoint_keeps_first_pass (part parts 3) v st) as Hfp.
      destruct (set_setpoint (part parts 3) v st) as [r s'] eqn:Hset; cbn in *.
      split; [exact Hfp|]. right; left. exists (part parts 3), v. by rewrite Hset.
    - destruct (String.eqb (part parts 5) "mode"); [|by auto].
      unfold Py.decode_utf8. destruct (Py.is_utf8 (payload msg)); [|by auto].
      destruct (existsb (String.eqb (payload msg)) _) eqn:Hin; cbn [negb]; [|by auto].
      apply existsb_eqb_In in Hin.
      pose proof (set_mode_keeps_first_pass (part parts 3) (payload msg) st) as Hfp.
      destruct (set_mode (part parts 3) (payload msg) st) as [r s'] eqn:Hset; cbn in *.
      split; [exact Hfp|]. right; right. exists (part parts 3). by rewrite Hset. }
  split; [exact Hfp1|]. split; [exact Hfp2|]. split; [exact Hst1|]. split; [exact Hst2|].
  exact Hdead.
Qed.

(** X18: a set-setpoint message reaches [set_setpoint].  For a connected
    client whose topic root and node id hold no slash, and an entity name
    without a slash, a message on
    [<root>/climate/<node>/<entity>/set/setpoint] does exactly what
    [set_setpoint] does for that entity and the number that the payload
    denotes, and logs nothing; when the payload denotes no number the state
    is left as it was and the payload is logged. *)
Theorem X18_setpoint_message c (entity : str) (payload' : bytes) st :
  connected c = true ->
  no_char "/" (topic_root c) = true ->
  no_char "/" (device_node_id c) = true ->
  no_char "/" entity = true ->
  on_message c
    {| topic := (topic_root c ++ "/climate/" ++ device_node_id c ++ "/" ++ entity
                   ++ "/set/" ++ "setpoint")%string;
       payload := payload' |} st =
    match Py.to_float payload' with
    | Some v => (set_setpoint entity v st, [])
    | None => (Returned tt, st, [Bad_setpoint_payload payload'])
    end.
Proof.
  intros Hconn Hr Hn He. unfold on_message. rewrite Hconn. cbn [negb topic payload].
  rewrite split_command_topic by (assumption || reflexivity).
  cbn [length Nat.eqb andb part nth]. rewrite !String.eqb_refl. cbn [negb orb].
  change (String.eqb "climate" "climate") with true.
  change (String.eqb "set" "set") with true.
  change (String.eqb "setpoint" "setpoint") with true. cbn [negb orb].
  destruct (Py.to_float payload') as [v|]; [|reflexivity].
  by destruct (set_setpoint entity v st).
Qed.

Lemma X18_setpoint_message_witness :
  let c := {| connected := true; topic_root := "homeassistant"; device_node_id := "rcs" |} in
  on_message c {| topic := "homeassistant/climate/rcs/zone_2/set/setpoint"; payload := "72" |}
    sample.state
    = (set_setpoint "zone_2" (Py.float_of_int 72) sample.state, []) /\
  on_message c {| topic := "homeassistant/climate/rcs/zone_2/set/setpoint"; payload := "warm" |}
    sample.state
    = (Returned tt, sample.state, [Bad_setpoint_payload "warm"]).
Proof.
  intros c. split.
  - apply (X18_setpoint_message c "zone_2" "72" sample.state); reflexivity.
  - apply (X18_setpoint_message c "zone_2" "warm" sample.state); reflexivity.
Defined.

(** X19: a set-mode message in the two versions of the handler.  For a
    connected client whose topic root and node id hold no slash, and an
    entity name without a slash, take a message on
    [<root>/climate/<node>/<entity>/set/mode].  The top-level version never
    reaches [set_mode]: whatever the payload, it leaves the state as it was
    and logs the payload as a bad mode, the payload being a [bytes] looked
    for among [str] values.  The version under [src/] decodes the payload
    first: one of the four mode words does exactly what [set_mode] does for
    that entity and that word, and logs nothing; a payload that is not
    well-formed UTF-8 makes the handler raise [UnicodeDecodeError] with the
    state as it was; any other payload is logged as a bad mode. *)
Theorem X19_mode_message c (entity : str) (payload' : bytes) st :
  connected c = true ->
  no_char "/" (topic_root c) = true ->
  no_char "/" (device_node_id c) = true ->
  no_char "/" entity = true ->
  let msg :=
    {| topic := (topic_root c ++ "/climate/" ++ device_node_id c ++ "/" ++ entity
                   ++ "/set/" ++ "mode")%string;
       payload := payload' |} in
  on_message c msg st = (Returned tt, st, [Bad_mode_payload (Bytes payload')]) /\
  (In payload' ["off"; "heat"; "cool"; "auto"] ->
   mqtt_dispatch_src.on_message c msg st = (set_mode entity payload' st, [])) /\
  (Py.is_utf8 payload' = false ->
   mqtt_dispatch_src.on_message c msg st = (Raised Py.UnicodeDecodeError, st, [])) /\
  (Py.is_utf8 payload' = true -> ~ In payload' ["off"; "heat"; "cool"; "auto"] ->
   mqtt_dispatch_src.on_message c msg st
     = (Returned tt, st, [Bad_mode_payload (Str payload')])).
Proof.
  intros Hconn Hr Hn He msg. subst msg.
  split; [|split; [|split]].
  - unfold on_message. rewrite Hconn. cbn [negb topic payload].
    rewrite split_command_topic by (assumption || reflexivity).
    cbn [length Nat.eqb andb part nth]. rewrite !String.eqb_refl. cbn [negb orb].
    reflexivity.
  - intros Hin. unfold mqtt_dispatch_src.on_message. rewrite Hconn. cbn [negb topic payload].
    rewrite split_command_topic by (assumption || reflexivity).
    cbn [length Nat.eqb andb part nth]. rewrite !String.eqb_refl. cbn [negb orb].
    change (String.eqb "mode" "setpoint") with false.
    change (String.eqb "mode" "mode") with true. cbn match.
    assert (Py.decode_utf8 payload' = inr payload' /\
            existsb (String.eqb payload') ["off"; "heat"; "cool"; "auto"] = true) as [-> ->].
    { cbn [In] in Hin. destruct Hin as [<-|[<-|[<-|[<-|[]]]]]; split; reflexivity. }
    cbn [negb]. by destruct (set_mode entity payload' st).
  - intros Hbad. unfold mqtt_dispatch_src.on_message. rewrite Hconn. cbn [negb topic payload].
    rewrite split_command_topic by (assumption || reflexivity).
    cbn [length Nat.eqb andb part nth]. rewrite !String.eqb_refl. cbn [negb orb].
    change (String.eqb "mode" "setpoint") with false.
    change (String.eqb "mode" "mode") with true. cbn match.
    unfold Py.decode_utf8. by rewrite Hbad.
  - intros Hok Hout. unfold mqtt_dispatch_src.on_message. rewrite Hconn.
    cbn [negb topic payload].
    rewrite split_command_topic by (assumption || reflexivity).
    cbn [length Nat.eqb andb part nth]. rewrite !String.eqb_refl. cbn [negb orb].
    change (String.eqb "mode" "setpoint") with false.
    change (String.eqb "mode" "mode") with true. cbn match.
    unfold Py.decode_utf8. rewrite Hok.
    destruct (existsb (String.eqb payload') ["off"; "heat"; "cool"; "auto"]) eqn:Hin;
      [|reflexivity].
    apply existsb_eqb_In in Hin. contradiction.
Qed.

Lemma X19_mode_message_witness :
  let c := {| connected := true; topic_root := "homeassistant"; device_node_id := "rcs" |} in
  let topic' := "homeassistant/climate/rcs/zone_2/set/mode" in
  on_message c {| topic := topic'; payload := "heat" |} sample.state
    = (Returned tt, sample.state, [Bad_mode_payload (Bytes "heat")]) /\
  mqtt_dispatch_src.on_message c {| topic := topic'; payload := "heat" |} sample.state
    = (set_mode "zone_2" "heat" sample.state, []) /\
  mqtt_dispatch_src.on_message c {| topic := topic'; payload := String "200" "" |} sample.state
    = (Raised Py.UnicodeDecodeError, sample.state, []) /\
  mqtt_dispatch_src.on_message c {| topic := topic'; payload := "dry" |} sample.state
    = (Returned tt, sample.state, [Bad_mode_payload (Str "dry")]).
Proof.
  intros c topic'.
  pose proof (X19_mode_message c "zone_2" "heat" sample.state
                eq_refl eq_refl eq_refl eq_refl) as (Hold & Hheat & _).
  pose proof (X19_mode_message c "zone_2" (String "200" "") sample.state
                eq_refl eq_refl eq_refl eq_refl) as (_ & _ & Hbad & _).
  pose proof (X19_mode_message c "zone_2" "dry" sample.state
                eq_refl eq_refl eq_refl eq_refl) as (_ & _ & _ & Hdry).
  split; [exact Hold|]. split; [apply Hheat; right; left; reflexivity|].
  split; [apply Hbad; reflexivity|].
  apply Hdry; [reflexivity|].
  cbn [In]. intros [H|[H|[H|[H|[]]]]]; discriminate H.
Defined.

End Messages.

(** ** The two versions of the handler *)

Section Versions.
Import frames invariants mqtt_dispatch.
Implicit Types (st : State) (c : Subscriber) (msg : MQTTMessage).

(** X20: the two versions of the handler part ways on mode commands only.
    For a message whose topic does not end in a sixth piece [mode], both
    versions end the same way and leave the same state, whatever the
    client, the payload and the state; they also log the same, unless the
    topic is the two-piece [<topic_root>/status], which the top-level version
    logs as malformed and the version under [src/] takes for the
    availability topic. *)
Theorem X20_versions_part_on_mode_commands_only c msg st :
  let topic_parts := split_on "/" "" (topic msg) in
  String.eqb (part topic_parts 5) "mode" = false ->
  fst (mqtt_dispatch_src.on_message c msg st) = fst (on_message c msg st) /\
  (((length topic_parts =? 2)%nat
    && String.eqb (part topic_parts 0) (topic_root c)
    && String.eqb (part topic_parts 1) "status") = false ->
   mqtt_dispatch_src.on_message c msg st = on_message c msg st).
Proof.
  intros topic_parts Hcmd.
  assert (String.eqb (part topic_parts 0) (device_topic_prefix c) = false) as Hdead
    by (apply String.eqb_neq, first_piece_is_no_prefix).
  unfold mqtt_dispatch_src.on_message, on_message. fold topic_parts.
  destruct (connected c); cbn [negb]; [|by split].
  rewrite Hdead, andb_false_r. cbn [andb].
  change (text_eq (Bytes (payload msg)) (Str "online")) with false. cbn match.
  rewrite Hcmd.
  destruct ((length topic_parts =? 2)%nat) eqn:Hlen.
  - cbn [negb andb orb].
    assert ((length topic_parts =? 6)%nat = false) as ->.
    { apply Nat.eqb_eq in Hlen. rewrite Hlen. reflexivity. }
    cbn [negb orb].
    destruct (String.eqb (part topic_parts 0) (topic_root c)
              && String.eqb (part topic_parts 1) "status"); split; try reflexivity.
    discriminate.
  - cbn [andb]. by split.
Qed.

Lemma X20_versions_part_on_mode_commands_only_witness :
  let c := {| connected := true; topic_root := "homeassistant"; device_node_id := "rcs" |} in
  let setpoint :=
    {| topic := "homeassistant/climate/rcs/zone_2/set/setpoint"; payload := "72" |} in
  let status := {| topic := "homeassistant/status"; payload := "online" |} in
  mqtt_dispatch_src.on_message c setpoint sample.state = on_message c setpoint sample.state /\
  fst (mqtt_dispatch_src.on_message c status sample.state)
    = fst (on_message c status sample.state) /\
  snd (mqtt_dispatch_src.on_message c status sample.state) = [] /\
  snd (on_message c status sample.state)
    = [Got_message_with_malformed_topic "homeassistant/status"].
Proof.
  intros c setpoint status.
  split; [|split; [|split; reflexivity]].
  - apply (X20_versions_part_on_mode_commands_only c setpoint sample.state); reflexivity.
  - apply (X20_versions_part_on_mode_commands_only c status sample.state). reflexivity.
Defined.

End Versions.
